(** * RentalTrust: the in-memory storage layer and its dashboard aggregation

    A shallow embedding of [MemStorage] (the class implementing [IStorage])
    and of the row types of [shared/schema.ts], followed by the properties
    of the storage layer: id generation, not-found behaviour, occupancy
    bookkeeping of units, the landlord-scoped joins and the dashboard
    summary.

    Conventions.
    - A JavaScript [Map<number, V>] is an insertion-ordered association
      list ([JsMap]); [Array.from(m.values())] is [JsMap.values].
    - Ids and the other integer columns are [Z]; the id counters are exact
      integers (as JavaScript numbers are below 2^53).
    - [async] methods run to completion one after the other: a method is a
      function from the store to a result and the next store.
    - [new Date()] is an input of the method that reads the clock. *)

From Stdlib Require Import ZArith List String Ascii Bool Lia.
From Stdlib Require Import Permutation Sorted DecimalString.
Import ListNotations.
Local Open Scope Z_scope.

(** ** JavaScript [Map] with number keys *)

Module JsMap.

Definition t (V : Type) : Type := list (Z * V).

Definition empty {V : Type} : t V := [].

(** [Map.prototype.get]: [None] is [undefined]. *)
Fixpoint get {V : Type} (k : Z) (m : t V) : option V :=
  match m with
  | [] => None
  | (k', v) :: m' => if k' =? k then Some v else get k m'
  end.

(** [Map.prototype.set]: an existing key keeps its position, a new key
    is appended. *)
Fixpoint set {V : Type} (k : Z) (v : V) (m : t V) : t V :=
  match m with
  | [] => [(k, v)]
  | (k', v') :: m' =>
      if k' =? k then (k, v) :: m' else (k', v') :: set k v m'
  end.

Definition has {V : Type} (k : Z) (m : t V) : bool :=
  match get k m with Some _ => true | None => false end.

Definition remove {V : Type} (k : Z) (m : t V) : t V :=
  filter (fun e => negb (fst e =? k)) m.

(** [Map.prototype.delete]: tells whether the key was present. *)
Definition delete {V : Type} (k : Z) (m : t V) : bool * t V :=
  (has k m, remove k m).

Definition keys {V : Type} (m : t V) : list Z := map fst m.

(** [Array.from(m.values())]. *)
Definition values {V : Type} (m : t V) : list V := map snd m.

End JsMap.

(** [Array.prototype.includes] on a list of numbers. *)
Definition includes (l : list Z) (x : Z) : bool :=
  existsb (fun y => y =? x) l.

(** The value a spread [{...row, ...partial}] leaves in one field: the
    partial's value when the partial has the property. *)
Definition spread {A : Type} (old : A) (new : option A) : A :=
  match new with Some x => x | None => old end.

(** ** Dates

    A [Date] is seen through the three readings the storage layer takes of
    it: the epoch milliseconds (what [<], [>] and [getTime] compare) and
    the local calendar year and month index (0 = January). Every date is a
    valid one. *)

Record Date : Type := mkDate {
  getTime : Z;
  getFullYear : Z;
  getMonth : Z
}.

(** ** Row types of [shared/schema.ts]

    For each table: the row type [t], the insert type (every column but
    [id] and [createdAt], with the type the row has for it, as the
    annotation of the row a create method builds asks) and, where the store
    has an update method, the object an update is given, a field of which
    is [None] when the object lacks the property. [numeric] columns are
    strings, nullable columns are options.

    An update is declared to take a partial of the insert type, but that is
    checked at compile time only, a row is itself assignable to it, and the
    [PUT] routes hand over the request body as it came. The spread
    [{ ...row, ...data }] copies every property of the object, so the object
    of an update is modelled with the two remaining columns of the row too:
    when it carries [id] or [createdAt], the spread overwrites them like any
    other column. *)

Module User.
Record t : Type := mk {
  id : Z;
  username : string;
  password : string;
  firstName : string;
  lastName : string;
  email : string;
  phone : option string;
  userType : string;
  createdAt : Date
}.
Record Insert : Type := mkInsert {
  i_username : string;
  i_password : string;
  i_firstName : string;
  i_lastName : string;
  i_email : string;
  i_phone : option string;
  i_userType : string
}.
(** [{ ...insertUser, id, createdAt: now }] *)
Definition create (ins : Insert) (new_id : Z) (now : Date) : t :=
  mk new_id (i_username ins) (i_password ins) (i_firstName ins)
     (i_lastName ins) (i_email ins) (i_phone ins) (i_userType ins) now.
End User.

Module Property.
Record t : Type := mk {
  id : Z;
  landlordId : Z;
  name : string;
  address : string;
  city : string;
  state : string;
  zip : string;
  totalUnits : Z;
  isActive : bool;
  createdAt : Date
}.
Record Insert : Type := mkInsert {
  i_landlordId : Z;
  i_name : string;
  i_address : string;
  i_city : string;
  i_state : string;
  i_zip : string;
  i_totalUnits : Z;
  i_isActive : bool
}.
Record Partial : Type := mkPartial {
  p_id : option Z;
  p_landlordId : option Z;
  p_name : option string;
  p_address : option string;
  p_city : option string;
  p_state : option string;
  p_zip : option string;
  p_totalUnits : option Z;
  p_isActive : option bool;
  p_createdAt : option Date
}.
Definition create (ins : Insert) (new_id : Z) (now : Date) : t :=
  mk new_id (i_landlordId ins) (i_name ins) (i_address ins) (i_city ins)
     (i_state ins) (i_zip ins) (i_totalUnits ins) (i_isActive ins) now.
(** [{ ...property, ...propertyData }] *)
Definition merge (r : t) (p : Partial) : t :=
  mk (spread (id r) (p_id p))
     (spread (landlordId r) (p_landlordId p))
     (spread (name r) (p_name p))
     (spread (address r) (p_address p))
     (spread (city r) (p_city p))
     (spread (state r) (p_state p))
     (spread (zip r) (p_zip p))
     (spread (totalUnits r) (p_totalUnits p))
     (spread (isActive r) (p_isActive p))
     (spread (createdAt r) (p_createdAt p)).
End Property.


Module Unit.
Record t : Type := mk {
  id : Z;
  propertyId : Z;
  unitNumber : string;
  monthlyRent : string;
  bedrooms : Z;
  bathrooms : string;
  sqft : option Z;
  description : option string;
  isOccupied : bool;
  createdAt : Date
}.
Record Insert : Type := mkInsert {
  i_propertyId : Z;
  i_unitNumber : string;
  i_monthlyRent : string;
  i_bedrooms : Z;
  i_bathrooms : string;
  i_sqft : option Z;
  i_description : option string;
  i_isOccupied : bool
}.
Record Partial : Type := mkPartial {
  p_id : option Z;
  p_propertyId : option Z;
  p_unitNumber : option string;
  p_monthlyRent : option string;
  p_bedrooms : option Z;
  p_bathrooms : option string;
  p_sqft : option (option Z);
  p_description : option (option string);
  p_isOccupied : option bool;
  p_createdAt : option Date
}.
Definition create (ins : Insert) (new_id : Z) (now : Date) : t :=
  mk new_id (i_propertyId ins) (i_unitNumber ins) (i_monthlyRent ins)
     (i_bedrooms ins) (i_bathrooms ins) (i_sqft ins) (i_description ins)
     (i_isOccupied ins) now.
Definition merge (r : t) (p : Partial) : t :=
  mk (spread (id r) (p_id p))
     (spread (propertyId r) (p_propertyId p))
     (spread (unitNumber r) (p_unitNumber p))
     (spread (monthlyRent r) (p_monthlyRent p))
     (spread (bedrooms r) (p_bedrooms p))
     (spread (bathrooms r) (p_bathrooms p))
     (spread (sqft r) (p_sqft p))
     (spread (description r) (p_description p))
     (spread (isOccupied r) (p_isOccupied p))
     (spread (createdAt r) (p_createdAt p)).
(** The object literal [{ isOccupied: b }]. *)
Definition occupancy (b : bool) : Partial :=
  mkPartial None None None None None None None None (Some b) None.
End Unit.

Module Tenant.
Record t : Type := mk {
  id : Z;
  userId : Z;
  unitId : Z;
  leaseStartDate : Date;
  leaseEndDate : Date;
  rentDueDay : Z;
  isActive : bool;
  createdAt : Date
}.
Record Insert : Type := mkInsert {
  i_userId : Z;
  i_unitId : Z;
  i_leaseStartDate : Date;
  i_leaseEndDate : Date;
  i_rentDueDay : Z;
  i_isActive : bool
}.
Record Partial : Type := mkPartial {
  p_id : option Z;
  p_userId : option Z;
  p_unitId : option Z;
  p_leaseStartDate : option Date;
  p_leaseEndDate : option Date;
  p_rentDueDay : option Z;
  p_isActive : option bool;
  p_createdAt : option Date
}.
Definition create (ins : Insert) (new_id : Z) (now : Date) : t :=
  mk new_id (i_userId ins) (i_unitId ins) (i_leaseStartDate ins)
     (i_leaseEndDate ins) (i_rentDueDay ins) (i_isActive ins) now.
Definition merge (r : t) (p : Partial) : t :=
  mk (spread (id r) (p_id p))
     (spread (userId r) (p_userId p))
     (spread (unitId r) (p_unitId p))
     (spread (leaseStartDate r) (p_leaseStartDate p))
     (spread (leaseEndDate r) (p_leaseEndDate p))
     (spread (rentDueDay r) (p_rentDueDay p))
     (spread (isActive r) (p_isActive p))
     (spread (createdAt r) (p_createdAt p)).
End Tenant.

Module Payment.
Record t : Type := mk {
  id : Z;
  tenantId : Z;
  amount : string;
  dueDate : Date;
  paymentDate : option Date;
  status : string;
  paymentMethod : option string;
  notes : option string;
  createdAt : Date
}.
Record Insert : Type := mkInsert {
  i_tenantId : Z;
  i_amount : string;
  i_dueDate : Date;
  i_paymentDate : option Date;
  i_status : string;
  i_paymentMethod : option string;
  i_notes : option string
}.
Record Partial : Type := mkPartial {
  p_id : option Z;
  p_tenantId : option Z;
  p_amount : option string;
  p_dueDate : option Date;
  p_paymentDate : option (option Date);
  p_status : option string;
  p_paymentMethod : option (option string);
  p_notes : option (option string);
  p_createdAt : option Date
}.
Definition create (ins : Insert) (new_id : Z) (now : Date) : t :=
  mk new_id (i_tenantId ins) (i_amount ins) (i_dueDate ins)
     (i_paymentDate ins) (i_status ins) (i_paymentMethod ins) (i_notes ins)
     now.
Definition merge (r : t) (p : Partial) : t :=
  mk (spread (id r) (p_id p))
     (spread (tenantId r) (p_tenantId p))
     (spread (amount r) (p_amount p))
     (spread (dueDate r) (p_dueDate p))
     (spread (paymentDate r) (p_paymentDate p))
     (spread (status r) (p_status p))
     (spread (paymentMethod r) (p_paymentMethod p))
     (spread (notes r) (p_notes p))
     (spread (createdAt r) (p_createdAt p)).
End Payment.

Module Notification.
Record t : Type := mk {
  id : Z;
  userId : Z;
  message : string;
  type : string;
  isRead : bool;
  createdAt : Date
}.
Record Insert : Type := mkInsert {
  i_userId : Z;
  i_message : string;
  i_type : string;
  i_isRead : bool
}.
Record Partial : Type := mkPartial {
  p_id : option Z;
  p_userId : option Z;
  p_message : option string;
  p_type : option string;
  p_isRead : option bool;
  p_createdAt : option Date
}.
Definition create (ins : Insert) (new_id : Z) (now : Date) : t :=
  mk new_id (i_userId ins) (i_message ins) (i_type ins) (i_isRead ins) now.
Definition merge (r : t) (p : Partial) : t :=
  mk (spread (id r) (p_id p))
     (spread (userId r) (p_userId p))
     (spread (message r) (p_message p))
     (spread (type r) (p_type p))
     (spread (isRead r) (p_isRead p))
     (spread (createdAt r) (p_createdAt p)).
(** [{ ...notification, isRead: true }] *)
Definition read (r : t) : t :=
  mk (id r) (userId r) (message r) (type r) true (createdAt r).
End Notification.

(** ** The store *)

(** The six entity types, each with its own id counter. *)
Inductive Kind : Type :=
  | KUser | KProperty | KUnit | KTenant | KPayment | KNotification.

(** The object [currentId], one counter per entity type. *)
Module CurrentId.
Record t : Type := mk {
  user : Z;
  property : Z;
  unit : Z;
  tenant : Z;
  payment : Z;
  notification : Z
}.
Definition get (k : Kind) (c : t) : Z :=
  match k with
  | KUser => user c
  | KProperty => property c
  | KUnit => unit c
  | KTenant => tenant c
  | KPayment => payment c
  | KNotification => notification c
  end.
(** [this.currentId.<k>++] leaves this record (the old value is read
    before). *)
Definition incr (k : Kind) (c : t) : t :=
  match k with
  | KUser => mk (user c + 1) (property c) (unit c) (tenant c) (payment c) (notification c)
  | KProperty => mk (user c) (property c + 1) (unit c) (tenant c) (payment c) (notification c)
  | KUnit => mk (user c) (property c) (unit c + 1) (tenant c) (payment c) (notification c)
  | KTenant => mk (user c) (property c) (unit c) (tenant c + 1) (payment c) (notification c)
  | KPayment => mk (user c) (property c) (unit c) (tenant c) (payment c + 1) (notification c)
  | KNotification => mk (user c) (property c) (unit c) (tenant c) (payment c) (notification c + 1)
  end.
End CurrentId.

(** [Tenant & { user: User, unit: Unit & { property: Property } }]. The
    non-null assertions on [user] and [property] check nothing at run time,
    so both may be [undefined]. *)
Record TenantView : Type := mkTenantView {
  tv_tenant : Tenant.t;
  tv_user : option User.t;
  tv_unit : Unit.t;
  tv_property : option Property.t
}.

(** [Payment & { tenant: ... }]; [tenant] is what [Array.find] returned. *)
Record PaymentView : Type := mkPaymentView {
  pv_payment : Payment.t;
  pv_tenant : option TenantView
}.

(** [Array.map] with a callback that may throw: the first exception ends
    the whole call ([None]). *)
Fixpoint map_throw {A B : Type} (f : A -> option B) (l : list A)
  : option (list B) :=
  match l with
  | [] => Some []
  | x :: l' =>
      match f x with
      | None => None
      | Some y =>
          match map_throw f l' with
          | None => None
          | Some ys => Some (y :: ys)
          end
      end
  end.

(** [Array.prototype.sort(compare)]: the sort is stable, and for a
    comparator that orders its arguments consistently the result is the
    stable insertion of every element, [a] staying before [b] when
    [compare(a, b) <= 0]. *)
Fixpoint insert_by {A : Type} (compare : A -> A -> Z) (x : A) (l : list A)
  : list A :=
  match l with
  | [] => [x]
  | y :: l' =>
      if compare x y <=? 0 then x :: y :: l' else y :: insert_by compare x l'
  end.

Definition sort_by {A : Type} (compare : A -> A -> Z) (l : list A) : list A :=
  fold_right (insert_by compare) [] l.

(** [Number.prototype.toString] of an integer and [String.prototype.slice]
    with a start index only. *)
Definition toString (z : Z) : string := NilZero.string_of_int (Z.to_int z).

Definition slice (start : nat) (s : string) : string :=
  substring start (String.length s - start) s.

(** The calendar reading of [new Date(year, monthIndex, 1)], as
    [(getFullYear, getMonth)]: the month index is carried into the year,
    and a year from 0 to 99 stands for 1900 + year. *)
Definition firstOfMonth (year monthIndex : Z) : Z * Z :=
  let y := if (0 <=? year) && (year <=? 99) then 1900 + year else year in
  (y + monthIndex / 12, monthIndex mod 12).

Module MemStorage.

Record t : Type := mk {
  userMap : JsMap.t User.t;
  propertyMap : JsMap.t Property.t;
  unitMap : JsMap.t Unit.t;
  tenantMap : JsMap.t Tenant.t;
  paymentMap : JsMap.t Payment.t;
  notificationMap : JsMap.t Notification.t;
  currentId : CurrentId.t
}.

(** The constructor: six empty maps, every counter at 1. *)
Definition new : t :=
  mk JsMap.empty JsMap.empty JsMap.empty JsMap.empty JsMap.empty JsMap.empty
     (CurrentId.mk 1 1 1 1 1 1).

Definition with_userMap (m : JsMap.t User.t) (s : t) : t :=
  mk m (propertyMap s) (unitMap s) (tenantMap s) (paymentMap s)
     (notificationMap s) (currentId s).
Definition with_propertyMap (m : JsMap.t Property.t) (s : t) : t :=
  mk (userMap s) m (unitMap s) (tenantMap s) (paymentMap s)
     (notificationMap s) (currentId s).
Definition with_unitMap (m : JsMap.t Unit.t) (s : t) : t :=
  mk (userMap s) (propertyMap s) m (tenantMap s) (paymentMap s)
     (notificationMap s) (currentId s).
Definition with_tenantMap (m : JsMap.t Tenant.t) (s : t) : t :=
  mk (userMap s) (propertyMap s) (unitMap s) m (paymentMap s)
     (notificationMap s) (currentId s).
Definition with_paymentMap (m : JsMap.t Payment.t) (s : t) : t :=
  mk (userMap s) (propertyMap s) (unitMap s) (tenantMap s) m
     (notificationMap s) (currentId s).
Definition with_notificationMap (m : JsMap.t Notification.t) (s : t) : t :=
  mk (userMap s) (propertyMap s) (unitMap s) (tenantMap s) (paymentMap s)
     m (currentId s).

(** [const id = this.currentId.<k>++]: the id read and the store with the
    counter moved on. *)
Definition next_id (k : Kind) (s : t) : Z * t :=
  (CurrentId.get k (currentId s),
   mk (userMap s) (propertyMap s) (unitMap s) (tenantMap s) (paymentMap s)
      (notificationMap s) (CurrentId.incr k (currentId s))).

(** *** Users *)

Definition getUser (id : Z) (s : t) : option User.t :=
  JsMap.get id (userMap s).

Definition getUserByUsername (username : string) (s : t) : option User.t :=
  find (fun user => String.eqb (User.username user) username)
       (JsMap.values (userMap s)).

Definition createUser (now : Date) (insertUser : User.Insert) (s : t)
  : User.t * t :=
  let (id, s1) := next_id KUser s in
  let user := User.create insertUser id now in
  (user, with_userMap (JsMap.set id user (userMap s1)) s1).

(** *** Properties *)

Definition getProperty (id : Z) (s : t) : option Property.t :=
  JsMap.get id (propertyMap s).

Definition getPropertiesByLandlord (landlordId : Z) (s : t)
  : list Property.t :=
  filter (fun property => Property.landlordId property =? landlordId)
         (JsMap.values (propertyMap s)).

Definition createProperty (now : Date) (insertProperty : Property.Insert)
  (s : t) : Property.t * t :=
  let (id, s1) := next_id KProperty s in
  let property := Property.create insertProperty id now in
  (property, with_propertyMap (JsMap.set id property (propertyMap s1)) s1).

Definition updateProperty (id : Z) (propertyData : Property.Partial) (s : t)
  : option Property.t * t :=
  match JsMap.get id (propertyMap s) with
  | None => (None, s)
  | Some property =>
      let updatedProperty := Property.merge property propertyData in
      (Some updatedProperty,
       with_propertyMap (JsMap.set id updatedProperty (propertyMap s)) s)
  end.

Definition deleteProperty (id : Z) (s : t) : bool * t :=
  let (present, m) := JsMap.delete id (propertyMap s) in
  (present, with_propertyMap m s).

(** *** Units *)

Definition getUnit (id : Z) (s : t) : option Unit.t :=
  JsMap.get id (unitMap s).

Definition getUnitsByProperty (propertyId : Z) (s : t) : list Unit.t :=
  filter (fun unit => Unit.propertyId unit =? propertyId)
         (JsMap.values (unitMap s)).

Definition createUnit (now : Date) (insertUnit : Unit.Insert) (s : t)
  : Unit.t * t :=
  let (id, s1) := next_id KUnit s in
  let unit := Unit.create insertUnit id now in
  (unit, with_unitMap (JsMap.set id unit (unitMap s1)) s1).

Definition updateUnit (id : Z) (unitData : Unit.Partial) (s : t)
  : option Unit.t * t :=
  match JsMap.get id (unitMap s) with
  | None => (None, s)
  | Some unit =>
      let updatedUnit := Unit.merge unit unitData in
      (Some updatedUnit, with_unitMap (JsMap.set id updatedUnit (unitMap s)) s)
  end.

Definition deleteUnit (id : Z) (s : t) : bool * t :=
  let (present, m) := JsMap.delete id (unitMap s) in
  (present, with_unitMap m s).

(** *** Tenants *)

Definition getTenant (id : Z) (s : t) : option Tenant.t :=
  JsMap.get id (tenantMap s).

(** The callback of the final [tenants.map]: reading [unit.propertyId] of
    an [undefined] unit throws a [TypeError]. *)
Definition tenantView (s : t) (tenant : Tenant.t) : option TenantView :=
  let user := JsMap.get (Tenant.userId tenant) (userMap s) in
  match JsMap.get (Tenant.unitId tenant) (unitMap s) with
  | None => None
  | Some unit =>
      let property := JsMap.get (Unit.propertyId unit) (propertyMap s) in
      Some (mkTenantView tenant user unit property)
  end.

(** The tenant rows the scans of [getTenantsByLandlord] select, before the
    join with their user, unit and property. *)
Definition tenantsOfLandlord (landlordId : Z) (s : t) : list Tenant.t :=
  let properties := getPropertiesByLandlord landlordId s in
  let propertyIds := map Property.id properties in
  let units :=
    filter (fun unit => includes propertyIds (Unit.propertyId unit))
           (JsMap.values (unitMap s)) in
  let unitIds := map Unit.id units in
  filter (fun tenant => includes unitIds (Tenant.unitId tenant))
         (JsMap.values (tenantMap s)).

Definition getTenantsByLandlord (landlordId : Z) (s : t)
  : option (list TenantView) :=
  map_throw (tenantView s) (tenantsOfLandlord landlordId s).

Definition getTenantByUserId (userId : Z) (s : t) : option Tenant.t :=
  find (fun tenant => Tenant.userId tenant =? userId)
       (JsMap.values (tenantMap s)).

Definition createTenant (now : Date) (insertTenant : Tenant.Insert) (s : t)
  : Tenant.t * t :=
  let (id, s1) := next_id KTenant s in
  let tenant := Tenant.create insertTenant id now in
  let s2 := with_tenantMap (JsMap.set id tenant (tenantMap s1)) s1 in
  (* Update the unit's occupancy status *)
  match getUnit (Tenant.unitId tenant) s2 with
  | Some unit =>
      (tenant, snd (updateUnit (Unit.id unit) (Unit.occupancy true) s2))
  | None => (tenant, s2)
  end.

(** The filter shared by [updateTenant] and [deleteTenant]:
    [t => t.id !== id && t.unitId === unit.id && t.isActive]. *)
Definition otherTenants (id : Z) (unit : Unit.t) (s : t) : list Tenant.t :=
  filter (fun t => negb (Tenant.id t =? id)
                   && (Tenant.unitId t =? Unit.id unit)
                   && Tenant.isActive t)
         (JsMap.values (tenantMap s)).

(** [if (otherTenants.length === 0) updateUnit(unit.id, {isOccupied: false})] *)
Definition vacateIfAlone (id : Z) (unit : Unit.t) (s : t) : t :=
  if (List.length (otherTenants id unit s) =? 0)%nat
  then snd (updateUnit (Unit.id unit) (Unit.occupancy false) s)
  else s.

(** The guard [tenantData.unitId && tenantData.unitId !== tenant.unitId]:
    an absent [unitId] and the number 0 are both falsy. *)
Definition unitChanges (tenantData : Tenant.Partial) (tenant : Tenant.t)
  : option Z :=
  match Tenant.p_unitId tenantData with
  | Some newId =>
      if negb (newId =? 0) && negb (newId =? Tenant.unitId tenant)
      then Some newId else None
  | None => None
  end.

Definition updateTenant (id : Z) (tenantData : Tenant.Partial) (s : t)
  : option Tenant.t * t :=
  match JsMap.get id (tenantMap s) with
  | None => (None, s)
  | Some tenant =>
      (* If the unit ID is changing, update the occupancy status of both
         units *)
      let s3 :=
        match unitChanges tenantData tenant with
        | Some newId =>
            let oldUnit := getUnit (Tenant.unitId tenant) s in
            let newUnit := getUnit newId s in
            let s1 :=
              match oldUnit with
              | Some oldUnit => vacateIfAlone id oldUnit s
              | None => s
              end in
            match newUnit with
            | Some newUnit =>
                snd (updateUnit (Unit.id newUnit) (Unit.occupancy true) s1)
            | None => s1
            end
        | None => s
        end in
      let updatedTenant := Tenant.merge tenant tenantData in
      (Some updatedTenant,
       with_tenantMap (JsMap.set id updatedTenant (tenantMap s3)) s3)
  end.

Definition deleteTenant (id : Z) (s : t) : bool * t :=
  let s1 :=
    match JsMap.get id (tenantMap s) with
    | Some tenant =>
        (* Update the unit's occupancy status if there are no other active
           tenants *)
        match getUnit (Tenant.unitId tenant) s with
        | Some unit => vacateIfAlone id unit s
        | None => s
        end
    | None => s
    end in
  let (present, m) := JsMap.delete id (tenantMap s1) in
  (present, with_tenantMap m s1).

(** *** Payments *)

Definition getPayment (id : Z) (s : t) : option Payment.t :=
  JsMap.get id (paymentMap s).

Definition getPaymentsByTenant (tenantId : Z) (s : t) : list Payment.t :=
  filter (fun payment => Payment.tenantId payment =? tenantId)
         (JsMap.values (paymentMap s)).

(** The body of [getPaymentsByLandlord] after [tenants] is there. *)
Definition paymentViews (tenants : list TenantView) (s : t)
  : list PaymentView :=
  let tenantIds := map (fun t => Tenant.id (tv_tenant t)) tenants in
  let payments :=
    filter (fun payment => includes tenantIds (Payment.tenantId payment))
           (JsMap.values (paymentMap s)) in
  map (fun payment =>
         let tenant :=
           find (fun t => Tenant.id (tv_tenant t) =? Payment.tenantId payment)
                tenants in
         mkPaymentView payment tenant)
      payments.

Definition getPaymentsByLandlord (landlordId : Z) (s : t)
  : option (list PaymentView) :=
  match getTenantsByLandlord landlordId s with
  | None => None
  | Some tenants => Some (paymentViews tenants s)
  end.

Definition createPayment (now : Date) (insertPayment : Payment.Insert) (s : t)
  : Payment.t * t :=
  let (id, s1) := next_id KPayment s in
  let payment := Payment.create insertPayment id now in
  (payment, with_paymentMap (JsMap.set id payment (paymentMap s1)) s1).

Definition updatePayment (id : Z) (paymentData : Payment.Partial) (s : t)
  : option Payment.t * t :=
  match JsMap.get id (paymentMap s) with
  | None => (None, s)
  | Some payment =>
      let updatedPayment := Payment.merge payment paymentData in
      (Some updatedPayment,
       with_paymentMap (JsMap.set id updatedPayment (paymentMap s)) s)
  end.

Definition deletePayment (id : Z) (s : t) : bool * t :=
  let (present, m) := JsMap.delete id (paymentMap s) in
  (present, with_paymentMap m s).

(** *** Notifications *)

Definition getNotification (id : Z) (s : t) : option Notification.t :=
  JsMap.get id (notificationMap s).

Definition getNotificationsByUser (userId : Z) (s : t)
  : list Notification.t :=
  sort_by (fun a b => getTime (Notification.createdAt b)
                      - getTime (Notification.createdAt a))
    (filter (fun notification => Notification.userId notification =? userId)
            (JsMap.values (notificationMap s))).

Definition createNotification (now : Date)
  (insertNotification : Notification.Insert) (s : t) : Notification.t * t :=
  let (id, s1) := next_id KNotification s in
  let notification := Notification.create insertNotification id now in
  (notification,
   with_notificationMap (JsMap.set id notification (notificationMap s1)) s1).

Definition updateNotification (id : Z)
  (notificationData : Notification.Partial) (s : t)
  : option Notification.t * t :=
  match JsMap.get id (notificationMap s) with
  | None => (None, s)
  | Some notification =>
      let updatedNotification :=
        Notification.merge notification notificationData in
      (Some updatedNotification,
       with_notificationMap
         (JsMap.set id updatedNotification (notificationMap s)) s)
  end.

Definition deleteNotification (id : Z) (s : t) : bool * t :=
  let (present, m) := JsMap.delete id (notificationMap s) in
  (present, with_notificationMap m s).

Definition markNotificationAsRead (id : Z) (s : t)
  : option Notification.t * t :=
  match JsMap.get id (notificationMap s) with
  | None => (None, s)
  | Some notification =>
      let updatedNotification := Notification.read notification in
      (Some updatedNotification,
       with_notificationMap
         (JsMap.set id updatedNotification (notificationMap s)) s)
  end.

(** *** Dashboard data

    JavaScript numbers and the runtime's locale are parameters: [Num] with
    [zero] and [add] is the number type with [0] and [+], [Number] is the
    conversion of a [numeric] column (a string) to a number, and
    [monthLong] gives [toLocaleString('default', { month: 'long' })] for a
    month index. *)

Section Dashboard.

Variable Num : Type.
Variable zero : Num.
Variable add : Num -> Num -> Num.
Variable Number : string -> Num.
Variable monthLong : Z -> string.

Record PropertyWithUnits : Type := mkPropertyWithUnits {
  pu_property : Property.t;
  units : list Unit.t
}.

Record MonthIncome : Type := mkMonthIncome {
  month : string;
  amount : Num
}.

Record DashboardData : Type := mkDashboardData {
  propertiesCount : nat;
  tenantsCount : nat;
  upcomingPaymentsTotal : Num;
  overduePaymentsTotal : Num;
  properties : list PropertyWithUnits;
  tenantActivity : list PaymentView;
  monthlyIncome : list MonthIncome
}.

(** [l.reduce((sum, p) => sum + Number(p.amount), 0)] *)
Definition total (l : list PaymentView) : Num :=
  fold_left (fun sum p => add sum (Number (Payment.amount (pv_payment p))))
            l zero.

(** [p.status === 'pending' && new Date(p.dueDate) > now] *)
Definition isUpcoming (now : Date) (p : PaymentView) : bool :=
  String.eqb (Payment.status (pv_payment p)) "pending"
  && (getTime now <? getTime (Payment.dueDate (pv_payment p))).

(** [p.status === 'overdue' ||
     (p.status === 'pending' && new Date(p.dueDate) < now)] *)
Definition isOverdue (now : Date) (p : PaymentView) : bool :=
  String.eqb (Payment.status (pv_payment p)) "overdue"
  || (String.eqb (Payment.status (pv_payment p)) "pending"
      && (getTime (Payment.dueDate (pv_payment p)) <? getTime now)).

(** The callback of [payments.filter] inside the loop; [m] is the calendar
    reading of the loop's [month]. *)
Definition inMonth (m : Z * Z) (p : PaymentView) : bool :=
  match Payment.paymentDate (pv_payment p) with
  | None => false
  | Some paymentDate =>
      (getMonth paymentDate =? snd m)
      && (getFullYear paymentDate =? fst m)
      && String.eqb (Payment.status (pv_payment p)) "paid"
  end.

(** One turn of the loop: the entry pushed for the counter [i]. *)
Definition monthEntry (today : Date) (payments : list PaymentView) (i : Z)
  : MonthIncome :=
  let m := firstOfMonth (getFullYear today) (getMonth today - i) in
  let monthName := monthLong (snd m) in
  let yearShort := slice 2 (toString (fst m)) in
  let monthPayments := filter (inMonth m) payments in
  mkMonthIncome (String.append monthName (String.append " '" yearShort))
                (total monthPayments).

(** [for (let i = ...; i >= 0; i--) { ...; monthlyIncome.push(...) }]
    entered with the counter at [i]. *)
Fixpoint monthlyIncomeLoop (today : Date) (payments : list PaymentView)
  (i : nat) (acc : list MonthIncome) : list MonthIncome :=
  let acc' := acc ++ [monthEntry today payments (Z.of_nat i)] in
  match i with
  | O => acc'
  | S i' => monthlyIncomeLoop today payments i' acc'
  end.

(** The comparator of [payments.sort]:
    [new Date(b.createdAt).getTime() - new Date(a.createdAt).getTime()]. *)
Definition newestFirst (a b : PaymentView) : Z :=
  getTime (Payment.createdAt (pv_payment b))
  - getTime (Payment.createdAt (pv_payment a)).

(** [now] and [today] are the two clock readings of the method.
    [payments.sort] sorts the array in place, so the loop over the months
    reads the sorted array. *)
Definition getDashboardData (now today : Date) (landlordId : Z) (s : t)
  : option DashboardData :=
  let landlordProperties := getPropertiesByLandlord landlordId s in
  match getTenantsByLandlord landlordId s with
  | None => None
  | Some tenants =>
      match getPaymentsByLandlord landlordId s with
      | None => None
      | Some payments =>
          let upcomingPayments := filter (isUpcoming now) payments in
          let overduePayments := filter (isOverdue now) payments in
          let propertiesWithUnits :=
            map (fun property =>
                   mkPropertyWithUnits property
                     (getUnitsByProperty (Property.id property) s))
                landlordProperties in
          let sorted := sort_by newestFirst payments in
          let activity := firstn 10 sorted in
          let income := monthlyIncomeLoop today sorted 5 [] in
          Some (mkDashboardData
                  (List.length landlordProperties)
                  (List.length tenants)
                  (total upcomingPayments)
                  (total overduePayments)
                  propertiesWithUnits
                  activity
                  income)
      end
  end.

End Dashboard.

End MemStorage.

Arguments MemStorage.month {Num} _.
Arguments MemStorage.amount {Num} _.
Arguments MemStorage.mkMonthIncome {Num} _ _.
Arguments MemStorage.propertiesCount {Num} _.
Arguments MemStorage.tenantsCount {Num} _.
Arguments MemStorage.upcomingPaymentsTotal {Num} _.
Arguments MemStorage.overduePaymentsTotal {Num} _.
Arguments MemStorage.properties {Num} _.
Arguments MemStorage.tenantActivity {Num} _.
Arguments MemStorage.monthlyIncome {Num} _.

(** ** Histories of the store

    The mutating methods of [IStorage], as the requests a process serves
    one after the other from the store its constructor built. *)

Inductive Op : Type :=
  | CreateUser (now : Date) (data : User.Insert)
  | CreateProperty (now : Date) (data : Property.Insert)
  | UpdateProperty (id : Z) (data : Property.Partial)
  | DeleteProperty (id : Z)
  | CreateUnit (now : Date) (data : Unit.Insert)
  | UpdateUnit (id : Z) (data : Unit.Partial)
  | DeleteUnit (id : Z)
  | CreateTenant (now : Date) (data : Tenant.Insert)
  | UpdateTenant (id : Z) (data : Tenant.Partial)
  | DeleteTenant (id : Z)
  | CreatePayment (now : Date) (data : Payment.Insert)
  | UpdatePayment (id : Z) (data : Payment.Partial)
  | DeletePayment (id : Z)
  | CreateNotification (now : Date) (data : Notification.Insert)
  | UpdateNotification (id : Z) (data : Notification.Partial)
  | DeleteNotification (id : Z)
  | MarkNotificationAsRead (id : Z).

(** One call: the id of the record a create returned, with its entity type
    ([None] for the other methods), and the next store. *)
Definition exec (o : Op) (s : MemStorage.t) : option (Kind * Z) * MemStorage.t :=
  match o with
  | CreateUser now d =>
      let (r, s') := MemStorage.createUser now d s in
      (Some (KUser, User.id r), s')
  | CreateProperty now d =>
      let (r, s') := MemStorage.createProperty now d s in
      (Some (KProperty, Property.id r), s')
  | UpdateProperty id d => (None, snd (MemStorage.updateProperty id d s))
  | DeleteProperty id => (None, snd (MemStorage.deleteProperty id s))
  | CreateUnit now d =>
      let (r, s') := MemStorage.createUnit now d s in
      (Some (KUnit, Unit.id r), s')
  | UpdateUnit id d => (None, snd (MemStorage.updateUnit id d s))
  | DeleteUnit id => (None, snd (MemStorage.deleteUnit id s))
  | CreateTenant now d =>
      let (r, s') := MemStorage.createTenant now d s in
      (Some (KTenant, Tenant.id r), s')
  | UpdateTenant id d => (None, snd (MemStorage.updateTenant id d s))
  | DeleteTenant id => (None, snd (MemStorage.deleteTenant id s))
  | CreatePayment now d =>
      let (r, s') := MemStorage.createPayment now d s in
      (Some (KPayment, Payment.id r), s')
  | UpdatePayment id d => (None, snd (MemStorage.updatePayment id d s))
  | DeletePayment id => (None, snd (MemStorage.deletePayment id s))
  | CreateNotification now d =>
      let (r, s') := MemStorage.createNotification now d s in
      (Some (KNotification, Notification.id r), s')
  | UpdateNotification id d =>
      (None, snd (MemStorage.updateNotification id d s))
  | DeleteNotification id => (None, snd (MemStorage.deleteNotification id s))
  | MarkNotificationAsRead id =>
      (None, snd (MemStorage.markNotificationAsRead id s))
  end.

(** A history run from [s]: the ids issued, oldest first, and the final
    store. *)
Fixpoint run (ops : list Op) (s : MemStorage.t)
  : list (Kind * Z) * MemStorage.t :=
  match ops with
  | [] => ([], s)
  | o :: ops' =>
      let (r, s1) := exec o s in
      let (ids, s2) := run ops' s1 in
      (match r with Some i => i :: ids | None => ids end, s2)
  end.

Definition Kind_eqb (a b : Kind) : bool :=
  match a, b with
  | KUser, KUser | KProperty, KProperty | KUnit, KUnit
  | KTenant, KTenant | KPayment, KPayment
  | KNotification, KNotification => true
  | _, _ => false
  end.

(** The ids issued for one entity type, oldest first. *)
Definition issued (k : Kind) (ids : list (Kind * Z)) : list Z :=
  map snd (filter (fun i => Kind_eqb (fst i) k) ids).

(** The integers [from], [from + 1], ..., [n] of them. *)
Fixpoint count_from (from : Z) (n : nat) : list Z :=
  match n with
  | O => []
  | S n' => from :: count_from (from + 1) n'
  end.

(** ** Consistency of a store

    In each map the keys are distinct, a row sits under its own id, and the
    ids are positive and below the counter of the entity type, which is at
    least 1. The constructor's store is consistent, and every call keeps a
    store so but an update whose object carries an [id] other than the one
    the row is stored under. *)

Fixpoint distinct (l : list Z) : bool :=
  match l with
  | [] => true
  | k :: l' => negb (includes l' k) && distinct l'
  end.

Definition table_ok {V : Type} (id_of : V -> Z) (next : Z) (m : JsMap.t V)
  : bool :=
  (1 <=? next)
  && distinct (JsMap.keys m)
  && forallb (fun e => (id_of (snd e) =? fst e)
                       && (1 <=? fst e) && (fst e <? next)) m.

Definition consistent (s : MemStorage.t) : bool :=
  let c := MemStorage.currentId s in
  table_ok User.id (CurrentId.user c) (MemStorage.userMap s)
  && table_ok Property.id (CurrentId.property c) (MemStorage.propertyMap s)
  && table_ok Unit.id (CurrentId.unit c) (MemStorage.unitMap s)
  && table_ok Tenant.id (CurrentId.tenant c) (MemStorage.tenantMap s)
  && table_ok Payment.id (CurrentId.payment c) (MemStorage.paymentMap s)
  && table_ok Notification.id (CurrentId.notification c)
       (MemStorage.notificationMap s).

(** What is left of consistency when rows may carry any id: in each map
    the keys are distinct, positive and below the counter of the entity
    type. *)
Definition keys_ok {V : Type} (next : Z) (m : JsMap.t V) : bool :=
  (1 <=? next)
  && distinct (JsMap.keys m)
  && forallb (fun k => (1 <=? k) && (k <? next)) (JsMap.keys m).

Definition wellKeyed (s : MemStorage.t) : bool :=
  let c := MemStorage.currentId s in
  keys_ok (CurrentId.user c) (MemStorage.userMap s)
  && keys_ok (CurrentId.property c) (MemStorage.propertyMap s)
  && keys_ok (CurrentId.unit c) (MemStorage.unitMap s)
  && keys_ok (CurrentId.tenant c) (MemStorage.tenantMap s)
  && keys_ok (CurrentId.payment c) (MemStorage.paymentMap s)
  && keys_ok (CurrentId.notification c) (MemStorage.notificationMap s).

(** The part of consistency the occupancy check rests on: the units are
    stored under their ids, and the keys of the tenant map are distinct,
    whatever ids the tenant rows carry. *)
Definition unitsKeyed (s : MemStorage.t) : Prop :=
  table_ok Unit.id (CurrentId.unit (MemStorage.currentId s))
    (MemStorage.unitMap s) = true /\
  distinct (JsMap.keys (MemStorage.tenantMap s)) = true.

(** The object of an update of the row under [id] leaves the row its id:
    it carries no [id], or that very id. *)
Definition sameId (id : Z) (data_id : option Z) : bool :=
  match data_id with
  | Some i => i =? id
  | None => true
  end.

(** A call that leaves every row the id it is stored under: any call but
    an update whose object carries another id. *)
Definition keepsId (o : Op) : bool :=
  match o with
  | UpdateProperty id d => sameId id (Property.p_id d)
  | UpdateUnit id d => sameId id (Unit.p_id d)
  | UpdateTenant id d => sameId id (Tenant.p_id d)
  | UpdatePayment id d => sameId id (Payment.p_id d)
  | UpdateNotification id d => sameId id (Notification.p_id d)
  | _ => true
  end.

(** ** The properties in the specification's words *)

Module Spec.

(** The active Tenant rows of the store that reference the unit [unitId]. *)
Definition activeTenantsOf (unitId : Z) (s : MemStorage.t) : list Tenant.t :=
  filter (fun t => (Tenant.unitId t =? unitId) && Tenant.isActive t)
         (JsMap.values (MemStorage.tenantMap s)).

(** Every unit of the store is flagged occupied exactly when at least one
    active Tenant row references it. *)
Definition occupancyConsistent (s : MemStorage.t) : bool :=
  forallb (fun u => Bool.eqb (Unit.isOccupied u)
                      (negb (match activeTenantsOf (Unit.id u) s with
                             | [] => true
                             | _ :: _ => false
                             end)))
          (JsMap.values (MemStorage.unitMap s)).

(** No active Tenant row other than the tenant [tenantId] references the
    unit [unitId]. *)
Definition noOtherActiveTenant (tenantId unitId : Z) (s : MemStorage.t)
  : bool :=
  forallb (fun t => Tenant.id t =? tenantId) (activeTenantsOf unitId s).

(** The same notions over the keys of the maps. Some active Tenant row of
    the tenant map [m] references the unit [unitId]; some such row other
    than the one under [tenantId] does; the occupancy flag of every unit
    says whether an active Tenant row references it. *)
Definition occupiedBy (m : JsMap.t Tenant.t) (unitId : Z) : Prop :=
  exists k t, JsMap.get k m = Some t /\
              Tenant.unitId t = unitId /\ Tenant.isActive t = true.

Definition occupiedByOther (m : JsMap.t Tenant.t) (tenantId unitId : Z)
  : Prop :=
  exists k t, k <> tenantId /\ JsMap.get k m = Some t /\
              Tenant.unitId t = unitId /\ Tenant.isActive t = true.

Definition occupancyInvariant (s : MemStorage.t) : Prop :=
  forall unitId u,
    JsMap.get unitId (MemStorage.unitMap s) = Some u ->
    (Unit.isOccupied u = true <-> occupiedBy (MemStorage.tenantMap s) unitId).

(** The tenant's unit resolves to a unit whose property resolves to a
    property of the landlord. *)
Definition ownedBy (landlordId : Z) (s : MemStorage.t) (t : Tenant.t) : bool :=
  match JsMap.get (Tenant.unitId t) (MemStorage.unitMap s) with
  | None => false
  | Some u =>
      match JsMap.get (Unit.propertyId u) (MemStorage.propertyMap s) with
      | None => false
      | Some p => Property.landlordId p =? landlordId
      end
  end.

Section Income.

Variable Num : Type.
Variable zero : Num.
Variable add : Num -> Num -> Num.
Variable Number : string -> Num.
Variable monthLong : Z -> string.

(** Calendar months counted from January of year 0. *)
Definition monthNumber (d : Date) : Z := 12 * getFullYear d + getMonth d.

Definition calendarMonth (n : Z) : Z * Z := (n / 12, n mod 12).

(** Status paid, and a payment date in the calendar month [m]. *)
Definition paidIn (m : Z * Z) (p : PaymentView) : bool :=
  String.eqb (Payment.status (pv_payment p)) "paid"
  && match Payment.paymentDate (pv_payment p) with
     | Some d => (getFullYear d =? fst m) && (getMonth d =? snd m)
     | None => false
     end.

(** The sum of a list of numbers, added up from 0 in the order of the
    list. *)
Definition sum (l : list Num) : Num := fold_left add l zero.

Definition incomeOf (m : Z * Z) (payments : list PaymentView) : Num :=
  sum (map (fun p => Number (Payment.amount (pv_payment p)))
           (filter (paidIn m) payments)).

Definition digit (d : Z) : ascii := ascii_of_nat (48 + Z.to_nat d).

(** The last two decimal digits of a year. *)
Definition twoDigitYear (y : Z) : string :=
  String (digit (y / 10 mod 10)) (String (digit (y mod 10)) EmptyString).

(** ["<MonthName> '<2-digit year>"] *)
Definition label (m : Z * Z) : string :=
  String.append (monthLong (snd m))
    (String.append " '" (twoDigitYear (fst m))).

(** Six entries, oldest first: the calendar months from five months before
    the current one up to the current one. *)
Definition monthlyIncome (today : Date) (payments : list PaymentView)
  : list (MemStorage.MonthIncome Num) :=
  map (fun k =>
         let m := calendarMonth (monthNumber today - 5 + k) in
         MemStorage.mkMonthIncome (label m) (incomeOf m payments))
      [0; 1; 2; 3; 4; 5].

End Income.

End Spec.

(** ** The empty update

    The object [{}] as a partial of each insert type. *)

Module Empty.
Definition propertyData : Property.Partial :=
  Property.mkPartial None None None None None None None None None None.
Definition unitData : Unit.Partial :=
  Unit.mkPartial None None None None None None None None None None.
Definition tenantData : Tenant.Partial :=
  Tenant.mkPartial None None None None None None None None.
Definition paymentData : Payment.Partial :=
  Payment.mkPartial None None None None None None None None None.
Definition notificationData : Notification.Partial :=
  Notification.mkPartial None None None None None None.
End Empty.

(** ** The HTTP handlers of [server/routes.ts] that write to the store

    A handler is a function of what it reads of the request ([req.user],
    [None] when the request is not authenticated; the path parameter after
    [parseInt], [None] for [NaN]; what it takes of the body), of the clock
    readings of the storage methods it calls, and of the store; it gives
    the response and the next store. The middleware of the route runs
    first. An exception thrown inside [try] (a property read on
    [undefined]) ends the handler with the 500 response of its [catch],
    the store being as the calls made until then left it. *)

Module Routes.

Inductive Body : Type :=
  | Message (message : string)
  | Invalid (message : string)
  | NoBody
  | OnePayment (payment : option Payment.t)
  | OneUnit (unit : option Unit.t)
  | OneNotification (notification : option Notification.t)
  | PaymentViews (payments : list PaymentView)
  | Payments (payments : list Payment.t).

(** [res.status(status).json(body)], [res.json(body)] with status 200,
    [res.status(status).end()]. [Invalid] is the body
    [{ message, errors: error.errors }] of a [ZodError], whose error list
    is left out. *)
Record Response : Type := respond {
  status : Z;
  body : Body
}.

(** [storage.get...(id)] for a parsed path parameter: no row is stored
    under [NaN]. *)
Definition byParam {A : Type} (get : Z -> MemStorage.t -> option A)
  (id : option Z) (s : MemStorage.t) : option A :=
  match id with
  | Some k => get k s
  | None => None
  end.

Definition isAuthenticated (user : option User.t) : bool :=
  match user with Some _ => true | None => false end.

(** [req.isAuthenticated() && req.user?.userType === "landlord"] *)
Definition isLandlord (user : option User.t) : bool :=
  match user with
  | Some u => String.eqb (User.userType u) "landlord"
  | None => false
  end.

Definition isTenant (user : option User.t) : bool :=
  match user with
  | Some u => String.eqb (User.userType u) "tenant"
  | None => false
  end.

Definition unauthorized : Response := respond 401 (Message "Unauthorized").
Definition landlordRequired : Response :=
  respond 403 (Message "Forbidden: Landlord access required").
Definition tenantRequired : Response :=
  respond 403 (Message "Forbidden: Tenant access required").

(** [app.delete("/api/properties/:id", isLandlord, ...)] *)
Definition deleteProperty (user : option User.t) (id : option Z)
  (s : MemStorage.t) : Response * MemStorage.t :=
  if negb (isLandlord user) then (landlordRequired, s) else
  match id, byParam MemStorage.getProperty id s with
  | Some propertyId, Some property =>
      match user with
      | None => (respond 500 (Message "Failed to delete property"), s)
      | Some u =>
          if negb (Property.landlordId property =? User.id u)
          then (respond 403
                  (Message "You don't have access to this property"), s)
          else (respond 204 NoBody,
                snd (MemStorage.deleteProperty propertyId s))
      end
  | _, _ => (respond 404 (Message "Property not found"), s)
  end.

(** [app.delete("/api/units/:id", isLandlord, ...)] *)
Definition deleteUnit (user : option User.t) (id : option Z)
  (s : MemStorage.t) : Response * MemStorage.t :=
  if negb (isLandlord user) then (landlordRequired, s) else
  match id, byParam MemStorage.getUnit id s with
  | Some unitId, Some unit =>
      match MemStorage.getProperty (Unit.propertyId unit) s with
      | None =>
          (respond 403 (Message "You don't have access to this unit"), s)
      | Some property =>
          match user with
          | None => (respond 500 (Message "Failed to delete unit"), s)
          | Some u =>
              if negb (Property.landlordId property =? User.id u)
              then (respond 403
                      (Message "You don't have access to this unit"), s)
              else (respond 204 NoBody,
                    snd (MemStorage.deleteUnit unitId s))
          end
      end
  | _, _ => (respond 404 (Message "Unit not found"), s)
  end.

(** [app.put("/api/units/:id", isLandlord, ...)]. [body] is [req.body],
    handed to the store as it came; it is read here as an object whose
    properties are columns of the unit row. *)
Definition updateUnit (user : option User.t) (id : option Z)
  (body : Unit.Partial) (s : MemStorage.t) : Response * MemStorage.t :=
  if negb (isLandlord user) then (landlordRequired, s) else
  match id, byParam MemStorage.getUnit id s with
  | Some unitId, Some unit =>
      match MemStorage.getProperty (Unit.propertyId unit) s with
      | None =>
          (respond 403 (Message "You don't have access to this unit"), s)
      | Some property =>
          match user with
          | None => (respond 500 (Message "Failed to update unit"), s)
          | Some u =>
              if negb (Property.landlordId property =? User.id u)
              then (respond 403
                      (Message "You don't have access to this unit"), s)
              else
                let (updatedUnit, s') :=
                  MemStorage.updateUnit unitId body s in
                (respond 200 (OneUnit updatedUnit), s')
          end
      end
  | _, _ => (respond 404 (Message "Unit not found"), s)
  end.

(** The object [{ isActive: false }]. *)
Definition deactivate : Tenant.Partial :=
  Tenant.mkPartial None None None None None None (Some false) None.

(** [app.delete("/api/tenants/:id", isLandlord, ...)] *)
Definition deleteTenant (user : option User.t) (id : option Z)
  (s : MemStorage.t) : Response * MemStorage.t :=
  if negb (isLandlord user) then (landlordRequired, s) else
  match id, byParam MemStorage.getTenant id s with
  | Some tenantId, Some tenant =>
      match MemStorage.getUnit (Tenant.unitId tenant) s with
      | None => (respond 404 (Message "Unit not found"), s)
      | Some unit =>
          match MemStorage.getProperty (Unit.propertyId unit) s with
          | None =>
              (respond 403
                 (Message "You don't have access to this tenant"), s)
          | Some property =>
              match user with
              | None => (respond 500 (Message "Failed to delete tenant"), s)
              | Some u =>
                  if negb (Property.landlordId property =? User.id u)
                  then (respond 403
                          (Message "You don't have access to this tenant"),
                        s)
                  else (respond 204 NoBody,
                        snd (MemStorage.updateTenant tenantId deactivate s))
              end
          end
      end
  | _, _ => (respond 404 (Message "Tenant not found"), s)
  end.

(** [app.put("/api/notifications/:id/read", isAuthenticated, ...)] *)
Definition readNotification (user : option User.t) (id : option Z)
  (s : MemStorage.t) : Response * MemStorage.t :=
  if negb (isAuthenticated user) then (unauthorized, s) else
  match id, byParam MemStorage.getNotification id s with
  | Some notificationId, Some notification =>
      match user with
      | None =>
          (respond 500 (Message "Failed to mark notification as read"), s)
      | Some u =>
          if negb (Notification.userId notification =? User.id u)
          then (respond 403
                  (Message "You don't have access to this notification"), s)
          else
            let (updatedNotification, s') :=
              MemStorage.markNotificationAsRead notificationId s in
            (respond 200 (OneNotification updatedNotification), s')
      end
  | _, _ => (respond 404 (Message "Notification not found"), s)
  end.

(** [app.get("/api/payments", isAuthenticated, ...)]: reads only. *)
Definition listPayments (user : option User.t) (s : MemStorage.t) : Response :=
  if negb (isAuthenticated user) then unauthorized else
  match user with
  | None => respond 500 (Message "Failed to fetch payments")
  | Some u =>
      if String.eqb (User.userType u) "landlord"
      then
        match MemStorage.getPaymentsByLandlord (User.id u) s with
        | None => respond 500 (Message "Failed to fetch payments")
        | Some payments => respond 200 (PaymentViews payments)
        end
      else
        (* For tenants, get their own payments *)
        match MemStorage.getTenantByUserId (User.id u) s with
        | None => respond 404 (Message "Tenant profile not found")
        | Some tenant =>
            respond 200
              (Payments (MemStorage.getPaymentsByTenant (Tenant.id tenant) s))
        end
  end.

(** [x || fallback] for a string that may be absent: the empty string is
    falsy too. *)
Definition orElse (x : option string) (fallback : string) : string :=
  match x with
  | Some EmptyString | None => fallback
  | Some v => v
  end.

(** The notification objects the handlers build. *)
Definition paymentNotice (userId : Z) (message : string)
  : Notification.Insert :=
  Notification.mkInsert userId message "payment" false.

(** The update [{ status: "paid", paymentDate: new Date(), paymentMethod }]
    of the process route. *)
Definition paid (now : Date) (paymentMethod : string) : Payment.Partial :=
  Payment.mkPartial None None None None (Some (Some now)) (Some "paid"%string)
                    (Some (Some paymentMethod)) None None.

(** [app.post("/api/payments/:id/process", isTenant, ...)]. [paymentMethod]
    is [req.body.paymentMethod]; [now] is the handler's own [new Date()],
    [now2] and [now3] are those of the two [createNotification]. *)
Definition processPayment (user : option User.t) (id : option Z)
  (paymentMethod : option string) (now now2 now3 : Date) (s : MemStorage.t)
  : Response * MemStorage.t :=
  if negb (isTenant user) then (tenantRequired, s) else
  match id, byParam MemStorage.getPayment id s with
  | Some paymentId, Some payment =>
      match user with
      | None => (respond 500 (Message "Failed to process payment"), s)
      | Some u =>
          (* Check if tenant has access to this payment *)
          let refused :=
            (respond 403 (Message "You don't have access to this payment"),
             s) in
          match MemStorage.getTenantByUserId (User.id u) s with
          | None => refused
          | Some tenant =>
              if negb (Tenant.id tenant =? Payment.tenantId payment)
              then refused
              else
                (* Simulate payment processing *)
                let (updatedPayment, s1) :=
                  MemStorage.updatePayment paymentId
                    (paid now (orElse paymentMethod "Credit Card")) s in
                match MemStorage.getUnit (Tenant.unitId tenant) s1 with
                | None =>
                    (respond 500 (Message "Failed to process payment"), s1)
                | Some unit =>
                    let property :=
                      MemStorage.getProperty (Unit.propertyId unit) s1 in
                    (* Notify tenant *)
                    let (_, s2) :=
                      MemStorage.createNotification now2
                        (paymentNotice (Tenant.userId tenant)
                           (String.append "Payment of $"
                              (String.append (Payment.amount payment)
                                 " processed successfully")))
                        s1 in
                    match property with
                    | None =>
                        (respond 500 (Message "Failed to process payment"),
                         s2)
                    | Some property =>
                        (* Notify landlord *)
                        let (_, s3) :=
                          MemStorage.createNotification now3
                            (paymentNotice (Property.landlordId property)
                               (String.append "Payment of $"
                                  (String.append (Payment.amount payment)
                                     " received from tenant")))
                            s2 in
                        (respond 200 (OnePayment updatedPayment), s3)
                    end
                end
          end
      end
  | _, _ => (respond 404 (Message "Payment not found"), s)
  end.

Section CreatePayment.

(** [Date.prototype.toLocaleDateString] in the locale of the process. *)
Variable toLocaleDateString : Date -> string.

(** [app.post("/api/payments", isLandlord, ...)]. [parsed] is the result of
    [insertPaymentSchema.parse(req.body)], [None] when it throws a
    [ZodError]; [now] and [now2] are the clock readings of
    [createPayment] and [createNotification]. *)
Definition createPayment (user : option User.t)
  (parsed : option Payment.Insert) (now now2 : Date) (s : MemStorage.t)
  : Response * MemStorage.t :=
  if negb (isLandlord user) then (landlordRequired, s) else
  match parsed with
  | None => (respond 400 (Invalid "Invalid payment data"), s)
  | Some paymentData =>
      (* Check if landlord has access to this tenant *)
      match MemStorage.getTenant (Payment.i_tenantId paymentData) s with
      | None => (respond 404 (Message "Tenant not found"), s)
      | Some tenant =>
          match MemStorage.getUnit (Tenant.unitId tenant) s with
          | None => (respond 404 (Message "Unit not found"), s)
          | Some unit =>
              let refused :=
                (respond 403
                   (Message "You don't have access to this tenant"), s) in
              match MemStorage.getProperty (Unit.propertyId unit) s with
              | None => refused
              | Some property =>
                  match user with
                  | None =>
                      (respond 500 (Message "Failed to create payment"), s)
                  | Some u =>
                      if negb (Property.landlordId property =? User.id u)
                      then refused
                      else
                        let (payment, s1) :=
                          MemStorage.createPayment now paymentData s in
                        (* Create a notification for the tenant *)
                        let (_, s2) :=
                          MemStorage.createNotification now2
                            (paymentNotice (Tenant.userId tenant)
                               (String.append "New payment of $"
                                  (String.append (Payment.amount payment)
                                     (String.append " due on "
                                        (toLocaleDateString
                                           (Payment.dueDate payment))))))
                            s1 in
                        (respond 201 (OnePayment (Some payment)), s2)
                  end
              end
          end
      end
  end.

End CreatePayment.

End Routes.

(** ** A concrete runtime and a concrete history

    Numbers as integers, [Number] reading a decimal integer, and the month
    names of the English locale; then the seed data of the module (a
    landlord, a tenant user, a property with two units, a lease, three
    payments and a notification) and a few stores that continue it. *)

Module Demo.

Definition NumberZ (s : string) : Z :=
  match NilZero.int_of_string s with
  | Some i => Z.of_int i
  | None => 0
  end.

Definition monthLongEn (m : Z) : string :=
  nth (Z.to_nat m)
      ["January"; "February"; "March"; "April"; "May"; "June"; "July";
       "August"; "September"; "October"; "November"; "December"]%string
      ""%string.

(** Dates of 2024 and 2025 by day number: the fields are the readings of
    one date in UTC. *)
Definition date (year monthIndex day : Z) : Date :=
  mkDate (((year - 1970) * 372 + monthIndex * 31 + day) * 86400000)
         year monthIndex.

Definition boot : Date := date 2025 2 15.

Definition landlord : User.Insert :=
  User.mkInsert "landlord" "hash" "John" "Smith" "landlord@example.com"
                (Some "555-123-4567"%string) "landlord".
Definition tenantUser : User.Insert :=
  User.mkInsert "tenant" "hash" "Jane" "Doe" "tenant@example.com"
                (Some "555-987-6543"%string) "tenant".
Definition otherLandlord : User.Insert :=
  User.mkInsert "other" "hash" "Ann" "Lee" "other@example.com" None
                "landlord".
Definition maple : Property.Insert :=
  Property.mkInsert 1 "Maple Apartments" "123 Maple Street" "Springfield"
                    "IL" "62701" 4 true.
Definition oak : Property.Insert :=
  Property.mkInsert 3 "Oak House" "9 Oak Road" "Springfield" "IL" "62701" 1
                    true.
Definition unit101 : Unit.Insert :=
  Unit.mkInsert 1 "101" "1200" 2 "1" (Some 950) None true.
Definition unit102 : Unit.Insert :=
  Unit.mkInsert 1 "102" "950" 1 "1" (Some 750) None false.
Definition oakUnit : Unit.Insert :=
  Unit.mkInsert 2 "A" "700" 1 "1" None None false.
Definition lease (userId unitId : Z) (active : bool) : Tenant.Insert :=
  Tenant.mkInsert userId unitId (date 2023 0 1) (date 2023 11 31) 1 active.
Definition rent (tenantId : Z) (amount : string) (due : Date)
  (paid : option Date) (status : string) : Payment.Insert :=
  Payment.mkInsert tenantId amount due paid status
    (match paid with Some _ => Some "Credit Card"%string | None => None end)
    None.

Definition seed : list Op :=
  [ CreateUser boot landlord;
    CreateUser boot tenantUser;
    CreateProperty boot maple;
    CreateUnit boot unit101;
    CreateUnit boot unit102;
    CreateTenant boot (lease 2 1 true);
    CreatePayment boot
      (rent 1 "1200" (date 2025 0 1) (Some (date 2025 0 3)) "paid");
    CreatePayment boot
      (rent 1 "1200" (date 2025 1 1) (Some (date 2025 1 2)) "paid");
    CreatePayment boot (rent 1 "1200" (date 2025 2 1) None "pending");
    CreateNotification boot
      (Notification.mkInsert 2 "Your rent payment is due tomorrow" "payment"
                             false) ].

Definition store : MemStorage.t :=
  Eval vm_compute in snd (run seed MemStorage.new).

(** The seeded store after a second active lease on unit 101. *)
Definition shared : MemStorage.t :=
  Eval vm_compute in snd (run [CreateTenant boot (lease 2 1 true)] store).

(** The seeded store after a second landlord (user 3) arrived with a
    property (2), its unit (3), an inactive lease on it (tenant 2) and a
    payment of that tenant (payment 4). *)
Definition town : MemStorage.t :=
  Eval vm_compute in
  snd (run [ CreateUser boot otherLandlord;
             CreateProperty boot oak;
             CreateUnit boot oakUnit;
             CreateTenant boot (lease 2 3 false);
             CreatePayment boot
               (rent 2 "700" (date 2025 2 1) None "pending") ]
           store).

(** A move to unit 102 that also deactivates the tenant. *)
Definition moveOut : Tenant.Partial :=
  Tenant.mkPartial None None (Some 2) None None None (Some false) None.

(** The seeded store with two more pending payments of tenant 1: 900 due
    on 20 February 2025 and 1300 due on 1 April 2025. *)
Definition ledger : MemStorage.t :=
  Eval vm_compute in
  snd (run [ CreatePayment boot (rent 1 "900" (date 2025 1 20) None "pending");
             CreatePayment boot (rent 1 "1300" (date 2025 3 1) None "pending") ]
           store).

(** The pending payment of the seed data, due on 1 March 2025. *)
Definition rentOfMarch : Payment.t :=
  Eval vm_compute in
  Payment.create (rent 1 "1200" (date 2025 2 1) None "pending") 3 boot.

(** The seeded store after twelve more payments of tenant 1, created on
    the first twelve days of April 2025 (payments 4 to 15). *)
Definition busy : MemStorage.t :=
  Eval vm_compute in
  snd (run (map (fun day =>
                   CreatePayment (date 2025 3 day)
                     (rent 1 "100" (date 2025 4 1) None "pending"))
                [1; 2; 3; 4; 5; 6; 7; 8; 9; 10; 11; 12])
           store).

(** The three users as the session holds them. *)
Definition john : User.t := Eval vm_compute in User.create landlord 1 boot.
Definition jane : User.t := Eval vm_compute in User.create tenantUser 2 boot.
Definition ann : User.t :=
  Eval vm_compute in User.create otherLandlord 3 boot.

(** The seeded store after unit 101 was deleted: tenant 1 and its payments
    are still there. *)
Definition gutted : MemStorage.t :=
  Eval vm_compute in snd (run [DeleteUnit 1] store).

(** A move to unit 102 alone, and the soft delete of the tenant route
    ([{ isActive: false }]). *)
Definition moveIn : Tenant.Partial :=
  Tenant.mkPartial None None (Some 2) None None None None None.

Definition deactivate : Tenant.Partial :=
  Tenant.mkPartial None None None None None None (Some false) None.

(** A unit sent back whole with a new rent, as a client that edits the row
    it was given does: the object carries the row's own [id]. *)
Definition resend : Unit.Partial :=
  Unit.mkPartial (Some 1) (Some 1) (Some "101"%string) (Some "1250"%string)
                 (Some 2) (Some "1"%string) (Some (Some 950)) (Some None)
                 (Some true) (Some boot).

(** The body [{ id: newId }] of a [PUT /api/units/:id]. *)
Definition renumber (newId : Z) : Unit.Partial :=
  Unit.mkPartial (Some newId) None None None None None None None None None.

(** The seeded store after [PUT /api/units/1] with the body [{ id: 7 }]:
    unit 101 is still under key 1, and its row says id 7. *)
Definition relabelled : MemStorage.t :=
  Eval vm_compute in snd (run [UpdateUnit 1 (renumber 7)] store).

(** The store of the two landlords after unit 102 of the first landlord
    was given the id 3, the id of the second landlord's unit. *)
Definition crossed : MemStorage.t :=
  Eval vm_compute in snd (run [UpdateUnit 2 (renumber 3)] town).

(** The seeded store after unit 101 was given the id 9 and a lease was
    created for the unit id 9, under which no unit is stored. *)
Definition dangling : MemStorage.t :=
  Eval vm_compute in
  snd (run [ UpdateUnit 1 (renumber 9);
             CreateTenant boot (lease 2 9 true) ]
           store).

End Demo.

(** * Properties *)

(** ** Facts about [JsMap] *)

Section JsMapFacts.

Context {V : Type}.
Implicit Types (m : JsMap.t V) (k : Z) (v : V).

Lemma get_set_same k v m : JsMap.get k (JsMap.set k v m) = Some v.
Proof.
  induction m as [|[k' v'] m IH]; simpl.
  - now rewrite Z.eqb_refl.
  - destruct (k' =? k) eqn:E; simpl.
    + now rewrite Z.eqb_refl.
    + now rewrite E.
Qed.

Lemma get_set_other k k' v m :
  k <> k' -> JsMap.get k' (JsMap.set k v m) = JsMap.get k' m.
Proof.
  intros Hne. induction m as [|[k0 v0] m IH]; simpl.
  - destruct (k =? k') eqn:E; [apply Z.eqb_eq in E; contradiction|reflexivity].
  - destruct (k0 =? k) eqn:E; simpl.
    + apply Z.eqb_eq in E; subst k0.
      destruct (k =? k') eqn:E'; [apply Z.eqb_eq in E'; contradiction|reflexivity].
    + destruct (k0 =? k'); [reflexivity|exact IH].
Qed.

Lemma get_remove_same k m : JsMap.get k (JsMap.remove k m) = None.
Proof.
  unfold JsMap.remove.
  induction m as [|[k0 v0] m IH]; simpl; [reflexivity|].
  destruct (k0 =? k) eqn:E; simpl; [exact IH|now rewrite E].
Qed.

Lemma get_remove_other k k' m :
  k <> k' -> JsMap.get k' (JsMap.remove k m) = JsMap.get k' m.
Proof.
  intros Hne. unfold JsMap.remove.
  induction m as [|[k0 v0] m IH]; simpl; [reflexivity|].
  destruct (k0 =? k) eqn:E; simpl.
  - apply Z.eqb_eq in E; subst k0.
    destruct (k =? k') eqn:E'; [apply Z.eqb_eq in E'; contradiction|exact IH].
  - destruct (k0 =? k'); [reflexivity|exact IH].
Qed.

Lemma get_In k v m : JsMap.get k m = Some v -> In (k, v) m.
Proof.
  induction m as [|[k0 v0] m IH]; simpl; [discriminate|].
  destruct (k0 =? k) eqn:E.
  - apply Z.eqb_eq in E; subst k0. intros [= ->]. now left.
  - intros H. right. now apply IH.
Qed.

Lemma get_None_keys k m :
  JsMap.get k m = None <-> includes (JsMap.keys m) k = false.
Proof.
  unfold includes.
  induction m as [|[k0 v0] m IH]; simpl; [tauto|].
  destruct (k0 =? k); simpl; [split; discriminate|exact IH].
Qed.

Lemma In_get k v m :
  distinct (JsMap.keys m) = true -> In (k, v) m -> JsMap.get k m = Some v.
Proof.
  induction m as [|[k0 v0] m IH]; simpl; [tauto|].
  intros Hd [Heq|Hin].
  - injection Heq as -> ->. now rewrite Z.eqb_refl.
  - apply andb_true_iff in Hd as [Hn Hd].
    destruct (k0 =? k) eqn:E.
    + apply Z.eqb_eq in E; subst k0.
      apply negb_true_iff, get_None_keys in Hn.
      rewrite (IH Hd Hin) in Hn. discriminate.
    + now apply IH.
Qed.

Lemma keys_set_present k v v0 m :
  JsMap.get k m = Some v0 -> JsMap.keys (JsMap.set k v m) = JsMap.keys m.
Proof.
  induction m as [|[k0 v1] m IH]; simpl; [discriminate|].
  destruct (k0 =? k) eqn:E; simpl.
  - apply Z.eqb_eq in E. now subst.
  - intros H. f_equal. now apply IH.
Qed.

Lemma keys_set_absent k v m :
  JsMap.get k m = None -> JsMap.keys (JsMap.set k v m) = JsMap.keys m ++ [k].
Proof.
  induction m as [|[k0 v1] m IH]; simpl; [reflexivity|].
  destruct (k0 =? k) eqn:E; simpl; [discriminate|].
  intros H. f_equal. now apply IH.
Qed.

Lemma distinct_snoc (l : list Z) (k : Z) :
  distinct l = true -> includes l k = false -> distinct (l ++ [k]) = true.
Proof.
  unfold includes.
  induction l as [|x l IH]; simpl; [reflexivity|].
  intros Hd Hk.
  apply andb_true_iff in Hd as [Hx Hd].
  apply orb_false_iff in Hk as [Hxk Hk].
  apply andb_true_iff; split; [|now apply IH].
  apply negb_true_iff in Hx. apply negb_true_iff.
  unfold includes in *. rewrite existsb_app, Hx. simpl.
  now rewrite Z.eqb_sym, Hxk.
Qed.

Lemma includes_filter (l : list Z) (f : Z -> bool) (x : Z) :
  includes l x = false -> includes (filter f l) x = false.
Proof.
  unfold includes.
  induction l as [|y l IH]; simpl; [reflexivity|].
  intros H. apply orb_false_iff in H as [Hy Hl].
  destruct (f y); simpl; [rewrite Hy|]; now apply IH.
Qed.

Lemma keys_remove k m :
  JsMap.keys (JsMap.remove k m)
  = filter (fun k' => negb (k' =? k)) (JsMap.keys m).
Proof.
  unfold JsMap.remove, JsMap.keys.
  induction m as [|[k0 v0] m IH]; simpl; [reflexivity|].
  destruct (k0 =? k); simpl; now rewrite IH.
Qed.

Lemma distinct_filter (l : list Z) (f : Z -> bool) :
  distinct l = true -> distinct (filter f l) = true.
Proof.
  induction l as [|x l IH]; simpl; [reflexivity|].
  intros Hd. apply andb_true_iff in Hd as [Hx Hd].
  destruct (f x); simpl; [|now apply IH].
  apply andb_true_iff; split; [|now apply IH].
  apply negb_true_iff. apply includes_filter. now apply negb_true_iff.
Qed.

Lemma distinct_set k v m :
  distinct (JsMap.keys m) = true ->
  distinct (JsMap.keys (JsMap.set k v m)) = true.
Proof.
  intros Hd. destruct (JsMap.get k m) as [v0|] eqn:E.
  - now rewrite (keys_set_present k v v0 m E).
  - rewrite (keys_set_absent k v m E).
    apply distinct_snoc; [exact Hd|now apply get_None_keys].
Qed.

Lemma distinct_remove k m :
  distinct (JsMap.keys m) = true ->
  distinct (JsMap.keys (JsMap.remove k m)) = true.
Proof. intros Hd. rewrite keys_remove. now apply distinct_filter. Qed.

Lemma In_values_get m v :
  distinct (JsMap.keys m) = true ->
  (In v (JsMap.values m) <-> exists k, JsMap.get k m = Some v).
Proof.
  intros Hd. unfold JsMap.values. rewrite in_map_iff. split.
  - intros [[k v'] [Hv Hin]]. simpl in Hv. subst v'.
    exists k. now apply In_get.
  - intros [k Hk]. exists (k, v). split; [reflexivity|now apply get_In].
Qed.

(** [table_ok] read through [get]. *)
Lemma table_ok_spec (id_of : V -> Z) (next : Z) m :
  table_ok id_of next m = true <->
  1 <= next /\ distinct (JsMap.keys m) = true /\
  (forall k v, JsMap.get k m = Some v -> id_of v = k /\ 1 <= k < next).
Proof.
  unfold table_ok. rewrite !andb_true_iff, forallb_forall, Z.leb_le. split.
  - intros [[Hn Hd] Hall]. split; [exact Hn|]. split; [exact Hd|].
    intros k v Hk. apply get_In, Hall in Hk. simpl in Hk.
    apply andb_true_iff in Hk as [Hk H3].
    apply andb_true_iff in Hk as [H1 H2].
    apply Z.eqb_eq in H1. apply Z.leb_le in H2. apply Z.ltb_lt in H3. lia.
  - intros [Hn [Hd Hall]]. split; [now split|].
    intros [k v] Hin. apply (In_get k v m Hd), Hall in Hin. simpl.
    destruct Hin as [H1 [H2 H3]].
    apply Z.eqb_eq in H1. apply Z.leb_le in H2. apply Z.ltb_lt in H3.
    now rewrite H1, H2, H3.
Qed.

Lemma table_ok_get (id_of : V -> Z) (next : Z) m k v :
  table_ok id_of next m = true -> JsMap.get k m = Some v -> id_of v = k.
Proof.
  intros Hok Hk. apply table_ok_spec in Hok as [_ [_ Hall]].
  now apply Hall in Hk.
Qed.

Lemma table_ok_values (id_of : V -> Z) (next : Z) m v :
  table_ok id_of next m = true ->
  (In v (JsMap.values m) <-> JsMap.get (id_of v) m = Some v).
Proof.
  intros Hok. apply table_ok_spec in Hok as [_ [Hd Hall]].
  rewrite (In_values_get m v Hd). split.
  - intros [k Hk]. destruct (Hall k v Hk) as [-> _]. exact Hk.
  - intros H. now exists (id_of v).
Qed.

Lemma table_ok_fresh (id_of : V -> Z) (next : Z) m :
  table_ok id_of next m = true -> JsMap.get next m = None.
Proof.
  intros Hok. apply table_ok_spec in Hok as [_ [_ Hall]].
  destruct (JsMap.get next m) as [v|] eqn:E; [|reflexivity].
  apply Hall in E. lia.
Qed.

Lemma table_ok_insert (id_of : V -> Z) (next : Z) m v :
  table_ok id_of next m = true -> id_of v = next ->
  table_ok id_of (next + 1) (JsMap.set next v m) = true.
Proof.
  intros Hok Hid. apply table_ok_spec in Hok as [Hn [Hd Hall]].
  apply table_ok_spec. split; [lia|]. split; [now apply distinct_set|].
  intros k v'. destruct (Z.eq_dec next k) as [<-|Hne].
  - rewrite get_set_same. intros [= <-]. lia.
  - rewrite get_set_other by exact Hne. intros H. apply Hall in H. lia.
Qed.

Lemma table_ok_replace (id_of : V -> Z) (next : Z) m k v v0 :
  table_ok id_of next m = true -> JsMap.get k m = Some v0 -> id_of v = k ->
  table_ok id_of next (JsMap.set k v m) = true.
Proof.
  intros Hok Hk Hid. apply table_ok_spec in Hok as [Hn [Hd Hall]].
  apply table_ok_spec. split; [exact Hn|]. split; [now apply distinct_set|].
  intros k1 v1. destruct (Z.eq_dec k k1) as [<-|Hne].
  - rewrite get_set_same. intros [= <-]. apply Hall in Hk. lia.
  - rewrite get_set_other by exact Hne. apply Hall.
Qed.

Lemma table_ok_remove (id_of : V -> Z) (next : Z) m k :
  table_ok id_of next m = true ->
  table_ok id_of next (JsMap.remove k m) = true.
Proof.
  intros Hok. apply table_ok_spec in Hok as [Hn [Hd Hall]].
  apply table_ok_spec. split; [exact Hn|]. split; [now apply distinct_remove|].
  intros k1 v1. destruct (Z.eq_dec k k1) as [<-|Hne].
  - now rewrite get_remove_same.
  - rewrite get_remove_other by exact Hne. apply Hall.
Qed.

End JsMapFacts.

(** ** Which calls keep the store consistent

    Every create, delete and mark-read does, and every update whose object
    carries no [id] other than the one of the row it updates. *)

Lemma consistent_spec (s : MemStorage.t) :
  consistent s = true <->
  table_ok User.id (CurrentId.user (MemStorage.currentId s))
    (MemStorage.userMap s) = true /\
  table_ok Property.id (CurrentId.property (MemStorage.currentId s))
    (MemStorage.propertyMap s) = true /\
  table_ok Unit.id (CurrentId.unit (MemStorage.currentId s))
    (MemStorage.unitMap s) = true /\
  table_ok Tenant.id (CurrentId.tenant (MemStorage.currentId s))
    (MemStorage.tenantMap s) = true /\
  table_ok Payment.id (CurrentId.payment (MemStorage.currentId s))
    (MemStorage.paymentMap s) = true /\
  table_ok Notification.id (CurrentId.notification (MemStorage.currentId s))
    (MemStorage.notificationMap s) = true.
Proof. unfold consistent. rewrite !andb_true_iff. tauto. Qed.

Ltac consistent_split H :=
  apply consistent_spec in H;
  destruct H as (?Huser & ?Hproperty & ?Hunit & ?Htenant & ?Hpayment & ?Hnotif).

Lemma spread_sameId (id row_id : Z) (data_id : option Z) :
  sameId id data_id = true -> row_id = id -> spread row_id data_id = id.
Proof.
  destruct data_id as [i|]; simpl; [|tauto].
  rewrite Z.eqb_eq. tauto.
Qed.

Ltac consistent_join :=
  apply consistent_spec; simpl; repeat split;
  first [ assumption
        | apply table_ok_insert; [assumption|reflexivity]
        | eapply table_ok_replace;
          [assumption|eassumption
          |first [reflexivity|simpl; assumption
                 |simpl; apply spread_sameId; assumption]]
        | apply table_ok_remove; assumption ].

(** The stores of [Demo] are the stores their histories lead to. *)
Lemma demo_histories :
  Demo.store = snd (run Demo.seed MemStorage.new) /\
  Demo.shared
  = snd (run (Demo.seed ++ [CreateTenant Demo.boot (Demo.lease 2 1 true)])
             MemStorage.new) /\
  Demo.ledger
  = snd (run (Demo.seed
              ++ [ CreatePayment Demo.boot
                     (Demo.rent 1 "900" (Demo.date 2025 1 20) None "pending");
                   CreatePayment Demo.boot
                     (Demo.rent 1 "1300" (Demo.date 2025 3 1) None "pending") ])
             MemStorage.new).
Proof. vm_compute. repeat split. Qed.

Lemma consistent_new : consistent MemStorage.new = true.
Proof. reflexivity. Qed.

Lemma consistent_createUser now d s :
  consistent s = true -> consistent (snd (MemStorage.createUser now d s)) = true.
Proof. intros H. consistent_split H. consistent_join. Qed.

Lemma consistent_createProperty now d s :
  consistent s = true ->
  consistent (snd (MemStorage.createProperty now d s)) = true.
Proof. intros H. consistent_split H. consistent_join. Qed.

Lemma consistent_createUnit now d s :
  consistent s = true -> consistent (snd (MemStorage.createUnit now d s)) = true.
Proof. intros H. consistent_split H. consistent_join. Qed.

Lemma consistent_createPayment now d s :
  consistent s = true ->
  consistent (snd (MemStorage.createPayment now d s)) = true.
Proof. intros H. consistent_split H. consistent_join. Qed.

Lemma consistent_createNotification now d s :
  consistent s = true ->
  consistent (snd (MemStorage.createNotification now d s)) = true.
Proof. intros H. consistent_split H. consistent_join. Qed.

Lemma consistent_updateProperty id d s :
  sameId id (Property.p_id d) = true ->
  consistent s = true ->
  consistent (snd (MemStorage.updateProperty id d s)) = true.
Proof.
  intros Hid H. unfold MemStorage.updateProperty.
  destruct (JsMap.get id (MemStorage.propertyMap s)) as [r|] eqn:E;
    [|exact H].
  consistent_split H. pose proof (table_ok_get _ _ _ _ _ Hproperty E).
  consistent_join.
Qed.

Lemma consistent_updateUnit id d s :
  sameId id (Unit.p_id d) = true ->
  consistent s = true -> consistent (snd (MemStorage.updateUnit id d s)) = true.
Proof.
  intros Hid H. unfold MemStorage.updateUnit.
  destruct (JsMap.get id (MemStorage.unitMap s)) as [r|] eqn:E; [|exact H].
  consistent_split H. pose proof (table_ok_get _ _ _ _ _ Hunit E).
  consistent_join.
Qed.

Lemma consistent_updatePayment id d s :
  sameId id (Payment.p_id d) = true ->
  consistent s = true ->
  consistent (snd (MemStorage.updatePayment id d s)) = true.
Proof.
  intros Hid H. unfold MemStorage.updatePayment.
  destruct (JsMap.get id (MemStorage.paymentMap s)) as [r|] eqn:E; [|exact H].
  consistent_split H. pose proof (table_ok_get _ _ _ _ _ Hpayment E).
  consistent_join.
Qed.

Lemma consistent_updateNotification id d s :
  sameId id (Notification.p_id d) = true ->
  consistent s = true ->
  consistent (snd (MemStorage.updateNotification id d s)) = true.
Proof.
  intros Hid H. unfold MemStorage.updateNotification.
  destruct (JsMap.get id (MemStorage.notificationMap s)) as [r|] eqn:E;
    [|exact H].
  consistent_split H. pose proof (table_ok_get _ _ _ _ _ Hnotif E).
  consistent_join.
Qed.

Lemma consistent_markNotificationAsRead id s :
  consistent s = true ->
  consistent (snd (MemStorage.markNotificationAsRead id s)) = true.
Proof.
  intros H. unfold MemStorage.markNotificationAsRead.
  destruct (JsMap.get id (MemStorage.notificationMap s)) as [r|] eqn:E;
    [|exact H].
  consistent_split H. pose proof (table_ok_get _ _ _ _ _ Hnotif E).
  consistent_join.
Qed.

Lemma consistent_deleteProperty id s :
  consistent s = true -> consistent (snd (MemStorage.deleteProperty id s)) = true.
Proof. intros H. consistent_split H. consistent_join. Qed.

Lemma consistent_deleteUnit id s :
  consistent s = true -> consistent (snd (MemStorage.deleteUnit id s)) = true.
Proof. intros H. consistent_split H. consistent_join. Qed.

Lemma consistent_deletePayment id s :
  consistent s = true -> consistent (snd (MemStorage.deletePayment id s)) = true.
Proof. intros H. consistent_split H. consistent_join. Qed.

Lemma consistent_deleteNotification id s :
  consistent s = true ->
  consistent (snd (MemStorage.deleteNotification id s)) = true.
Proof. intros H. consistent_split H. consistent_join. Qed.

(** [updateUnit] touches the unit map only, and there only the row under
    [id]. *)
Lemma updateUnit_frame id d s :
  let s' := snd (MemStorage.updateUnit id d s) in
  MemStorage.userMap s' = MemStorage.userMap s /\
  MemStorage.propertyMap s' = MemStorage.propertyMap s /\
  MemStorage.tenantMap s' = MemStorage.tenantMap s /\
  MemStorage.paymentMap s' = MemStorage.paymentMap s /\
  MemStorage.notificationMap s' = MemStorage.notificationMap s /\
  MemStorage.currentId s' = MemStorage.currentId s.
Proof.
  unfold MemStorage.updateUnit.
  destruct (JsMap.get id (MemStorage.unitMap s)); simpl; tauto.
Qed.

Lemma updateUnit_get id d s k :
  JsMap.get k (MemStorage.unitMap (snd (MemStorage.updateUnit id d s)))
  = if k =? id
    then option_map (fun u => Unit.merge u d) (JsMap.get k (MemStorage.unitMap s))
    else JsMap.get k (MemStorage.unitMap s).
Proof.
  unfold MemStorage.updateUnit.
  destruct (k =? id) eqn:E.
  - apply Z.eqb_eq in E; subst k.
    destruct (JsMap.get id (MemStorage.unitMap s)) eqn:G; simpl.
    + apply get_set_same.
    + exact G.
  - apply Z.eqb_neq in E.
    destruct (JsMap.get id (MemStorage.unitMap s)) eqn:G; simpl.
    + apply get_set_other. congruence.
    + reflexivity.
Qed.

Lemma vacateIfAlone_frame id unit s :
  let s' := MemStorage.vacateIfAlone id unit s in
  MemStorage.userMap s' = MemStorage.userMap s /\
  MemStorage.propertyMap s' = MemStorage.propertyMap s /\
  MemStorage.tenantMap s' = MemStorage.tenantMap s /\
  MemStorage.paymentMap s' = MemStorage.paymentMap s /\
  MemStorage.notificationMap s' = MemStorage.notificationMap s /\
  MemStorage.currentId s' = MemStorage.currentId s.
Proof.
  unfold MemStorage.vacateIfAlone.
  destruct (_ =? _)%nat; [apply updateUnit_frame|simpl; tauto].
Qed.

Lemma consistent_vacateIfAlone id unit s :
  consistent s = true -> consistent (MemStorage.vacateIfAlone id unit s) = true.
Proof.
  intros H. unfold MemStorage.vacateIfAlone.
  destruct (_ =? _)%nat; [now apply consistent_updateUnit|exact H].
Qed.

Lemma consistent_createTenant now d s :
  consistent s = true ->
  consistent (snd (MemStorage.createTenant now d s)) = true.
Proof.
  intros H. unfold MemStorage.createTenant.
  remember (MemStorage.next_id KTenant s) as p eqn:Ep. destruct p as [id s1].
  injection Ep as -> ->.
  match goal with
  | |- context [MemStorage.getUnit ?u ?s2] =>
      assert (H2 : consistent s2 = true) by (consistent_split H; consistent_join);
      destruct (MemStorage.getUnit u s2)
  end; simpl.
  - now apply consistent_updateUnit.
  - exact H2.
Qed.

Lemma consistent_deleteTenant id s :
  consistent s = true -> consistent (snd (MemStorage.deleteTenant id s)) = true.
Proof.
  intros H. unfold MemStorage.deleteTenant.
  match goal with
  | |- context [JsMap.delete id (MemStorage.tenantMap ?x)] =>
      remember x as s1 eqn:Es1
  end.
  assert (H1 : consistent s1 = true).
  { subst s1.
    destruct (JsMap.get id (MemStorage.tenantMap s)) as [t|]; [|exact H].
    destruct (MemStorage.getUnit _ s); [|exact H].
    now apply consistent_vacateIfAlone. }
  clear Es1 H. consistent_split H1. consistent_join.
Qed.

(** The store [updateTenant] writes the tenant row to: the occupancy
    bookkeeping is done, the tenant map is as before. *)
Lemma updateTenant_bookkeeping d t id s :
  let s3 :=
    match MemStorage.unitChanges d t with
    | Some newId =>
        let s1 :=
          match MemStorage.getUnit (Tenant.unitId t) s with
          | Some oldUnit => MemStorage.vacateIfAlone id oldUnit s
          | None => s
          end in
        match MemStorage.getUnit newId s with
        | Some newUnit =>
            snd (MemStorage.updateUnit (Unit.id newUnit)
                   (Unit.occupancy true) s1)
        | None => s1
        end
    | None => s
    end in
  (consistent s = true -> consistent s3 = true) /\
  MemStorage.tenantMap s3 = MemStorage.tenantMap s.
Proof.
  simpl. destruct (MemStorage.unitChanges d t) as [newId|]; [|tauto].
  destruct (MemStorage.getUnit newId s) as [nu|];
    destruct (MemStorage.getUnit (Tenant.unitId t) s) as [ou|]; split;
    try (intros H; try (apply consistent_updateUnit; [reflexivity|]);
         try apply consistent_vacateIfAlone; exact H);
    repeat first
      [ rewrite (proj1 (proj2 (proj2 (updateUnit_frame _ _ _))))
      | rewrite (proj1 (proj2 (proj2 (vacateIfAlone_frame _ _ _)))) ];
    reflexivity.
Qed.

Lemma consistent_updateTenant id d s :
  sameId id (Tenant.p_id d) = true ->
  consistent s = true ->
  consistent (snd (MemStorage.updateTenant id d s)) = true.
Proof.
  intros Hid H. unfold MemStorage.updateTenant.
  destruct (JsMap.get id (MemStorage.tenantMap s)) as [t|] eqn:E; [|exact H].
  destruct (updateTenant_bookkeeping d t id s) as [H3 Hm]. simpl in H3, Hm.
  match goal with
  | |- context [JsMap.set id _ (MemStorage.tenantMap ?x)] =>
      remember x as s3 eqn:Es3
  end.
  clear Es3. specialize (H3 H). simpl. rewrite Hm.
  consistent_split H3. rewrite Hm in Htenant.
  pose proof (table_ok_get _ _ _ _ _ Htenant E).
  consistent_join.
Qed.

Lemma snd_let {A B C : Type} (p : A * B) (f : A -> C) :
  snd (let (r, s') := p in (f r, s')) = snd p.
Proof. now destruct p. Qed.

Lemma consistent_exec o s :
  keepsId o = true ->
  consistent s = true -> consistent (snd (exec o s)) = true.
Proof.
  intros Hid H. destruct o; simpl in *; rewrite ?snd_let.
  - now apply consistent_createUser.
  - now apply consistent_createProperty.
  - now apply consistent_updateProperty.
  - now apply consistent_deleteProperty.
  - now apply consistent_createUnit.
  - now apply consistent_updateUnit.
  - now apply consistent_deleteUnit.
  - now apply consistent_createTenant.
  - now apply consistent_updateTenant.
  - now apply consistent_deleteTenant.
  - now apply consistent_createPayment.
  - now apply consistent_updatePayment.
  - now apply consistent_deletePayment.
  - now apply consistent_createNotification.
  - now apply consistent_updateNotification.
  - now apply consistent_deleteNotification.
  - now apply consistent_markNotificationAsRead.
Qed.

Lemma run_cons o ops s :
  run (o :: ops) s
  = (match fst (exec o s) with
     | Some i => i :: fst (run ops (snd (exec o s)))
     | None => fst (run ops (snd (exec o s)))
     end,
     snd (run ops (snd (exec o s)))).
Proof.
  simpl. destruct (exec o s) as [r s1]. simpl.
  now destruct (run ops s1).
Qed.

(** A history none of whose updates gives a row another id leads from a
    consistent store to a consistent store, and so from the constructor's
    store to a consistent store. *)
Lemma consistent_run ops :
  forallb keepsId ops = true ->
  forall s, consistent s = true -> consistent (snd (run ops s)) = true.
Proof.
  induction ops as [|o ops IH]; intros Hid s H; [exact H|].
  simpl in Hid. apply andb_true_iff in Hid as [Ho Hops].
  rewrite run_cons. simpl. apply IH; [exact Hops|].
  now apply consistent_exec.
Qed.

Lemma consistent_history ops :
  forallb keepsId ops = true ->
  consistent (snd (run ops MemStorage.new)) = true.
Proof. intros Hid. now apply consistent_run; [|apply consistent_new]. Qed.

(** ** Id generation *)

Lemma Kind_eqb_eq a b : Kind_eqb a b = true <-> a = b.
Proof. destruct a, b; simpl; split; congruence. Qed.

Lemma incr_get k k' c :
  CurrentId.get k (CurrentId.incr k' c)
  = if Kind_eqb k' k then CurrentId.get k c + 1 else CurrentId.get k c.
Proof. destruct k, k'; reflexivity. Qed.

Lemma updateTenant_currentId id d s :
  MemStorage.currentId (snd (MemStorage.updateTenant id d s))
  = MemStorage.currentId s.
Proof.
  unfold MemStorage.updateTenant.
  destruct (JsMap.get id (MemStorage.tenantMap s)) as [t|]; [|reflexivity].
  simpl. destruct (MemStorage.unitChanges d t) as [newId|]; [|reflexivity].
  destruct (MemStorage.getUnit newId s) as [nu|];
    destruct (MemStorage.getUnit (Tenant.unitId t) s) as [ou|];
    repeat first
      [ rewrite (proj2 (proj2 (proj2 (proj2 (proj2 (updateUnit_frame _ _ _))))))
      | rewrite (proj2 (proj2 (proj2 (proj2 (proj2
                   (vacateIfAlone_frame _ _ _)))))) ];
    reflexivity.
Qed.

Lemma deleteTenant_currentId id s :
  MemStorage.currentId (snd (MemStorage.deleteTenant id s))
  = MemStorage.currentId s.
Proof.
  unfold MemStorage.deleteTenant. simpl.
  destruct (JsMap.get id (MemStorage.tenantMap s)) as [t|]; [|reflexivity].
  destruct (MemStorage.getUnit _ s); [|reflexivity].
  apply (vacateIfAlone_frame id _ s).
Qed.

Lemma createTenant_issues now d s :
  Tenant.id (fst (MemStorage.createTenant now d s))
  = CurrentId.tenant (MemStorage.currentId s) /\
  MemStorage.currentId (snd (MemStorage.createTenant now d s))
  = CurrentId.incr KTenant (MemStorage.currentId s).
Proof.
  unfold MemStorage.createTenant. simpl.
  match goal with
  | |- context [match ?g with Some _ => _ | None => _ end] => destruct g
  end; simpl; split; try reflexivity.
  now rewrite (proj2 (proj2 (proj2 (proj2 (proj2 (updateUnit_frame _ _ _)))))).
Qed.

(** What one call does to the counters: a create issues the value of its
    own counter and moves that counter, and no other, up by one; the other
    methods leave every counter alone. *)
Lemma exec_currentId o s :
  match fst (exec o s) with
  | Some (k, i) =>
      i = CurrentId.get k (MemStorage.currentId s) /\
      MemStorage.currentId (snd (exec o s))
      = CurrentId.incr k (MemStorage.currentId s)
  | None =>
      MemStorage.currentId (snd (exec o s)) = MemStorage.currentId s
  end.
Proof.
  destruct o; simpl; try (split; reflexivity);
    try (unfold MemStorage.updateProperty, MemStorage.updateUnit,
           MemStorage.updatePayment, MemStorage.updateNotification,
           MemStorage.markNotificationAsRead;
         match goal with
         | |- context [match ?g with Some _ => _ | None => _ end] => destruct g
         end; reflexivity).
  - pose proof (createTenant_issues now data s) as [H1 H2].
    destruct (MemStorage.createTenant now data s). simpl in *. now split.
  - apply updateTenant_currentId.
  - apply deleteTenant_currentId.
Qed.

Lemma count_from_bound from n x : In x (count_from from n) -> from <= x.
Proof.
  revert from. induction n as [|n IH]; simpl; intros from; [tauto|].
  intros [<-|H]; [lia|]. apply IH in H. lia.
Qed.

Lemma count_from_sorted from n : StronglySorted Z.lt (count_from from n).
Proof.
  revert from. induction n as [|n IH]; simpl; intros from; constructor.
  - apply IH.
  - apply Forall_forall. intros x Hx. apply count_from_bound in Hx. lia.
Qed.

Lemma sorted_lt_NoDup (l : list Z) : StronglySorted Z.lt l -> NoDup l.
Proof.
  induction 1 as [|x l Hs IH Hall]; constructor; [|exact IH].
  intros Hin. rewrite Forall_forall in Hall. apply Hall in Hin. lia.
Qed.

(** The ids a history issues for one entity type count up from the value
    its counter had at the start, and the counter ends that many higher. *)
Lemma run_issued k ops :
  forall s,
    issued k (fst (run ops s))
    = count_from (CurrentId.get k (MemStorage.currentId s))
        (List.length (issued k (fst (run ops s)))) /\
    CurrentId.get k (MemStorage.currentId (snd (run ops s)))
    = CurrentId.get k (MemStorage.currentId s)
      + Z.of_nat (List.length (issued k (fst (run ops s)))).
Proof.
  induction ops as [|o ops IH]; intros s.
  - simpl. split; [reflexivity|lia].
  - rewrite run_cons. cbn [fst snd].
    pose proof (exec_currentId o s) as He.
    destruct (IH (snd (exec o s))) as [IH1 IH2].
    destruct (fst (exec o s)) as [[k' i]|].
    + destruct He as [-> Hc]. rewrite Hc, incr_get in IH1, IH2.
      unfold issued in *. cbn [filter fst snd].
      destruct (Kind_eqb k' k) eqn:E.
      * apply Kind_eqb_eq in E. subst k'. cbn [map List.length count_from].
        split; [now rewrite <- IH1|lia].
      * split; [exact IH1|exact IH2].
    + rewrite He in IH1, IH2. now split.
Qed.

Lemma count_from_below from n x :
  In x (count_from from n) -> x < from + Z.of_nat n.
Proof.
  revert from. induction n as [|n IH]; simpl; intros from; [tauto|].
  intros [<-|H]; [lia|]. apply IH in H. lia.
Qed.

Lemma exec_counter_mono k o s :
  CurrentId.get k (MemStorage.currentId s)
  <= CurrentId.get k (MemStorage.currentId (snd (exec o s))).
Proof.
  pose proof (exec_currentId o s) as He.
  destruct (fst (exec o s)) as [[k' i]|].
  - destruct He as [_ ->]. rewrite incr_get. destruct (Kind_eqb k' k); lia.
  - rewrite He. lia.
Qed.

(** C7. Id counters are scoped per entity type and start at 1. Along any
    history of calls from the constructor's store (creates, updates and
    deletes in any order), the ids issued for an entity type are 1, 2, 3,
    ... in the order of issue: strictly increasing, hence never repeated.
    The counter always stands one above the last id issued, no call ever
    lowers a counter, and the id the next create returns is strictly
    greater than every id issued before for its type. *)
Theorem ids_unique_and_increasing (ops : list Op) (k : Kind) :
  let ids := issued k (fst (run ops MemStorage.new)) in
  CurrentId.get k (MemStorage.currentId MemStorage.new) = 1 /\
  ids = count_from 1 (List.length ids) /\
  StronglySorted Z.lt ids /\
  NoDup ids /\
  CurrentId.get k (MemStorage.currentId (snd (run ops MemStorage.new)))
  = 1 + Z.of_nat (List.length ids) /\
  (forall o s, CurrentId.get k (MemStorage.currentId s)
               <= CurrentId.get k (MemStorage.currentId (snd (exec o s)))) /\
  (forall o i, fst (exec o (snd (run ops MemStorage.new))) = Some (k, i) ->
               Forall (fun j => j < i) ids).
Proof.
  intros ids.
  assert (H1 : CurrentId.get k (MemStorage.currentId MemStorage.new) = 1)
    by now destruct k.
  destruct (run_issued k ops MemStorage.new) as [Hids Hc].
  rewrite H1 in Hids, Hc. fold ids in Hids, Hc.
  split; [exact H1|]. split; [exact Hids|].
  assert (Hs : StronglySorted Z.lt ids)
    by (rewrite Hids; apply count_from_sorted).
  split; [exact Hs|]. split; [now apply sorted_lt_NoDup|].
  split; [exact Hc|]. split; [intros o s; apply exec_counter_mono|].
  intros o i Hi.
  pose proof (exec_currentId o (snd (run ops MemStorage.new))) as He.
  rewrite Hi in He. destruct He as [-> _]. rewrite Hc.
  apply Forall_forall. intros j Hj. rewrite Hids in Hj.
  apply count_from_below in Hj. lia.
Qed.

(** ** Not-found behaviour *)

(** C8. An update of a Property, Unit, Tenant, Payment or Notification
    under an id the store has no row for returns [undefined] (no
    exception), and the store afterwards is the store before: nothing is
    created or modified. *)
Theorem update_absent_id (s : MemStorage.t) (id : Z) :
  (JsMap.get id (MemStorage.propertyMap s) = None ->
   forall d, MemStorage.updateProperty id d s = (None, s)) /\
  (JsMap.get id (MemStorage.unitMap s) = None ->
   forall d, MemStorage.updateUnit id d s = (None, s)) /\
  (JsMap.get id (MemStorage.tenantMap s) = None ->
   forall d, MemStorage.updateTenant id d s = (None, s)) /\
  (JsMap.get id (MemStorage.paymentMap s) = None ->
   forall d, MemStorage.updatePayment id d s = (None, s)) /\
  (JsMap.get id (MemStorage.notificationMap s) = None ->
   forall d, MemStorage.updateNotification id d s = (None, s)).
Proof.
  unfold MemStorage.updateProperty, MemStorage.updateUnit,
    MemStorage.updateTenant, MemStorage.updatePayment,
    MemStorage.updateNotification.
  repeat split; intros H d; now rewrite H.
Qed.

(** C9. [createTenant] with a [unitId] that resolves to no unit still
    issues the next tenant id, stores the full row under it and returns it:
    the record returned carries that id, every column of the insert object
    with the value given (the dangling [unitId] among them) and the clock
    reading as [createdAt]. The unit map, like every map but the tenant
    map, is left as it was, and only the tenant counter moves. *)
Theorem createTenant_without_unit (now : Date) (d : Tenant.Insert)
  (s : MemStorage.t) :
  JsMap.get (Tenant.i_unitId d) (MemStorage.unitMap s) = None ->
  let tenant := fst (MemStorage.createTenant now d s) in
  let s' := snd (MemStorage.createTenant now d s) in
  tenant = Tenant.create d (CurrentId.tenant (MemStorage.currentId s)) now /\
  tenant
  = Tenant.mk (CurrentId.tenant (MemStorage.currentId s)) (Tenant.i_userId d)
      (Tenant.i_unitId d) (Tenant.i_leaseStartDate d)
      (Tenant.i_leaseEndDate d) (Tenant.i_rentDueDay d) (Tenant.i_isActive d)
      now /\
  Tenant.id tenant = CurrentId.tenant (MemStorage.currentId s) /\
  Tenant.userId tenant = Tenant.i_userId d /\
  Tenant.unitId tenant = Tenant.i_unitId d /\
  Tenant.leaseStartDate tenant = Tenant.i_leaseStartDate d /\
  Tenant.leaseEndDate tenant = Tenant.i_leaseEndDate d /\
  Tenant.rentDueDay tenant = Tenant.i_rentDueDay d /\
  Tenant.isActive tenant = Tenant.i_isActive d /\
  Tenant.createdAt tenant = now /\
  MemStorage.getTenant (Tenant.id tenant) s' = Some tenant /\
  MemStorage.tenantMap s'
  = JsMap.set (Tenant.id tenant) tenant (MemStorage.tenantMap s) /\
  MemStorage.unitMap s' = MemStorage.unitMap s /\
  MemStorage.userMap s' = MemStorage.userMap s /\
  MemStorage.propertyMap s' = MemStorage.propertyMap s /\
  MemStorage.paymentMap s' = MemStorage.paymentMap s /\
  MemStorage.notificationMap s' = MemStorage.notificationMap s /\
  MemStorage.currentId s'
  = CurrentId.incr KTenant (MemStorage.currentId s).
Proof.
  intros H. unfold MemStorage.createTenant, MemStorage.getUnit,
    MemStorage.getTenant. simpl. rewrite H. simpl.
  repeat (split; [reflexivity|]).
  split; [apply get_set_same|]. repeat split.
Qed.

Lemma update_absent_id_witness :
  MemStorage.updateProperty 99
    (Property.mkPartial None None (Some "Elm Court"%string) None None None None
                        None None None) Demo.store = (None, Demo.store) /\
  MemStorage.updateUnit 99 (Unit.occupancy true) Demo.store
  = (None, Demo.store) /\
  MemStorage.updateTenant 99
    (Tenant.mkPartial None None (Some 1) None None None (Some false) None)
      Demo.store
  = (None, Demo.store) /\
  MemStorage.updatePayment 99
    (Payment.mkPartial None None None None None (Some "paid"%string) None None
                       None)
    Demo.store = (None, Demo.store) /\
  MemStorage.updateNotification 99
    (Notification.mkPartial None None None None (Some true) None) Demo.store
  = (None, Demo.store).
Proof.
  destruct (update_absent_id Demo.store 99) as (H1 & H2 & H3 & H4 & H5).
  split; [apply H1; reflexivity|].
  split; [apply H2; reflexivity|].
  split; [apply H3; reflexivity|].
  split; [apply H4; reflexivity|apply H5; reflexivity].
Defined.

Lemma createTenant_without_unit_witness :
  JsMap.get 42 (MemStorage.unitMap Demo.store) = None /\
  fst (MemStorage.createTenant Demo.boot (Demo.lease 2 42 true) Demo.store)
  = Tenant.mk 2 2 42 (Demo.date 2023 0 1) (Demo.date 2023 11 31) 1 true
              Demo.boot /\
  MemStorage.getTenant 2
    (snd (MemStorage.createTenant Demo.boot (Demo.lease 2 42 true) Demo.store))
  = Some (fst (MemStorage.createTenant Demo.boot (Demo.lease 2 42 true)
                 Demo.store)) /\
  MemStorage.unitMap
    (snd (MemStorage.createTenant Demo.boot (Demo.lease 2 42 true) Demo.store))
  = MemStorage.unitMap Demo.store.
Proof.
  split; [reflexivity|].
  pose proof (createTenant_without_unit Demo.boot (Demo.lease 2 42 true)
                Demo.store eq_refl) as H.
  cbv zeta in H.
  destruct H as (_ & Ht & Hid & _ & _ & _ & _ & _ & _ & _ & Hg & _ & Hu & _).
  split; [exact Ht|]. split; [|exact Hu].
  rewrite Hid in Hg. exact Hg.
Defined.

(** ** Occupancy bookkeeping *)

Lemma table_ok_entries {V : Type} (id_of : V -> Z) (next : Z) (m : JsMap.t V) :
  table_ok id_of next m = true ->
  forall e, In e m -> id_of (snd e) = fst e.
Proof.
  unfold table_ok. rewrite !andb_true_iff, forallb_forall.
  intros [_ Hall] e He. apply Hall in He.
  rewrite !andb_true_iff, Z.eqb_eq in He. tauto.
Qed.

(** Under its own id a removed row is the only one to go. *)
Lemma values_remove {V : Type} (id_of : V -> Z) (next : Z) (m : JsMap.t V) k :
  table_ok id_of next m = true ->
  JsMap.values (JsMap.remove k m)
  = filter (fun v => negb (id_of v =? k)) (JsMap.values m).
Proof.
  intros Hok. pose proof (table_ok_entries id_of next m Hok) as He.
  clear Hok. unfold JsMap.values, JsMap.remove.
  induction m as [|[k0 v0] m IH]; simpl; [reflexivity|].
  pose proof (He (k0, v0) (or_introl eq_refl)) as E. simpl in E. rewrite E.
  destruct (k0 =? k); simpl;
    rewrite IH by (intros e Hin; apply He; now right); reflexivity.
Qed.

Lemma filter_nil_iff {A : Type} (f : A -> bool) (l : list A) :
  filter f l = [] <-> forall x, In x l -> f x = false.
Proof.
  induction l as [|a l IH]; simpl; [tauto|].
  destruct (f a) eqn:E; split.
  - discriminate.
  - intros H. specialize (H a (or_introl eq_refl)). congruence.
  - intros H x [<-|Hx]; [exact E|]. now apply IH.
  - intros H. apply IH. intros x Hx. apply H. now right.
Qed.

(** The filter of the code finds no other tenant exactly when no other
    active tenant row references the unit. *)
Lemma otherTenants_nil id unit s :
  consistent s = true ->
  (MemStorage.otherTenants id unit s = [] <->
   ~ Spec.occupiedByOther (MemStorage.tenantMap s) id (Unit.id unit)).
Proof.
  intros H. consistent_split H.
  unfold MemStorage.otherTenants, Spec.occupiedByOther.
  rewrite filter_nil_iff. split.
  - intros Hall (k & t & Hk & Hg & Hu & Ha).
    pose proof (table_ok_get _ _ _ _ _ Htenant Hg) as Hid.
    assert (Hin : In t (JsMap.values (MemStorage.tenantMap s))).
    { apply (table_ok_values _ _ _ _ Htenant). now rewrite Hid. }
    apply Hall in Hin. rewrite Hu, Ha, Hid, Z.eqb_refl in Hin.
    apply Z.eqb_neq in Hk. rewrite Hk in Hin. discriminate.
  - intros Hno t Hin.
    apply (table_ok_values _ _ _ _ Htenant) in Hin.
    destruct (Tenant.id t =? id) eqn:E1; [reflexivity|].
    destruct (Tenant.unitId t =? Unit.id unit) eqn:E2; [|reflexivity].
    destruct (Tenant.isActive t) eqn:E3; [|reflexivity].
    exfalso. apply Hno. exists (Tenant.id t), t.
    apply Z.eqb_neq in E1. apply Z.eqb_eq in E2. tauto.
Qed.

Lemma noOtherActiveTenant_spec id unitId s :
  consistent s = true ->
  (Spec.noOtherActiveTenant id unitId s = true <->
   ~ Spec.occupiedByOther (MemStorage.tenantMap s) id unitId).
Proof.
  intros H. consistent_split H.
  unfold Spec.noOtherActiveTenant, Spec.activeTenantsOf, Spec.occupiedByOther.
  rewrite forallb_forall. split.
  - intros Hall (k & t & Hk & Hg & Hu & Ha).
    pose proof (table_ok_get _ _ _ _ _ Htenant Hg) as Hid.
    assert (Hin : In t (JsMap.values (MemStorage.tenantMap s))).
    { apply (table_ok_values _ _ _ _ Htenant). now rewrite Hid. }
    specialize (Hall t). rewrite filter_In, Hu, Ha, Z.eqb_refl in Hall.
    specialize (Hall (conj Hin eq_refl)). apply Z.eqb_eq in Hall. congruence.
  - intros Hno t Hin. apply filter_In in Hin as [Hin Hq].
    apply andb_true_iff in Hq as [Hu Ha]. apply Z.eqb_eq in Hu.
    apply (table_ok_values _ _ _ _ Htenant) in Hin.
    apply Z.eqb_eq. destruct (Z.eq_dec (Tenant.id t) id) as [E|E]; [exact E|].
    exfalso. apply Hno. now exists (Tenant.id t), t.
Qed.

(** What [vacateIfAlone] leaves under each key of the unit map. *)
Lemma vacateIfAlone_get id unit s k :
  JsMap.get k (MemStorage.unitMap (MemStorage.vacateIfAlone id unit s))
  = match MemStorage.otherTenants id unit s with
    | [] =>
        if k =? Unit.id unit
        then option_map (fun u => Unit.merge u (Unit.occupancy false))
               (JsMap.get k (MemStorage.unitMap s))
        else JsMap.get k (MemStorage.unitMap s)
    | _ :: _ => JsMap.get k (MemStorage.unitMap s)
    end.
Proof.
  unfold MemStorage.vacateIfAlone.
  destruct (MemStorage.otherTenants id unit s); simpl; [|reflexivity].
  apply updateUnit_get.
Qed.

Lemma filter_filter {A : Type} (f g : A -> bool) (l : list A) :
  filter f (filter g l) = filter (fun x => g x && f x) l.
Proof.
  induction l as [|a l IH]; simpl; [reflexivity|].
  destruct (g a); simpl; [destruct (f a)|]; now rewrite IH.
Qed.

(** The maps [deleteTenant] leaves when the tenant and its unit exist. *)
Lemma deleteTenant_maps id s T U :
  JsMap.get id (MemStorage.tenantMap s) = Some T ->
  JsMap.get (Tenant.unitId T) (MemStorage.unitMap s) = Some U ->
  MemStorage.tenantMap (snd (MemStorage.deleteTenant id s))
  = JsMap.remove id (MemStorage.tenantMap s) /\
  MemStorage.unitMap (snd (MemStorage.deleteTenant id s))
  = MemStorage.unitMap (MemStorage.vacateIfAlone id U s).
Proof.
  intros HT HU. unfold MemStorage.deleteTenant, MemStorage.getUnit.
  rewrite HT, HU. simpl. split; [|reflexivity].
  now rewrite (proj1 (proj2 (proj2 (vacateIfAlone_frame id U s)))).
Qed.

(** After the delete, the active tenants of the unit are the other tenants
    the code looked for before it. *)
Lemma deleteTenant_activeTenants id s T U :
  consistent s = true ->
  JsMap.get id (MemStorage.tenantMap s) = Some T ->
  JsMap.get (Tenant.unitId T) (MemStorage.unitMap s) = Some U ->
  Spec.activeTenantsOf (Unit.id U) (snd (MemStorage.deleteTenant id s))
  = MemStorage.otherTenants id U s.
Proof.
  intros H HT HU. unfold Spec.activeTenantsOf.
  rewrite (proj1 (deleteTenant_maps id s T U HT HU)).
  consistent_split H.
  rewrite (values_remove _ _ _ id Htenant), filter_filter.
  unfold MemStorage.otherTenants. apply filter_ext. intros t.
  now rewrite andb_assoc.
Qed.

(** C2, as the code has it. On a consistent store, deleting a tenant T of
    unit U when no other active tenant row references U leaves U with
    [isOccupied = false]. When an active tenant row still references U
    after the delete, the row of U is not written: its [isOccupied] is what
    it was, so it remains [true]. *)
Theorem deleteTenant_occupancy (s : MemStorage.t) (id : Z) (T : Tenant.t)
  (U : Unit.t) :
  consistent s = true ->
  JsMap.get id (MemStorage.tenantMap s) = Some T ->
  JsMap.get (Tenant.unitId T) (MemStorage.unitMap s) = Some U ->
  let s' := snd (MemStorage.deleteTenant id s) in
  (Spec.noOtherActiveTenant id (Unit.id U) s = true ->
   exists U', MemStorage.getUnit (Unit.id U) s' = Some U' /\
              Unit.isOccupied U' = false) /\
  (Spec.activeTenantsOf (Unit.id U) s' <> [] ->
   exists U', MemStorage.getUnit (Unit.id U) s' = Some U' /\
              Unit.isOccupied U' = Unit.isOccupied U /\
              (Unit.isOccupied U = true -> Unit.isOccupied U' = true)).
Proof.
  intros H HT HU s'.
  assert (HidU : Unit.id U = Tenant.unitId T).
  { pose proof H as H'. consistent_split H'.
    exact (table_ok_get _ _ _ _ _ Hunit HU). }
  pose proof (deleteTenant_maps id s T U HT HU) as [_ Hum].
  pose proof (deleteTenant_activeTenants id s T U H HT HU) as Hact.
  fold s' in Hum, Hact. unfold MemStorage.getUnit.
  rewrite Hum, vacateIfAlone_get. split.
  - intros Hno. apply (noOtherActiveTenant_spec _ _ _ H) in Hno.
    apply (otherTenants_nil _ _ _ H) in Hno. rewrite Hno, Z.eqb_refl.
    rewrite HidU, HU. simpl. eexists. split; reflexivity.
  - intros Hne. rewrite Hact in Hne.
    destruct (MemStorage.otherTenants id U s); [congruence|].
    rewrite HidU, HU. exists U. repeat split; auto.
Qed.

(** C3, as the code has it. On a consistent store, updating tenant T of
    unit A with the [unitId] of another existing unit B, when no other
    active tenant row references A, leaves [A.isOccupied = false] and
    [B.isOccupied = true]. Nothing is asked of [isActive], nor of what else
    the object of the update carries: B is marked occupied whatever the
    tenant's flag is before or after the update. *)
Theorem updateTenant_moves_occupancy (s : MemStorage.t) (id newId : Z)
  (T : Tenant.t) (A B : Unit.t) (d : Tenant.Partial) :
  consistent s = true ->
  JsMap.get id (MemStorage.tenantMap s) = Some T ->
  JsMap.get (Tenant.unitId T) (MemStorage.unitMap s) = Some A ->
  Tenant.p_unitId d = Some newId ->
  JsMap.get newId (MemStorage.unitMap s) = Some B ->
  newId <> Tenant.unitId T ->
  Spec.noOtherActiveTenant id (Unit.id A) s = true ->
  let s' := snd (MemStorage.updateTenant id d s) in
  exists A' B',
    MemStorage.getUnit (Unit.id A) s' = Some A' /\
    Unit.isOccupied A' = false /\
    MemStorage.getUnit (Unit.id B) s' = Some B' /\
    Unit.isOccupied B' = true.
Proof.
  intros H HT HA Hd HB Hne Hno s'.
  pose proof H as H'. consistent_split H'.
  pose proof (table_ok_get _ _ _ _ _ Hunit HA) as HidA.
  pose proof (table_ok_get _ _ _ _ _ Hunit HB) as HidB.
  assert (Hpos : newId <> 0).
  { apply table_ok_spec in Hunit as [_ [_ Hall]]. apply Hall in HB. lia. }
  apply (noOtherActiveTenant_spec _ _ _ H) in Hno.
  apply (otherTenants_nil _ _ _ H) in Hno.
  assert (Hs' : MemStorage.unitMap s'
                = MemStorage.unitMap
                    (snd (MemStorage.updateUnit (Unit.id B)
                            (Unit.occupancy true)
                            (MemStorage.vacateIfAlone id A s)))).
  { unfold s', MemStorage.updateTenant, MemStorage.unitChanges,
      MemStorage.getUnit.
    rewrite HT, Hd.
    apply Z.eqb_neq in Hpos, Hne. rewrite Hpos, Hne. simpl.
    now rewrite HA, HB. }
  unfold MemStorage.getUnit. rewrite Hs', !updateUnit_get, !vacateIfAlone_get.
  rewrite Hno, !Z.eqb_refl.
  assert (E1 : (Unit.id A =? Unit.id B) = false) by (apply Z.eqb_neq; lia).
  assert (E2 : (Unit.id B =? Unit.id A) = false) by (apply Z.eqb_neq; lia).
  rewrite E1, E2, HidA, HidB, HA, HB. simpl.
  do 2 eexists. repeat split.
Qed.

Lemma deleteTenant_occupancy_witness :
  option_map Unit.isOccupied
    (MemStorage.getUnit 1 (snd (MemStorage.deleteTenant 1 Demo.store)))
  = Some false /\
  option_map Unit.isOccupied
    (MemStorage.getUnit 1 (snd (MemStorage.deleteTenant 1 Demo.shared)))
  = Some true.
Proof.
  split.
  - destruct (deleteTenant_occupancy Demo.store 1 _ _
                eq_refl eq_refl eq_refl) as [H _].
    destruct (H eq_refl) as (U' & Hg & Ho).
    change (MemStorage.getUnit 1 (snd (MemStorage.deleteTenant 1 Demo.store))
            = Some U') in Hg.
    rewrite Hg. simpl. now rewrite Ho.
  - destruct (deleteTenant_occupancy Demo.shared 1 _ _
                eq_refl eq_refl eq_refl) as [_ H].
    destruct H as (U' & Hg & _ & Ho); [vm_compute; discriminate|].
    change (MemStorage.getUnit 1 (snd (MemStorage.deleteTenant 1 Demo.shared))
            = Some U') in Hg.
    rewrite Hg. simpl. now rewrite (Ho eq_refl).
Defined.

Lemma updateTenant_moves_occupancy_witness :
  option_map Tenant.isActive
    (MemStorage.getTenant 1
       (snd (MemStorage.updateTenant 1 Demo.moveOut Demo.store)))
  = Some false /\
  exists A' B',
    MemStorage.getUnit 1
      (snd (MemStorage.updateTenant 1 Demo.moveOut Demo.store)) = Some A' /\
    Unit.isOccupied A' = false /\
    MemStorage.getUnit 2
      (snd (MemStorage.updateTenant 1 Demo.moveOut Demo.store)) = Some B' /\
    Unit.isOccupied B' = true.
Proof.
  split; [reflexivity|].
  apply (updateTenant_moves_occupancy Demo.store 1 2 _ _ _ Demo.moveOut
           eq_refl eq_refl eq_refl eq_refl eq_refl).
  - discriminate.
  - reflexivity.
Defined.

(** C2 as written, for any store state, fails. A [PUT /api/units/1] with
    the body [{ id: 7 }] leaves unit 101 under key 1 with a row that says
    id 7. Tenant 1, the only tenant of the store, is active and references
    unit 1. [deleteTenant] finds the unit under key 1, looks for other
    tenants of unit 7, finds none, and updates the unit under key 7, which
    does not exist: no tenant is left, and unit 101 is still marked
    occupied. *)
Lemma renumbered_unit_stays_occupied_after_delete :
  Demo.relabelled
  = snd (run (Demo.seed ++ [UpdateUnit 1 (Demo.renumber 7)]) MemStorage.new) /\
  consistent Demo.relabelled = false /\
  map (fun t => (Tenant.id t, Tenant.unitId t, Tenant.isActive t))
      (JsMap.values (MemStorage.tenantMap Demo.relabelled))
  = [(1, 1, true)] /\
  option_map (fun u => (Unit.id u, Unit.isOccupied u))
    (MemStorage.getUnit 1 Demo.relabelled) = Some (7, true) /\
  MemStorage.getUnit 7 Demo.relabelled = None /\
  (let s' := snd (MemStorage.deleteTenant 1 Demo.relabelled) in
   JsMap.values (MemStorage.tenantMap s') = [] /\
   map (fun e => (fst e, Unit.id (snd e), Unit.isOccupied (snd e)))
       (MemStorage.unitMap s')
   = [(1, 7, true); (2, 2, false)]).
Proof. vm_compute. repeat split. Qed.

(** C3 as written, for any store state, fails on the same store. Tenant 1
    is the only tenant and references unit 101, stored under key 1 with a
    row that says id 7. Moving the tenant to unit 102 marks unit 102
    occupied, but the old unit is looked after under its id 7, where no
    unit is stored: unit 101 stays marked occupied with no tenant left on
    it. *)
Lemma updateTenant_move_not_on_every_store :
  Demo.relabelled
  = snd (run (Demo.seed ++ [UpdateUnit 1 (Demo.renumber 7)]) MemStorage.new) /\
  consistent Demo.relabelled = false /\
  map (fun t => (Tenant.id t, Tenant.unitId t, Tenant.isActive t))
      (JsMap.values (MemStorage.tenantMap Demo.relabelled))
  = [(1, 1, true)] /\
  map (fun e => (fst e, Unit.id (snd e), Unit.isOccupied (snd e)))
      (MemStorage.unitMap Demo.relabelled)
  = [(1, 7, true); (2, 2, false)] /\
  (let s' := snd (MemStorage.updateTenant 1 Demo.moveIn Demo.relabelled) in
   map (fun t => (Tenant.id t, Tenant.unitId t, Tenant.isActive t))
       (JsMap.values (MemStorage.tenantMap s'))
   = [(1, 2, true)] /\
   map (fun e => (fst e, Unit.id (snd e), Unit.isOccupied (snd e)))
       (MemStorage.unitMap s')
   = [(1, 7, true); (2, 2, true)]).
Proof. vm_compute. repeat split. Qed.

(** *** The occupancy invariant *)

Lemma activeTenantsOf_occupiedBy unitId s :
  distinct (JsMap.keys (MemStorage.tenantMap s)) = true ->
  (Spec.activeTenantsOf unitId s <> [] <->
   Spec.occupiedBy (MemStorage.tenantMap s) unitId).
Proof.
  intros Hd.
  unfold Spec.activeTenantsOf, Spec.occupiedBy. split.
  - intros Hne.
    destruct (filter _ _) as [|t l] eqn:E; [congruence|].
    assert (Hin : In t (t :: l)) by now left.
    rewrite <- E in Hin. apply filter_In in Hin as [Hin Hq].
    apply (In_values_get _ _ Hd) in Hin as [k Hk].
    apply andb_true_iff in Hq as [Hu Ha]. apply Z.eqb_eq in Hu.
    now exists k, t.
  - intros (k & t & Hg & Hu & Ha) Hnil.
    rewrite filter_nil_iff in Hnil.
    assert (Hin : In t (JsMap.values (MemStorage.tenantMap s))).
    { apply (In_values_get _ _ Hd). now exists k. }
    apply Hnil in Hin. rewrite Hu, Ha, Z.eqb_refl in Hin. discriminate.
Qed.

Lemma consistent_unitsKeyed s : consistent s = true -> unitsKeyed s.
Proof.
  intros H. consistent_split H. split; [assumption|].
  now apply table_ok_spec in Htenant.
Qed.

(** [updateTenant] leaves the units under their ids even when its object
    gives the tenant row another id. *)
Lemma updateTenant_unitsKeyed id d s :
  consistent s = true -> unitsKeyed (snd (MemStorage.updateTenant id d s)).
Proof.
  intros H. unfold MemStorage.updateTenant.
  destruct (JsMap.get id (MemStorage.tenantMap s)) as [t|] eqn:E;
    [|now apply consistent_unitsKeyed].
  destruct (updateTenant_bookkeeping d t id s) as [H3 Hm]. simpl in H3, Hm.
  match goal with
  | |- context [JsMap.set id _ (MemStorage.tenantMap ?x)] =>
      remember x as s3 eqn:Es3
  end.
  clear Es3. specialize (H3 H). apply consistent_unitsKeyed in H3.
  destruct H3 as [Hu Hd]. split; [exact Hu|].
  simpl. now apply distinct_set.
Qed.

(** Where the units are stored under their ids, the executable check and
    the invariant over the keys say the same. *)
Lemma occupancyConsistent_spec s :
  unitsKeyed s ->
  (Spec.occupancyConsistent s = true <-> Spec.occupancyInvariant s).
Proof.
  intros [Hunit Hd].
  pose proof (fun u => activeTenantsOf_occupiedBy u s Hd) as Hact.
  unfold Spec.occupancyConsistent, Spec.occupancyInvariant.
  rewrite forallb_forall. split.
  - intros Hall uid u Hg.
    pose proof (table_ok_get _ _ _ _ _ Hunit Hg) as Hid.
    assert (Hin : In u (JsMap.values (MemStorage.unitMap s))).
    { apply (table_ok_values _ _ _ _ Hunit). now rewrite Hid. }
    apply Hall in Hin. apply eqb_prop in Hin.
    rewrite Hid in Hin. rewrite <- (Hact uid), Hin.
    destruct (Spec.activeTenantsOf uid s); simpl; split; congruence.
  - intros Hinv u Hin.
    apply (table_ok_values _ _ _ _ Hunit) in Hin.
    specialize (Hinv _ _ Hin). rewrite <- (Hact _) in Hinv.
    destruct (Spec.activeTenantsOf (Unit.id u) s); simpl.
    + destruct (Unit.isOccupied u); [|reflexivity].
      exfalso. now apply (proj1 Hinv).
    + destruct (Unit.isOccupied u); [reflexivity|].
      assert (E : false = true) by (apply Hinv; discriminate). discriminate.
Qed.

Lemma occupiedBy_split m k unitId :
  Spec.occupiedBy m unitId <->
  (exists t, JsMap.get k m = Some t /\
             Tenant.unitId t = unitId /\ Tenant.isActive t = true) \/
  Spec.occupiedByOther m k unitId.
Proof.
  unfold Spec.occupiedBy, Spec.occupiedByOther. split.
  - intros (k' & t & Hg & Hu & Ha).
    destruct (Z.eq_dec k' k) as [->|Hne].
    + left. now exists t.
    + right. now exists k', t.
  - intros [(t & Hg & Hu & Ha)|(k' & t & _ & Hg & Hu & Ha)].
    + now exists k, t.
    + now exists k', t.
Qed.

Lemma occupiedByOther_set m k v unitId :
  Spec.occupiedByOther (JsMap.set k v m) k unitId
  <-> Spec.occupiedByOther m k unitId.
Proof.
  unfold Spec.occupiedByOther.
  split; intros (k' & t & Hne & Hg & Hq); exists k', t;
    (split; [exact Hne|]);
    [rewrite get_set_other in Hg by congruence
    |rewrite get_set_other by congruence]; now split.
Qed.

Lemma occupiedBy_set m k v unitId :
  Spec.occupiedBy (JsMap.set k v m) unitId <->
  (Tenant.unitId v = unitId /\ Tenant.isActive v = true) \/
  Spec.occupiedByOther m k unitId.
Proof.
  rewrite (occupiedBy_split _ k), get_set_same, occupiedByOther_set.
  split; (intros [H|H]; [left|now right]).
  - destruct H as (t & [= <-] & H). exact H.
  - now exists v.
Qed.

Lemma occupiedBy_remove m k unitId :
  Spec.occupiedBy (JsMap.remove k m) unitId <->
  Spec.occupiedByOther m k unitId.
Proof.
  unfold Spec.occupiedBy, Spec.occupiedByOther. split.
  - intros (k' & t & Hg & Hq).
    destruct (Z.eq_dec k k') as [<-|Hne].
    + rewrite get_remove_same in Hg. discriminate.
    + rewrite get_remove_other in Hg by exact Hne.
      exists k', t. split; [congruence|now split].
  - intros (k' & t & Hne & Hg & Hq). exists k', t.
    rewrite get_remove_other by congruence. now split.
Qed.

Lemma occupiedBy_absent m k unitId :
  JsMap.get k m = None ->
  (Spec.occupiedBy m unitId <-> Spec.occupiedByOther m k unitId).
Proof.
  intros Hn. rewrite (occupiedBy_split m k), Hn.
  split; [intros [(t & [=] & _)|H]; exact H|now right].
Qed.

Lemma occupiedBy_elsewhere m k t unitId :
  JsMap.get k m = Some t -> Tenant.unitId t <> unitId ->
  (Spec.occupiedBy m unitId <-> Spec.occupiedByOther m k unitId).
Proof.
  intros Hg Hne. rewrite (occupiedBy_split m k), Hg.
  split; [intros [(t' & [= <-] & Hu & _)|H]; [contradiction|exact H]
         |now right].
Qed.

(** The maps [createTenant] leaves. *)
Lemma createTenant_maps now d s :
  consistent s = true ->
  let id := CurrentId.tenant (MemStorage.currentId s) in
  let s' := snd (MemStorage.createTenant now d s) in
  MemStorage.tenantMap s'
  = JsMap.set id (Tenant.create d id now) (MemStorage.tenantMap s) /\
  forall k,
    JsMap.get k (MemStorage.unitMap s')
    = if k =? Tenant.i_unitId d
      then option_map (fun u => Unit.merge u (Unit.occupancy true))
             (JsMap.get k (MemStorage.unitMap s))
      else JsMap.get k (MemStorage.unitMap s).
Proof.
  intros H id s'. subst s'. consistent_split H.
  unfold MemStorage.createTenant, MemStorage.getUnit. simpl. fold id.
  destruct (JsMap.get (Tenant.i_unitId d) (MemStorage.unitMap s))
    as [U|] eqn:E; simpl.
  - pose proof (table_ok_get _ _ _ _ _ Hunit E) as HidU. split.
    + now rewrite (proj1 (proj2 (proj2 (updateUnit_frame _ _ _)))).
    + intros k. now rewrite updateUnit_get, HidU.
  - split; [reflexivity|]. intros k.
    destruct (k =? Tenant.i_unitId d) eqn:Ek; [|reflexivity].
    apply Z.eqb_eq in Ek. subst k. now rewrite E.
Qed.

Lemma createTenant_invariant now d s :
  consistent s = true -> Spec.occupancyInvariant s ->
  Tenant.i_isActive d = true ->
  Spec.occupancyInvariant (snd (MemStorage.createTenant now d s)).
Proof.
  intros H Hinv Hact uid u'.
  destruct (createTenant_maps now d s H) as [Htm Hum].
  rewrite Htm, Hum, occupiedBy_set. clear Htm Hum.
  pose proof H as H'. consistent_split H'.
  pose proof (table_ok_fresh _ _ _ Htenant) as Hfresh.
  rewrite <- (occupiedBy_absent _ _ uid Hfresh). simpl.
  destruct (uid =? Tenant.i_unitId d) eqn:E.
  - apply Z.eqb_eq in E. subst uid.
    destruct (JsMap.get _ (MemStorage.unitMap s)) as [u|]; [|discriminate].
    simpl. intros [= <-]. simpl. tauto.
  - apply Z.eqb_neq in E. intros Hg. rewrite (Hinv _ _ Hg).
    split; [tauto|]. intros [[Hu _]|Ho]; [congruence|exact Ho].
Qed.

Lemma otherTenants_dec id U s :
  consistent s = true ->
  (MemStorage.otherTenants id U s = [] /\
   ~ Spec.occupiedByOther (MemStorage.tenantMap s) id (Unit.id U)) \/
  (MemStorage.otherTenants id U s <> [] /\
   Spec.occupiedByOther (MemStorage.tenantMap s) id (Unit.id U)).
Proof.
  intros H. destruct (MemStorage.otherTenants id U s) as [|t l] eqn:E.
  - left. split; [reflexivity|]. now apply (otherTenants_nil id U s H).
  - right. split; [discriminate|].
    assert (Hin : In t (t :: l)) by now left.
    rewrite <- E in Hin. unfold MemStorage.otherTenants in Hin.
    apply filter_In in Hin as [Hin Hq].
    consistent_split H.
    apply (table_ok_values _ _ _ _ Htenant) in Hin.
    rewrite !andb_true_iff, negb_true_iff, Z.eqb_neq, Z.eqb_eq in Hq.
    exists (Tenant.id t), t. tauto.
Qed.

(** The maps [deleteTenant] leaves when the tenant or its unit is absent. *)
Lemma deleteTenant_maps_plain id s :
  match JsMap.get id (MemStorage.tenantMap s) with
  | Some T => JsMap.get (Tenant.unitId T) (MemStorage.unitMap s) = None
  | None => True
  end ->
  MemStorage.tenantMap (snd (MemStorage.deleteTenant id s))
  = JsMap.remove id (MemStorage.tenantMap s) /\
  MemStorage.unitMap (snd (MemStorage.deleteTenant id s))
  = MemStorage.unitMap s.
Proof.
  unfold MemStorage.deleteTenant, MemStorage.getUnit.
  destruct (JsMap.get id (MemStorage.tenantMap s)) as [T|]; simpl.
  - intros ->. now split.
  - now split.
Qed.

Lemma deleteTenant_invariant id s :
  consistent s = true -> Spec.occupancyInvariant s ->
  Spec.occupancyInvariant (snd (MemStorage.deleteTenant id s)).
Proof.
  intros H Hinv uid u'.
  pose proof H as H'. consistent_split H'.
  destruct (JsMap.get id (MemStorage.tenantMap s)) as [T|] eqn:ET.
  - destruct (JsMap.get (Tenant.unitId T) (MemStorage.unitMap s))
      as [U|] eqn:EU.
    + destruct (deleteTenant_maps id s T U ET EU) as [-> ->].
      pose proof (table_ok_get _ _ _ _ _ Hunit EU) as HidU.
      rewrite vacateIfAlone_get, occupiedBy_remove.
      destruct (otherTenants_dec id U s H) as [[E Hno]|[E Ho]].
      * rewrite E. destruct (uid =? Unit.id U) eqn:Eu.
        -- apply Z.eqb_eq in Eu. subst uid. rewrite HidU, EU. simpl.
           intros [= <-]. simpl. rewrite HidU in Hno.
           split; [discriminate|tauto].
        -- apply Z.eqb_neq in Eu. intros Hg. rewrite (Hinv _ _ Hg).
           apply (occupiedBy_elsewhere _ _ T); [exact ET|lia].
      * destruct (MemStorage.otherTenants id U s); [congruence|].
        intros Hg. rewrite (Hinv _ _ Hg).
        destruct (Z.eq_dec uid (Unit.id U)) as [->|Hne].
        -- split; [intros _; exact Ho|].
           intros _. apply (occupiedBy_split _ id). now right.
        -- apply (occupiedBy_elsewhere _ _ T); [exact ET|lia].
    + destruct (deleteTenant_maps_plain id s) as [-> ->];
        [now rewrite ET|].
      intros Hg. rewrite (Hinv _ _ Hg), occupiedBy_remove.
      apply (occupiedBy_elsewhere _ _ T); [exact ET|congruence].
  - destruct (deleteTenant_maps_plain id s) as [-> ->]; [now rewrite ET|].
    intros Hg. rewrite (Hinv _ _ Hg), occupiedBy_remove.
    now apply occupiedBy_absent.
Qed.

(** The maps [updateTenant] leaves when the tenant exists: [before k] is
    the unit under [k] once the old unit was looked after. *)
Lemma updateTenant_maps id d s T :
  JsMap.get id (MemStorage.tenantMap s) = Some T ->
  let s' := snd (MemStorage.updateTenant id d s) in
  let before k :=
    match JsMap.get (Tenant.unitId T) (MemStorage.unitMap s) with
    | Some oldUnit =>
        JsMap.get k (MemStorage.unitMap (MemStorage.vacateIfAlone id oldUnit s))
    | None => JsMap.get k (MemStorage.unitMap s)
    end in
  MemStorage.tenantMap s'
  = JsMap.set id (Tenant.merge T d) (MemStorage.tenantMap s) /\
  forall k,
    JsMap.get k (MemStorage.unitMap s')
    = match MemStorage.unitChanges d T with
      | Some newId =>
          match JsMap.get newId (MemStorage.unitMap s) with
          | Some newUnit =>
              if k =? Unit.id newUnit
              then option_map (fun u => Unit.merge u (Unit.occupancy true))
                     (before k)
              else before k
          | None => before k
          end
      | None => JsMap.get k (MemStorage.unitMap s)
      end.
Proof.
  intros HT s' before. subst s'.
  destruct (updateTenant_bookkeeping d T id s) as [_ Hm]. simpl in Hm.
  unfold MemStorage.updateTenant. rewrite HT. simpl. rewrite Hm.
  split; [reflexivity|]. intros k. subst before.
  unfold MemStorage.getUnit.
  destruct (MemStorage.unitChanges d T) as [newId|]; [|reflexivity].
  destruct (JsMap.get newId (MemStorage.unitMap s)) as [NU|];
    destruct (JsMap.get (Tenant.unitId T) (MemStorage.unitMap s)) as [OU|];
    simpl; rewrite ?updateUnit_get; reflexivity.
Qed.

(** An update that moves the tenant to another unit and leaves it active,
    or that changes neither its unit nor its [isActive]. *)
Lemma updateTenant_invariant id d s T :
  consistent s = true -> Spec.occupancyInvariant s ->
  JsMap.get id (MemStorage.tenantMap s) = Some T ->
  (exists newId, Tenant.p_unitId d = Some newId /\ newId <> 0 /\
                 newId <> Tenant.unitId T /\
                 Tenant.isActive (Tenant.merge T d) = true) \/
  (Tenant.unitId (Tenant.merge T d) = Tenant.unitId T /\
   Tenant.isActive (Tenant.merge T d) = Tenant.isActive T) ->
  Spec.occupancyInvariant (snd (MemStorage.updateTenant id d s)).
Proof.
  intros H Hinv HT Hcond uid u'.
  destruct (updateTenant_maps id d s T HT) as [Htm Hum].
  rewrite Htm, Hum, occupiedBy_set. clear Htm Hum.
  pose proof H as H'. consistent_split H'.
  destruct Hcond as [(newId & Hp & Hz & Hne & Hact)|[Hu Ha]].
  - assert (Hch : MemStorage.unitChanges d T = Some newId).
    { unfold MemStorage.unitChanges. rewrite Hp.
      apply Z.eqb_neq in Hz, Hne. now rewrite Hz, Hne. }
    assert (HuM : Tenant.unitId (Tenant.merge T d) = newId)
      by (simpl; now rewrite Hp).
    rewrite Hch, HuM, Hact.
    (* the unit under [uid] after the old unit was looked after *)
    assert (Hold : forall u,
      match JsMap.get (Tenant.unitId T) (MemStorage.unitMap s) with
      | Some oldUnit =>
          JsMap.get uid
            (MemStorage.unitMap (MemStorage.vacateIfAlone id oldUnit s))
      | None => JsMap.get uid (MemStorage.unitMap s)
      end = Some u ->
      (uid <> Tenant.unitId T /\
       JsMap.get uid (MemStorage.unitMap s) = Some u) \/
      (uid = Tenant.unitId T /\
       (Unit.isOccupied u = true <->
        Spec.occupiedByOther (MemStorage.tenantMap s) id uid))).
    { intros u.
      destruct (JsMap.get (Tenant.unitId T) (MemStorage.unitMap s))
        as [OU|] eqn:EO.
      - pose proof (table_ok_get _ _ _ _ _ Hunit EO) as HidO.
        rewrite vacateIfAlone_get, HidO.
        destruct (Z.eq_dec uid (Tenant.unitId T)) as [->|Hn].
        + rewrite Z.eqb_refl, EO. intros Hg. right. split; [reflexivity|].
          rewrite <- HidO.
          destruct (otherTenants_dec id OU s H) as [[E Hno]|[E Ho]].
          * rewrite E in Hg. simpl in Hg. injection Hg as <-. simpl.
            split; [discriminate|tauto].
          * destruct (MemStorage.otherTenants id OU s); [congruence|].
            injection Hg as <-. split; [intros _; exact Ho|]. intros _.
            apply (Hinv _ _ EO), (occupiedBy_split _ id).
            right. now rewrite <- HidO.
        + apply Z.eqb_neq in Hn. rewrite Hn.
          apply Z.eqb_neq in Hn. intros Hg. left.
          now destruct (MemStorage.otherTenants id OU s).
      - intros Hg. left. split; [congruence|exact Hg]. }
    assert (Hrest : forall u,
      uid <> newId ->
      match JsMap.get (Tenant.unitId T) (MemStorage.unitMap s) with
      | Some oldUnit =>
          JsMap.get uid
            (MemStorage.unitMap (MemStorage.vacateIfAlone id oldUnit s))
      | None => JsMap.get uid (MemStorage.unitMap s)
      end = Some u ->
      (Unit.isOccupied u = true <->
       (newId = uid /\ true = true) \/
       Spec.occupiedByOther (MemStorage.tenantMap s) id uid)).
    { intros u Hn Hg. apply Hold in Hg as [[Hn' Hg]|[_ Hiff]].
      - rewrite (Hinv _ _ Hg), (occupiedBy_elsewhere _ _ T uid HT)
          by congruence.
        split; [tauto|]. intros [[E _]|Ho]; [congruence|exact Ho].
      - rewrite Hiff. split; [tauto|].
        intros [[E _]|Ho]; [congruence|exact Ho]. }
    destruct (JsMap.get newId (MemStorage.unitMap s)) as [NU|] eqn:EN.
    + pose proof (table_ok_get _ _ _ _ _ Hunit EN) as HidN. rewrite HidN.
      destruct (uid =? newId) eqn:E.
      * apply Z.eqb_eq in E. subst uid.
        match goal with
        | |- option_map _ ?b = _ -> _ => destruct b; [|discriminate]
        end.
        simpl. intros [= <-]. simpl. tauto.
      * apply Z.eqb_neq in E. now apply Hrest.
    + destruct (Z.eq_dec uid newId) as [->|E]; [|now apply Hrest].
      intros Hg. apply Hold in Hg as [[_ Hg]|[E _]]; congruence.
  - assert (Hch : MemStorage.unitChanges d T = None).
    { unfold MemStorage.unitChanges. simpl in Hu.
      destruct (Tenant.p_unitId d) as [n|]; [|reflexivity].
      simpl in Hu. subst n. now rewrite Z.eqb_refl, andb_false_r. }
    rewrite Hch, Hu, Ha. intros Hg.
    rewrite (Hinv _ _ Hg), (occupiedBy_split _ id), HT.
    split; (intros [Hl|Hr]; [left|now right]).
    + destruct Hl as (t & [= <-] & Hl). exact Hl.
    + now exists T.
Qed.

(** C1, as the code has it. On a consistent store where every unit's
    [isOccupied] says whether an active Tenant row references it, the same
    holds again after [createTenant] of a tenant with [isActive = true],
    after [deleteTenant], and after an [updateTenant] that either moves the
    tenant to another unit (a non-zero [unitId] different from its own) and
    leaves it active, or changes neither its [unitId] nor its
    [isActive]. *)
Theorem occupancy_kept_by_tenant_writes (s : MemStorage.t) :
  consistent s = true ->
  Spec.occupancyConsistent s = true ->
  (forall now d,
     Tenant.i_isActive d = true ->
     Spec.occupancyConsistent (snd (MemStorage.createTenant now d s)) = true) /\
  (forall id,
     Spec.occupancyConsistent (snd (MemStorage.deleteTenant id s)) = true) /\
  (forall id d T,
     JsMap.get id (MemStorage.tenantMap s) = Some T ->
     (exists newId, Tenant.p_unitId d = Some newId /\ newId <> 0 /\
                    newId <> Tenant.unitId T /\
                    Tenant.isActive (Tenant.merge T d) = true) \/
     (Tenant.unitId (Tenant.merge T d) = Tenant.unitId T /\
      Tenant.isActive (Tenant.merge T d) = Tenant.isActive T) ->
     Spec.occupancyConsistent (snd (MemStorage.updateTenant id d s)) = true).
Proof.
  intros H Hocc.
  apply (occupancyConsistent_spec s (consistent_unitsKeyed s H)) in Hocc.
  split; [|split].
  - intros now d Hact. apply occupancyConsistent_spec.
    + now apply consistent_unitsKeyed, consistent_createTenant.
    + now apply createTenant_invariant.
  - intros id. apply occupancyConsistent_spec.
    + now apply consistent_unitsKeyed, consistent_deleteTenant.
    + now apply deleteTenant_invariant.
  - intros id d T HT Hcond. apply occupancyConsistent_spec.
    + now apply updateTenant_unitsKeyed.
    + now apply (updateTenant_invariant id d s T).
Qed.

Lemma occupancy_kept_by_tenant_writes_witness :
  Spec.occupancyConsistent
    (snd (MemStorage.createTenant Demo.boot (Demo.lease 2 2 true) Demo.store))
  = true /\
  Spec.occupancyConsistent (snd (MemStorage.deleteTenant 1 Demo.store))
  = true /\
  Spec.occupancyConsistent
    (snd (MemStorage.updateTenant 1 Demo.moveIn Demo.store)) = true.
Proof.
  destruct (occupancy_kept_by_tenant_writes Demo.store eq_refl eq_refl)
    as (Hc & Hd & Hu).
  split; [apply Hc; reflexivity|]. split; [apply Hd|].
  apply (Hu 1 Demo.moveIn _ eq_refl). left. exists 2.
  split; [reflexivity|]. split; [discriminate|].
  split; [discriminate|reflexivity].
Defined.

(** C1 as written fails. The seeded store is consistent and its occupancy
    flags are right. Creating an inactive tenant on the vacant unit 102
    marks the unit occupied although no active tenant row references it;
    and deactivating the only tenant of unit 101 by an update leaves 101
    marked occupied. *)
Lemma occupancy_not_kept_by_every_write :
  consistent Demo.store = true /\
  Spec.occupancyConsistent Demo.store = true /\
  (let s' := snd (MemStorage.createTenant Demo.boot (Demo.lease 2 2 false)
                    Demo.store) in
   option_map Unit.isOccupied (MemStorage.getUnit 2 s') = Some true /\
   Spec.activeTenantsOf 2 s' = [] /\
   Spec.occupancyConsistent s' = false) /\
  (let s' := snd (MemStorage.updateTenant 1 Demo.deactivate Demo.store) in
   option_map Unit.isOccupied (MemStorage.getUnit 1 s') = Some true /\
   Spec.activeTenantsOf 1 s' = [] /\
   Spec.occupancyConsistent s' = false).
Proof. vm_compute. repeat split. Qed.

(** ** Landlord-scoped joins *)

Lemma includes_In (l : list Z) (x : Z) : includes l x = true <-> In x l.
Proof.
  unfold includes. rewrite existsb_exists. split.
  - intros (y & Hy & E). apply Z.eqb_eq in E. now subst.
  - intros H. exists x. split; [exact H|apply Z.eqb_refl].
Qed.

(** The scans of [getTenantsByLandlord] select the tenant rows whose unit
    resolves to a unit whose property resolves to a property of the
    landlord. *)
Lemma tenantsOfLandlord_ownedBy landlordId s :
  consistent s = true ->
  MemStorage.tenantsOfLandlord landlordId s
  = filter (Spec.ownedBy landlordId s) (JsMap.values (MemStorage.tenantMap s)).
Proof.
  intros H. consistent_split H.
  unfold MemStorage.tenantsOfLandlord, MemStorage.getPropertiesByLandlord.
  apply filter_ext. intros t. apply eq_true_iff_eq.
  rewrite includes_In, in_map_iff. unfold Spec.ownedBy. split.
  - intros (u & Hid & Hu). apply filter_In in Hu as [Hu Hp].
    apply (table_ok_values _ _ _ _ Hunit) in Hu. rewrite <- Hid, Hu.
    apply includes_In, in_map_iff in Hp as (p & Hidp & Hp).
    apply filter_In in Hp as [Hp Hl].
    apply (table_ok_values _ _ _ _ Hproperty) in Hp.
    now rewrite <- Hidp, Hp.
  - destruct (JsMap.get (Tenant.unitId t) (MemStorage.unitMap s))
      as [u|] eqn:Eu; [|discriminate].
    destruct (JsMap.get (Unit.propertyId u) (MemStorage.propertyMap s))
      as [p|] eqn:Ep; [|discriminate].
    intros Hl. exists u.
    pose proof (table_ok_get _ _ _ _ _ Hunit Eu) as Hidu.
    pose proof (table_ok_get _ _ _ _ _ Hproperty Ep) as Hidp.
    split; [exact Hidu|]. apply filter_In. split.
    + apply (table_ok_values _ _ _ _ Hunit). now rewrite Hidu.
    + apply includes_In, in_map_iff. exists p. split; [exact Hidp|].
      apply filter_In. split; [|exact Hl].
      apply (table_ok_values _ _ _ _ Hproperty). now rewrite Hidp.
Qed.

Lemma map_throw_total {A B : Type} (f : A -> option B) (g : B -> A)
  (l : list A) :
  (forall x, In x l -> exists y, f x = Some y) ->
  (forall x y, f x = Some y -> g y = x) ->
  exists ys, map_throw f l = Some ys /\ map g ys = l /\
             forall y, In y ys -> f (g y) = Some y.
Proof.
  intros Hdef Hg. induction l as [|x l IH]; simpl.
  - exists []. repeat split. intros y [].
  - destruct (Hdef x (or_introl eq_refl)) as [y Hy]. rewrite Hy.
    destruct IH as (ys & -> & Hm & Hall).
    { intros x' Hx'. apply Hdef. now right. }
    exists (y :: ys). simpl. rewrite (Hg _ _ Hy), Hm.
    repeat split. intros y' [<-|Hy']; [|now apply Hall].
    now rewrite (Hg _ _ Hy).
Qed.

Lemma tenantView_tenant s t v :
  MemStorage.tenantView s t = Some v -> tv_tenant v = t.
Proof.
  unfold MemStorage.tenantView.
  destruct (JsMap.get (Tenant.unitId t) (MemStorage.unitMap s));
    [|discriminate].
  now intros [= <-].
Qed.

(** On a consistent store [getTenantsByLandlord] does not throw; its rows
    are, in the order of the tenant map, the tenants owned by the landlord,
    each joined with what its foreign keys resolve to. *)
Lemma getTenantsByLandlord_total landlordId s :
  consistent s = true ->
  exists views,
    MemStorage.getTenantsByLandlord landlordId s = Some views /\
    map tv_tenant views
    = filter (Spec.ownedBy landlordId s)
             (JsMap.values (MemStorage.tenantMap s)) /\
    forall v, In v views ->
              MemStorage.tenantView s (tv_tenant v) = Some v.
Proof.
  intros H. unfold MemStorage.getTenantsByLandlord.
  rewrite (tenantsOfLandlord_ownedBy landlordId s H).
  apply map_throw_total; [|apply tenantView_tenant].
  intros t Ht. apply filter_In in Ht as [_ Ho].
  unfold Spec.ownedBy in Ho. unfold MemStorage.tenantView.
  destruct (JsMap.get (Tenant.unitId t) (MemStorage.unitMap s));
    [|discriminate].
  eexists. reflexivity.
Qed.

Lemma ownedBy_chain landlordId s t :
  Spec.ownedBy landlordId s t = true <->
  exists u p,
    MemStorage.getUnit (Tenant.unitId t) s = Some u /\
    MemStorage.getProperty (Unit.propertyId u) s = Some p /\
    Property.landlordId p = landlordId.
Proof.
  unfold Spec.ownedBy, MemStorage.getUnit, MemStorage.getProperty. split.
  - destruct (JsMap.get (Tenant.unitId t) (MemStorage.unitMap s))
      as [u|]; [|discriminate].
    destruct (JsMap.get (Unit.propertyId u) (MemStorage.propertyMap s))
      as [p|] eqn:Ep; [|discriminate].
    intros Hl. apply Z.eqb_eq in Hl. now exists u, p.
  - intros (u & p & -> & -> & Hl). now apply Z.eqb_eq.
Qed.

(** C4, as the code has it. On a consistent store [getPaymentsByLandlord]
    returns (it does not throw) payment rows of the store only, and for
    each of them the [tenantId] resolves to a tenant whose [unitId]
    resolves to a unit whose [propertyId] resolves to a property whose
    [landlordId] is the queried one. The three lookups are by key, so
    whatever tenant, unit and property the chain of a returned payment
    resolves to, the landlord is the queried one: no payment of another
    landlord's tenant is returned. *)
Theorem getPaymentsByLandlord_scoped (s : MemStorage.t) (landlordId : Z) :
  consistent s = true ->
  exists payments,
    MemStorage.getPaymentsByLandlord landlordId s = Some payments /\
    forall pv, In pv payments ->
      MemStorage.getPayment (Payment.id (pv_payment pv)) s
      = Some (pv_payment pv) /\
      (exists t u p,
         MemStorage.getTenant (Payment.tenantId (pv_payment pv)) s = Some t /\
         MemStorage.getUnit (Tenant.unitId t) s = Some u /\
         MemStorage.getProperty (Unit.propertyId u) s = Some p /\
         Property.landlordId p = landlordId) /\
      (forall t u p,
         MemStorage.getTenant (Payment.tenantId (pv_payment pv)) s = Some t ->
         MemStorage.getUnit (Tenant.unitId t) s = Some u ->
         MemStorage.getProperty (Unit.propertyId u) s = Some p ->
         Property.landlordId p = landlordId).
Proof.
  intros H.
  destruct (getTenantsByLandlord_total landlordId s H) as (views & Hv & Hm & _).
  unfold MemStorage.getPaymentsByLandlord. rewrite Hv.
  eexists. split; [reflexivity|]. intros pv Hpv.
  pose proof H as H'. consistent_split H'.
  unfold MemStorage.paymentViews in Hpv.
  apply in_map_iff in Hpv as (pay & <- & Hpay). simpl.
  apply filter_In in Hpay as [Hin Hinc].
  apply (table_ok_values _ _ _ _ Hpayment) in Hin.
  apply includes_In, in_map_iff in Hinc as (v & Hid & Hin').
  assert (Ht : In (tv_tenant v) (map tv_tenant views)) by now apply in_map.
  rewrite Hm in Ht. apply filter_In in Ht as [Ht Ho].
  apply (table_ok_values _ _ _ _ Htenant) in Ht. rewrite Hid in Ht.
  assert (Hchain : exists t u p,
    MemStorage.getTenant (Payment.tenantId pay) s = Some t /\
    MemStorage.getUnit (Tenant.unitId t) s = Some u /\
    MemStorage.getProperty (Unit.propertyId u) s = Some p /\
    Property.landlordId p = landlordId).
  { apply ownedBy_chain in Ho as (u & p & Hu & Hp & Hl).
    now exists (tv_tenant v), u, p. }
  split; [exact Hin|]. split; [exact Hchain|].
  destruct Hchain as (t & u & p & Ht' & Hu & Hp & Hl).
  intros t' u' p' Ht'' Hu' Hp'.
  rewrite Ht' in Ht''. injection Ht'' as <-.
  rewrite Hu in Hu'. injection Hu' as <-.
  rewrite Hp in Hp'. now injection Hp' as <-.
Qed.

Lemma getPaymentsByLandlord_scoped_witness :
  consistent Demo.town = true /\
  map Payment.tenantId (JsMap.values (MemStorage.paymentMap Demo.town))
  = [1; 1; 1; 2] /\
  option_map (map (fun pv => Payment.id (pv_payment pv)))
    (MemStorage.getPaymentsByLandlord 1 Demo.town) = Some [1; 2; 3] /\
  option_map (map (fun pv => Payment.id (pv_payment pv)))
    (MemStorage.getPaymentsByLandlord 3 Demo.town) = Some [4] /\
  exists payments,
    MemStorage.getPaymentsByLandlord 1 Demo.town = Some payments /\
    forall pv, In pv payments ->
      MemStorage.getPayment (Payment.id (pv_payment pv)) Demo.town
      = Some (pv_payment pv) /\
      (exists t u p,
         MemStorage.getTenant (Payment.tenantId (pv_payment pv)) Demo.town
         = Some t /\
         MemStorage.getUnit (Tenant.unitId t) Demo.town = Some u /\
         MemStorage.getProperty (Unit.propertyId u) Demo.town = Some p /\
         Property.landlordId p = 1) /\
      (forall t u p,
         MemStorage.getTenant (Payment.tenantId (pv_payment pv)) Demo.town
         = Some t ->
         MemStorage.getUnit (Tenant.unitId t) Demo.town = Some u ->
         MemStorage.getProperty (Unit.propertyId u) Demo.town = Some p ->
         Property.landlordId p = 1).
Proof.
  split; [reflexivity|]. split; [reflexivity|].
  split; [reflexivity|]. split; [reflexivity|].
  apply (getPaymentsByLandlord_scoped Demo.town 1). reflexivity.
Defined.

(** C4 as written, for every store state, fails. In the store of the two
    landlords, a [PUT /api/units/2] with the body [{ id: 3 }] gives unit
    102 of landlord 1 the id of the unit of landlord 3. The scan of
    [getTenantsByLandlord] then collects the unit ids 1 and 3 for landlord
    1 and selects tenant 2, whose [unitId] 3 resolves to the unit of
    landlord 3: payment 4, of that tenant, is returned to landlord 1. *)
Lemma getPaymentsByLandlord_leaks_on_some_store :
  Demo.crossed
  = snd (run (Demo.seed
              ++ [ CreateUser Demo.boot Demo.otherLandlord;
                   CreateProperty Demo.boot Demo.oak;
                   CreateUnit Demo.boot Demo.oakUnit;
                   CreateTenant Demo.boot (Demo.lease 2 3 false);
                   CreatePayment Demo.boot
                     (Demo.rent 2 "700" (Demo.date 2025 2 1) None "pending");
                   UpdateUnit 2 (Demo.renumber 3) ])
             MemStorage.new) /\
  consistent Demo.crossed = false /\
  map (fun e => (fst e, Unit.id (snd e), Unit.propertyId (snd e)))
      (MemStorage.unitMap Demo.crossed)
  = [(1, 1, 1); (2, 3, 1); (3, 3, 2)] /\
  option_map (map (fun pv => (Payment.id (pv_payment pv),
                              Payment.tenantId (pv_payment pv))))
    (MemStorage.getPaymentsByLandlord 1 Demo.crossed)
  = Some [(1, 1); (2, 1); (3, 1); (4, 2)] /\
  match MemStorage.getPaymentsByLandlord 1 Demo.crossed with
  | None => False
  | Some payments =>
      exists pv t u p,
        In pv payments /\
        Payment.id (pv_payment pv) = 4 /\
        MemStorage.getTenant (Payment.tenantId (pv_payment pv)) Demo.crossed
        = Some t /\
        MemStorage.getUnit (Tenant.unitId t) Demo.crossed = Some u /\
        MemStorage.getProperty (Unit.propertyId u) Demo.crossed = Some p /\
        Property.landlordId p = 3
  end.
Proof.
  split; [vm_compute; reflexivity|]. split; [vm_compute; reflexivity|].
  split; [vm_compute; reflexivity|]. split; [vm_compute; reflexivity|].
  vm_compute. do 4 eexists.
  split; [do 3 right; left; reflexivity|].
  repeat (split; [reflexivity|]). reflexivity.
Qed.

Lemma filter_length_split {A : Type} (f g : A -> bool) (l : list A) :
  List.length (filter f l)
  = (List.length (filter (fun x => f x && g x) l)
     + List.length (filter (fun x => f x && negb (g x)) l))%nat.
Proof.
  induction l as [|a l IH]; simpl; [reflexivity|].
  destruct (f a), (g a); simpl; lia.
Qed.

(** C10, as the code has it. On a consistent store [getTenantsByLandlord]
    returns one row for every tenant of the store whose unit belongs to the
    landlord, whether the tenant's [isActive] is true or false; so
    [tenantsCount] of the dashboard is the number of the landlord's active
    tenants plus the number of the landlord's inactive tenants. *)
Theorem getTenantsByLandlord_ignores_isActive (Num : Type) (zero : Num)
  (add : Num -> Num -> Num) (Number : string -> Num) (monthLong : Z -> string)
  (s : MemStorage.t) (landlordId : Z) (now today : Date) :
  consistent s = true ->
  exists views d,
    MemStorage.getTenantsByLandlord landlordId s = Some views /\
    (forall id t,
       MemStorage.getTenant id s = Some t ->
       Spec.ownedBy landlordId s t = true ->
       In t (map tv_tenant views)) /\
    MemStorage.getDashboardData Num zero add Number monthLong now today
      landlordId s = Some d /\
    MemStorage.tenantsCount d = List.length views /\
    MemStorage.tenantsCount d
    = (List.length
         (filter (fun t => Spec.ownedBy landlordId s t && Tenant.isActive t)
                 (JsMap.values (MemStorage.tenantMap s)))
       + List.length
           (filter (fun t => Spec.ownedBy landlordId s t
                             && negb (Tenant.isActive t))
                   (JsMap.values (MemStorage.tenantMap s))))%nat.
Proof.
  intros H.
  destruct (getTenantsByLandlord_total landlordId s H) as (views & Hv & Hm & _).
  exists views. unfold MemStorage.getDashboardData,
    MemStorage.getPaymentsByLandlord. rewrite Hv.
  eexists. split; [reflexivity|]. split; [|split; [reflexivity|]].
  - intros id t Hg Ho. rewrite Hm. apply filter_In. split; [|exact Ho].
    consistent_split H.
    pose proof (table_ok_get _ _ _ _ _ Htenant Hg) as Hid.
    apply (table_ok_values _ _ _ _ Htenant). now rewrite Hid.
  - simpl. split; [reflexivity|].
    rewrite <- filter_length_split, <- Hm. now rewrite length_map.
Qed.

Lemma getTenantsByLandlord_ignores_isActive_witness :
  consistent Demo.town = true /\
  option_map Tenant.isActive (MemStorage.getTenant 2 Demo.town) = Some false /\
  option_map (@MemStorage.tenantsCount Z)
    (MemStorage.getDashboardData Z 0 Z.add Demo.NumberZ Demo.monthLongEn
       (Demo.date 2025 2 20) (Demo.date 2025 2 20) 3 Demo.town)
  = Some 1%nat /\
  exists views d,
    MemStorage.getTenantsByLandlord 3 Demo.town = Some views /\
    (forall id t,
       MemStorage.getTenant id Demo.town = Some t ->
       Spec.ownedBy 3 Demo.town t = true ->
       In t (map tv_tenant views)) /\
    MemStorage.getDashboardData Z 0 Z.add Demo.NumberZ Demo.monthLongEn
      (Demo.date 2025 2 20) (Demo.date 2025 2 20) 3 Demo.town = Some d /\
    MemStorage.tenantsCount d = List.length views /\
    MemStorage.tenantsCount d
    = (List.length
         (filter (fun t => Spec.ownedBy 3 Demo.town t && Tenant.isActive t)
                 (JsMap.values (MemStorage.tenantMap Demo.town)))
       + List.length
           (filter (fun t => Spec.ownedBy 3 Demo.town t
                             && negb (Tenant.isActive t))
                   (JsMap.values (MemStorage.tenantMap Demo.town))))%nat.
Proof.
  split; [reflexivity|]. split; [reflexivity|]. split; [reflexivity|].
  apply (getTenantsByLandlord_ignores_isActive Z 0 Z.add Demo.NumberZ
           Demo.monthLongEn Demo.town 3).
  reflexivity.
Defined.

(** C10 as written, for whatever store, fails. Where unit 101 is stored
    under key 1 with a row that says id 7, tenant 1 references unit 1,
    which belongs to landlord 1, and yet [getTenantsByLandlord] returns no
    row for landlord 1 and [tenantsCount] is 0: the scan compares the
    tenant's [unitId] with the ids the unit rows say. Where a tenant
    references the id a unit row says and no unit is stored under that id,
    [getTenantsByLandlord] and the dashboard throw instead of
    returning. *)
Lemma getTenantsByLandlord_misses_on_some_store :
  Demo.relabelled
  = snd (run (Demo.seed ++ [UpdateUnit 1 (Demo.renumber 7)]) MemStorage.new) /\
  Demo.dangling
  = snd (run (Demo.seed ++ [ UpdateUnit 1 (Demo.renumber 9);
                             CreateTenant Demo.boot (Demo.lease 2 9 true) ])
             MemStorage.new) /\
  option_map (Spec.ownedBy 1 Demo.relabelled)
    (MemStorage.getTenant 1 Demo.relabelled) = Some true /\
  MemStorage.getTenantsByLandlord 1 Demo.relabelled = Some [] /\
  option_map (@MemStorage.tenantsCount Z)
    (MemStorage.getDashboardData Z 0 Z.add Demo.NumberZ Demo.monthLongEn
       (Demo.date 2025 2 20) (Demo.date 2025 2 20) 1 Demo.relabelled)
  = Some 0%nat /\
  MemStorage.getTenantsByLandlord 1 Demo.dangling = None /\
  MemStorage.getDashboardData Z 0 Z.add Demo.NumberZ Demo.monthLongEn
    (Demo.date 2025 2 20) (Demo.date 2025 2 20) 1 Demo.dangling = None.
Proof. vm_compute. repeat split. Qed.

(** ** Dashboard totals *)

Lemma filter_map_comm {A B : Type} (f : A -> B) (g : B -> bool) (l : list A) :
  filter g (map f l) = map f (filter (fun x => g (f x)) l).
Proof.
  induction l as [|a l IH]; simpl; [reflexivity|].
  destruct (g (f a)); simpl; now rewrite IH.
Qed.

(** Deleting a payment removes its views, and nothing else, from the
    landlord's payments. *)
Lemma getPaymentsByLandlord_deletePayment landlordId id s :
  consistent s = true ->
  MemStorage.getPaymentsByLandlord landlordId
    (snd (MemStorage.deletePayment id s))
  = option_map
      (filter (fun pv => negb (Payment.id (pv_payment pv) =? id)))
      (MemStorage.getPaymentsByLandlord landlordId s).
Proof.
  intros H. consistent_split H.
  unfold MemStorage.getPaymentsByLandlord.
  change (MemStorage.getTenantsByLandlord landlordId
            (snd (MemStorage.deletePayment id s)))
    with (MemStorage.getTenantsByLandlord landlordId s).
  destruct (MemStorage.getTenantsByLandlord landlordId s) as [tenants|];
    [|reflexivity].
  simpl. f_equal. unfold MemStorage.paymentViews. simpl.
  rewrite (values_remove _ _ _ id Hpayment).
  rewrite filter_map_comm, !filter_filter. simpl.
  f_equal. apply filter_ext. intros p. apply andb_comm.
Qed.

Lemma paymentViews_in tenants s pv :
  consistent s = true ->
  In pv (MemStorage.paymentViews tenants s) ->
  MemStorage.getPayment (Payment.id (pv_payment pv)) s = Some (pv_payment pv).
Proof.
  intros H Hin. consistent_split H. unfold MemStorage.paymentViews in Hin.
  apply in_map_iff in Hin as (p & <- & Hp). simpl.
  apply filter_In in Hp as [Hp _].
  now apply (table_ok_values _ _ _ _ Hpayment).
Qed.

(** Dropping from a list rows that a filter rejects anyway does not change
    what the filter keeps. *)
Lemma filter_drop_rejected {A : Type} (keep drop : A -> bool) (l : list A) :
  (forall x, In x l -> drop x = true -> keep x = false) ->
  filter keep (filter (fun x => negb (drop x)) l) = filter keep l.
Proof.
  intros Hrej. rewrite filter_filter. apply filter_ext_in.
  intros x Hx. destruct (drop x) eqn:E; simpl; [|reflexivity].
  symmetry. now apply Hrej.
Qed.

(** C6. A payment of the store with status [pending] whose [dueDate] is
    the very instant [now] of the aggregation passes neither the filter of
    the upcoming payments nor the filter of the overdue payments. So on any
    store, whenever the dashboard of a landlord (the owning one or another)
    is computed, each of its two totals is the sum over a list of payments
    in which that payment does not occur. On a consistent store the
    dashboard is computed, and both totals are what they are for the store
    without that payment. *)
Theorem pending_due_now_in_neither_total (Num : Type) (zero : Num)
  (add : Num -> Num -> Num) (Number : string -> Num) (monthLong : Z -> string)
  (s : MemStorage.t) (landlordId : Z) (now today : Date) (id : Z)
  (p : Payment.t) :
  MemStorage.getPayment id s = Some p ->
  Payment.status p = "pending"%string ->
  getTime (Payment.dueDate p) = getTime now ->
  (forall tenant,
     MemStorage.isUpcoming now (mkPaymentView p tenant) = false /\
     MemStorage.isOverdue now (mkPaymentView p tenant) = false) /\
  (forall d,
     MemStorage.getDashboardData Num zero add Number monthLong now today
       landlordId s = Some d ->
     exists payments upcoming overdue,
       MemStorage.getPaymentsByLandlord landlordId s = Some payments /\
       upcoming = filter (MemStorage.isUpcoming now) payments /\
       overdue = filter (MemStorage.isOverdue now) payments /\
       MemStorage.upcomingPaymentsTotal d
       = MemStorage.total Num zero add Number upcoming /\
       MemStorage.overduePaymentsTotal d
       = MemStorage.total Num zero add Number overdue /\
       forall pv, In pv upcoming \/ In pv overdue -> pv_payment pv <> p) /\
  (consistent s = true ->
   exists d d',
     MemStorage.getDashboardData Num zero add Number monthLong now today
       landlordId s = Some d /\
     MemStorage.getDashboardData Num zero add Number monthLong now today
       landlordId (snd (MemStorage.deletePayment id s)) = Some d' /\
     MemStorage.upcomingPaymentsTotal d = MemStorage.upcomingPaymentsTotal d' /\
     MemStorage.overduePaymentsTotal d = MemStorage.overduePaymentsTotal d').
Proof.
  intros Hp Hst Hdue.
  assert (Hnot : forall tenant,
    MemStorage.isUpcoming now (mkPaymentView p tenant) = false /\
    MemStorage.isOverdue now (mkPaymentView p tenant) = false).
  { intros tenant. unfold MemStorage.isUpcoming, MemStorage.isOverdue.
    simpl. rewrite Hst, Hdue, Z.ltb_irrefl. split; reflexivity. }
  split; [exact Hnot|]. split.
  - intros d. unfold MemStorage.getDashboardData.
    destruct (MemStorage.getTenantsByLandlord landlordId s) as [tenants|];
      [|discriminate].
    destruct (MemStorage.getPaymentsByLandlord landlordId s) as [payments|];
      [|discriminate].
    intros [= <-]. exists payments. do 2 eexists.
    split; [reflexivity|]. split; [reflexivity|]. split; [reflexivity|].
    split; [reflexivity|]. split; [reflexivity|].
    intros [pay tenant] Hin Heq. simpl in Heq. subst pay.
    destruct (Hnot tenant) as [Hu Ho].
    destruct Hin as [Hin|Hin]; apply filter_In in Hin as [_ Hin]; congruence.
  - intros H.
    destruct (getTenantsByLandlord_total landlordId s H) as (views & Hv & _).
    pose proof (getPaymentsByLandlord_deletePayment landlordId id s H) as Hdel.
    unfold MemStorage.getDashboardData.
    change (MemStorage.getTenantsByLandlord landlordId
              (snd (MemStorage.deletePayment id s)))
      with (MemStorage.getTenantsByLandlord landlordId s).
    rewrite Hdel. unfold MemStorage.getPaymentsByLandlord. rewrite Hv. simpl.
    do 2 eexists. split; [reflexivity|]. split; [reflexivity|]. simpl.
    assert (Hrej : forall pv,
      In pv (MemStorage.paymentViews views s) ->
      (Payment.id (pv_payment pv) =? id) = true ->
      MemStorage.isUpcoming now pv = false /\
      MemStorage.isOverdue now pv = false).
    { intros pv Hin E. apply Z.eqb_eq in E.
      apply (paymentViews_in _ _ _ H) in Hin. rewrite E, Hp in Hin.
      injection Hin as Hin. destruct pv as [pay tenant]. simpl in Hin.
      subst pay. apply Hnot. }
    split; f_equal; symmetry;
      apply (filter_drop_rejected _
               (fun pv => Payment.id (pv_payment pv) =? id));
      intros pv Hin E; now apply Hrej.
Qed.

Lemma pending_due_now_in_neither_total_witness :
  option_map (fun p => (Payment.status p, Payment.amount p, Payment.dueDate p))
    (MemStorage.getPayment 3 Demo.ledger)
  = Some ("pending"%string, "1200"%string, Demo.date 2025 2 1) /\
  option_map
    (fun d => (MemStorage.upcomingPaymentsTotal d,
               MemStorage.overduePaymentsTotal d))
    (MemStorage.getDashboardData Z 0 Z.add Demo.NumberZ Demo.monthLongEn
       (Demo.date 2025 2 1) (Demo.date 2025 2 1) 1 Demo.ledger)
  = Some (1300, 900) /\
  (forall tenant,
     MemStorage.isUpcoming (Demo.date 2025 2 1)
       (mkPaymentView Demo.rentOfMarch tenant) = false /\
     MemStorage.isOverdue (Demo.date 2025 2 1)
       (mkPaymentView Demo.rentOfMarch tenant) = false) /\
  exists d d',
    MemStorage.getDashboardData Z 0 Z.add Demo.NumberZ Demo.monthLongEn
      (Demo.date 2025 2 1) (Demo.date 2025 2 1) 1 Demo.ledger = Some d /\
    MemStorage.getDashboardData Z 0 Z.add Demo.NumberZ Demo.monthLongEn
      (Demo.date 2025 2 1) (Demo.date 2025 2 1) 1
      (snd (MemStorage.deletePayment 3 Demo.ledger)) = Some d' /\
    MemStorage.upcomingPaymentsTotal d = MemStorage.upcomingPaymentsTotal d' /\
    MemStorage.overduePaymentsTotal d = MemStorage.overduePaymentsTotal d'.
Proof.
  split; [reflexivity|]. split; [reflexivity|].
  destruct (pending_due_now_in_neither_total Z 0 Z.add Demo.NumberZ
              Demo.monthLongEn Demo.ledger 1 (Demo.date 2025 2 1)
              (Demo.date 2025 2 1) 3 Demo.rentOfMarch)
    as (Hfilters & _ & Htotals);
    [vm_compute; reflexivity ..|].
  split; [exact Hfilters|]. apply Htotals. vm_compute. reflexivity.
Defined.

(** ** Monthly income *)

Lemma insert_by_perm {A : Type} (compare : A -> A -> Z) (x : A) (l : list A) :
  Permutation (insert_by compare x l) (x :: l).
Proof.
  induction l as [|y l IH]; simpl; [reflexivity|].
  destruct (compare x y <=? 0); [reflexivity|].
  rewrite IH. apply perm_swap.
Qed.

Lemma sort_by_perm {A : Type} (compare : A -> A -> Z) (l : list A) :
  Permutation (sort_by compare l) l.
Proof.
  unfold sort_by. induction l as [|x l IH]; simpl; [reflexivity|].
  rewrite insert_by_perm. now constructor.
Qed.

Lemma filter_perm {A : Type} (f : A -> bool) (l l' : list A) :
  Permutation l l' -> Permutation (filter f l) (filter f l').
Proof.
  induction 1 as [|x l l' _ IH|x y l|l l' l'' _ IH1 _ IH2]; simpl.
  - constructor.
  - destruct (f x); [now constructor|exact IH].
  - destruct (f x), (f y); try reflexivity. apply perm_swap.
  - now transitivity (filter f l').
Qed.

(** The running total of the code is the sum of the amounts in the order
    of the list. *)
Lemma total_sum (Num : Type) (zero : Num) (add : Num -> Num -> Num)
  (Number : string -> Num) (l : list PaymentView) :
  MemStorage.total Num zero add Number l
  = Spec.sum Num zero add
      (map (fun p => Number (Payment.amount (pv_payment p))) l).
Proof.
  unfold MemStorage.total, Spec.sum. generalize zero.
  induction l as [|x l IH]; intros a; simpl; [reflexivity|apply IH].
Qed.

Section Sums.

Variable Num : Type.
Variable zero : Num.
Variable add : Num -> Num -> Num.
Hypothesis add_comm : forall a b, add a b = add b a.
Hypothesis add_assoc : forall a b c, add a (add b c) = add (add a b) c.

(** With a commutative and associative addition the sum does not depend on
    the order of the list. *)
Lemma sum_perm (l l' : list Num) :
  Permutation l l' -> Spec.sum Num zero add l = Spec.sum Num zero add l'.
Proof.
  intros H. unfold Spec.sum. generalize zero.
  induction H as [|x l l' _ IH|x y l|l l' l'' _ IH1 _ IH2]; intros a; simpl.
  - reflexivity.
  - apply IH.
  - f_equal. rewrite <- !add_assoc. f_equal. apply add_comm.
  - now rewrite IH1.
Qed.

Lemma incomeOf_perm (Number : string -> Num) (m : Z * Z)
  (l l' : list PaymentView) :
  Permutation l l' ->
  Spec.incomeOf Num zero add Number m l
  = Spec.incomeOf Num zero add Number m l'.
Proof.
  intros H. unfold Spec.incomeOf.
  apply sum_perm, Permutation_map. now apply filter_perm.
Qed.

Lemma monthlyIncome_perm (Number : string -> Num) (monthLong : Z -> string)
  (today : Date) (l l' : list PaymentView) :
  Permutation l l' ->
  Spec.monthlyIncome Num zero add Number monthLong today l
  = Spec.monthlyIncome Num zero add Number monthLong today l'.
Proof.
  intros H. unfold Spec.monthlyIncome. apply map_ext. intros k.
  cbv zeta. f_equal. now apply incomeOf_perm.
Qed.

End Sums.

Lemma inMonth_paidIn (m : Z * Z) (p : PaymentView) :
  MemStorage.inMonth m p = Spec.paidIn m p.
Proof.
  unfold MemStorage.inMonth, Spec.paidIn.
  destruct (Payment.paymentDate (pv_payment p)) as [d|].
  - rewrite (andb_comm (getMonth d =? snd m)). apply andb_comm.
  - now rewrite andb_false_r.
Qed.

(** For a year outside 0..99, [new Date(year, month - i, 1)] is the first
    day of the calendar month [i] months before month [month] of [year]. *)
Lemma firstOfMonth_calendarMonth (year month i : Z) :
  ~ (0 <= year <= 99) ->
  firstOfMonth year (month - i)
  = Spec.calendarMonth (12 * year + month - i).
Proof.
  intros Hy. unfold firstOfMonth, Spec.calendarMonth.
  assert (E : (0 <=? year) && (year <=? 99) = false).
  { apply andb_false_iff. rewrite Z.leb_gt, Z.leb_gt. lia. }
  rewrite E.
  replace (12 * year + month - i) with (year * 12 + (month - i)) by lia.
  rewrite Z.div_add_l by lia.
  rewrite (Z.add_comm (year * 12)), Z.mod_add by lia.
  reflexivity.
Qed.

(** For a year of four digits, [year.toString().slice(2)] is its last two
    digits (checked on each of the 9000 years). *)
Lemma yearShort_twoDigitYear (y : Z) :
  1000 <= y <= 9999 -> slice 2 (toString y) = Spec.twoDigitYear y.
Proof.
  intros Hy.
  assert (Hall : forallb
            (fun n => String.eqb (slice 2 (toString (1000 + Z.of_nat n)))
                                 (Spec.twoDigitYear (1000 + Z.of_nat n)))
            (seq 0 (Z.to_nat 9000)) = true) by (vm_compute; reflexivity).
  rewrite forallb_forall in Hall.
  specialize (Hall (Z.to_nat (y - 1000))).
  replace (1000 + Z.of_nat (Z.to_nat (y - 1000))) with y in Hall by lia.
  apply String.eqb_eq, Hall, in_seq. lia.
Qed.

Lemma calendarMonth_year (year month k : Z) :
  0 <= month <= 11 -> 0 <= k <= 5 ->
  year - 1 <= fst (Spec.calendarMonth (12 * year + month - 5 + k)) <= year.
Proof.
  intros Hm Hk. unfold Spec.calendarMonth. cbn [fst].
  replace (12 * year + month - 5 + k) with (year * 12 + (month - 5 + k))
    by lia.
  rewrite Z.div_add_l by lia.
  assert (-1 <= (month - 5 + k) / 12 <= 0); [|lia].
  split.
  - apply Z.div_le_lower_bound; lia.
  - assert ((month - 5 + k) / 12 < 1); [|lia].
    apply Z.div_lt_upper_bound; lia.
Qed.

Lemma calendarMonth_from_1000 (n : Z) :
  12000 <= n -> 1000 <= fst (Spec.calendarMonth n).
Proof.
  intros Hn. unfold Spec.calendarMonth. cbn [fst].
  apply Z.div_le_lower_bound; lia.
Qed.

(** The turn of the loop with the counter at [i] pushes the entry of the
    specification for the month [5 - i] places after the oldest one, when
    the oldest month is January 1000 or later and the current year is 9999
    at most. *)
Lemma monthEntry_spec (Num : Type) (zero : Num) (add : Num -> Num -> Num)
  (Number : string -> Num) (monthLong : Z -> string)
  (today : Date) (payments : list PaymentView) (i : Z) :
  0 <= getMonth today <= 11 ->
  12005 <= Spec.monthNumber today ->
  getFullYear today <= 9999 ->
  0 <= i <= 5 ->
  MemStorage.monthEntry Num zero add Number monthLong today payments i
  = (let m := Spec.calendarMonth (Spec.monthNumber today - 5 + (5 - i)) in
     MemStorage.mkMonthIncome (Spec.label monthLong m)
       (Spec.incomeOf Num zero add Number m payments)).
Proof.
  intros Hm Hlo Hy Hi. unfold MemStorage.monthEntry, Spec.monthNumber in *.
  rewrite firstOfMonth_calendarMonth by lia.
  replace (12 * getFullYear today + getMonth today - i)
    with (12 * getFullYear today + getMonth today - 5 + (5 - i)) by lia.
  cbv zeta.
  assert (Hk : 0 <= 5 - i <= 5) by lia.
  pose proof (calendarMonth_year (getFullYear today) (getMonth today) (5 - i)
                Hm Hk) as Hyear.
  pose proof (calendarMonth_from_1000
                (12 * getFullYear today + getMonth today - 5 + (5 - i)))
    as Hfrom.
  assert (12000 <= 12 * getFullYear today + getMonth today - 5 + (5 - i))
    as Hfrom' by lia.
  specialize (Hfrom Hfrom'). clear Hfrom'.
  set (m := Spec.calendarMonth _) in *.
  unfold Spec.label, Spec.incomeOf.
  rewrite yearShort_twoDigitYear by lia.
  f_equal. rewrite total_sum.
  do 2 f_equal. apply filter_ext. intros p. apply inMonth_paidIn.
Qed.

(** C5, as the code has it. On a consistent store, and with a clock for
    which the six months lie in years of four digits (the current month is
    June 1000 at the earliest and December 9999 at the latest),
    [monthlyIncome] of the dashboard has exactly six entries, oldest first:
    one for each calendar month from five months before the current one to
    the current one, labelled ["<MonthName> '<2-digit year>"] and carrying
    the sum of the amounts of the landlord's payments with status [paid]
    whose [paymentDate] lies in that calendar month and year. The code adds
    the amounts up in the order its in-place sort left the payments in
    (newest first); when addition is commutative and associative that is
    the sum over the landlord's payments in any order. A month without such
    a payment has its entry, with amount 0. *)
Theorem monthlyIncome_six_months (Num : Type) (zero : Num)
  (add : Num -> Num -> Num) (Number : string -> Num) (monthLong : Z -> string)
  (s : MemStorage.t) (landlordId : Z) (now today : Date) :
  consistent s = true ->
  0 <= getMonth today <= 11 ->
  12005 <= Spec.monthNumber today ->
  getFullYear today <= 9999 ->
  exists payments d,
    MemStorage.getPaymentsByLandlord landlordId s = Some payments /\
    MemStorage.getDashboardData Num zero add Number monthLong now today
      landlordId s = Some d /\
    List.length (MemStorage.monthlyIncome d) = 6%nat /\
    MemStorage.monthlyIncome d
    = Spec.monthlyIncome Num zero add Number monthLong today
        (sort_by MemStorage.newestFirst payments) /\
    Permutation (sort_by MemStorage.newestFirst payments) payments /\
    ((forall a b, add a b = add b a) ->
     (forall a b c, add a (add b c) = add (add a b) c) ->
     MemStorage.monthlyIncome d
     = Spec.monthlyIncome Num zero add Number monthLong today payments) /\
    (forall k,
       (k < 6)%nat ->
       filter (Spec.paidIn
                 (Spec.calendarMonth
                    (Spec.monthNumber today - 5 + Z.of_nat k)))
              payments = [] ->
       option_map MemStorage.amount (nth_error (MemStorage.monthlyIncome d) k)
       = Some zero).
Proof.
  intros H Hm Hlo Hy.
  destruct (getTenantsByLandlord_total landlordId s H) as (views & Hv & _).
  unfold MemStorage.getDashboardData, MemStorage.getPaymentsByLandlord.
  rewrite Hv. simpl.
  set (payments := MemStorage.paymentViews views s).
  set (sorted := sort_by _ payments).
  assert (Hperm : Permutation sorted payments) by apply sort_by_perm.
  do 2 eexists. split; [reflexivity|]. split; [reflexivity|]. simpl.
  assert (Hspec :
    [ MemStorage.monthEntry Num zero add Number monthLong today sorted 5;
      MemStorage.monthEntry Num zero add Number monthLong today sorted 4;
      MemStorage.monthEntry Num zero add Number monthLong today sorted 3;
      MemStorage.monthEntry Num zero add Number monthLong today sorted 2;
      MemStorage.monthEntry Num zero add Number monthLong today sorted 1;
      MemStorage.monthEntry Num zero add Number monthLong today sorted 0 ]
    = Spec.monthlyIncome Num zero add Number monthLong today sorted).
  { rewrite !(monthEntry_spec Num zero add Number monthLong today sorted)
      by (assumption || lia).
    reflexivity. }
  rewrite Hspec. split; [reflexivity|]. split; [reflexivity|].
  split; [exact Hperm|]. split.
  - intros add_comm add_assoc.
    now apply monthlyIncome_perm.
  - intros k Hk Hnone.
    assert (Hnone' : filter (Spec.paidIn
                       (Spec.calendarMonth
                          (Spec.monthNumber today - 5 + Z.of_nat k)))
                       sorted = []).
    { apply Permutation_nil. rewrite <- Hnone. symmetry.
      now apply filter_perm. }
    clear Hnone. unfold Spec.monthlyIncome.
    do 6 (destruct k as [|k];
          [simpl in *; unfold Spec.incomeOf; now rewrite Hnone'|]).
    lia.
Qed.

Lemma monthlyIncome_six_months_witness :
  option_map
    (fun d => map (fun e => (MemStorage.month e, MemStorage.amount e))
                  (MemStorage.monthlyIncome d))
    (MemStorage.getDashboardData Z 0 Z.add Demo.NumberZ Demo.monthLongEn
       (Demo.date 2025 2 20) (Demo.date 2025 2 20) 1 Demo.store)
  = Some [ ("October '24", 0); ("November '24", 0); ("December '24", 0);
           ("January '25", 1200); ("February '25", 1200);
           ("March '25", 0) ]%string /\
  exists payments d,
    MemStorage.getPaymentsByLandlord 1 Demo.store = Some payments /\
    MemStorage.getDashboardData Z 0 Z.add Demo.NumberZ Demo.monthLongEn
      (Demo.date 2025 2 20) (Demo.date 2025 2 20) 1 Demo.store = Some d /\
    List.length (MemStorage.monthlyIncome d) = 6%nat /\
    MemStorage.monthlyIncome d
    = Spec.monthlyIncome Z 0 Z.add Demo.NumberZ Demo.monthLongEn
        (Demo.date 2025 2 20) payments.
Proof.
  split; [vm_compute; reflexivity|].
  destruct (monthlyIncome_six_months Z 0 Z.add Demo.NumberZ Demo.monthLongEn
              Demo.store 1 (Demo.date 2025 2 20) (Demo.date 2025 2 20))
    as (payments & d & Hp & Hd & Hlen & _ & _ & Hsum & _).
  - reflexivity.
  - cbn. lia.
  - vm_compute. discriminate.
  - vm_compute. discriminate.
  - exists payments, d. split; [exact Hp|]. split; [exact Hd|].
    split; [exact Hlen|]. apply Hsum; [apply Z.add_comm|apply Z.add_assoc].
Defined.

(** C5 as written, for every store state and clock, fails. Where a tenant
    references the id a unit row says and no unit is stored under that id,
    the dashboard throws: there is no [monthlyIncome]. On the seeded store,
    with the clock in May 1000 the oldest of the six months is December
    999 and its label carries one digit for the year; with the clock in
    January 10000 the label of the current month carries three. *)
Lemma monthlyIncome_not_on_every_store_and_clock :
  Demo.dangling
  = snd (run (Demo.seed ++ [ UpdateUnit 1 (Demo.renumber 9);
                             CreateTenant Demo.boot (Demo.lease 2 9 true) ])
             MemStorage.new) /\
  consistent Demo.dangling = false /\
  MemStorage.getDashboardData Z 0 Z.add Demo.NumberZ Demo.monthLongEn
    (Demo.date 2025 2 20) (Demo.date 2025 2 20) 1 Demo.dangling = None /\
  option_map (fun d => map MemStorage.month (MemStorage.monthlyIncome d))
    (MemStorage.getDashboardData Z 0 Z.add Demo.NumberZ Demo.monthLongEn
       (Demo.date 1000 4 20) (Demo.date 1000 4 20) 1 Demo.store)
  = Some [ "December '9"; "January '00"; "February '00"; "March '00";
           "April '00"; "May '00" ]%string /\
  option_map (fun d => map MemStorage.month (MemStorage.monthlyIncome d))
    (MemStorage.getDashboardData Z 0 Z.add Demo.NumberZ Demo.monthLongEn
       (Demo.date 10000 0 20) (Demo.date 10000 0 20) 1 Demo.store)
  = Some [ "August '99"; "September '99"; "October '99"; "November '99";
           "December '99"; "January '000" ]%string.
Proof. vm_compute. repeat split. Qed.

(** * Further properties of the storage layer *)

(** ** Rows and lookups *)

Lemma set_same {V : Type} (k : Z) (v : V) (m : JsMap.t V) :
  JsMap.get k m = Some v -> JsMap.set k v m = m.
Proof.
  induction m as [|[k0 v0] m IH]; simpl; [discriminate|].
  destruct (k0 =? k) eqn:E.
  - apply Z.eqb_eq in E. now intros [= ->]; subst.
  - intros H. now rewrite IH.
Qed.

Lemma values_set_fresh {V : Type} (k : Z) (v : V) (m : JsMap.t V) :
  JsMap.get k m = None ->
  JsMap.values (JsMap.set k v m) = JsMap.values m ++ [v].
Proof.
  unfold JsMap.values.
  induction m as [|[k0 v0] m IH]; simpl; [reflexivity|].
  destruct (k0 =? k); [discriminate|].
  intros H. simpl. now rewrite IH.
Qed.

(** X1. On a consistent store every create method stores the row it
    returns under an id no row had before: the row is what a lookup by its
    id gives afterwards, no lookup by that id succeeded before, and every
    other lookup in that map gives what it gave. *)
Theorem create_then_get (s : MemStorage.t) (now : Date) :
  consistent s = true ->
  (forall d,
     let r := fst (MemStorage.createUser now d s) in
     let s' := snd (MemStorage.createUser now d s) in
     MemStorage.getUser (User.id r) s' = Some r /\
     MemStorage.getUser (User.id r) s = None /\
     forall k, k <> User.id r ->
               MemStorage.getUser k s' = MemStorage.getUser k s) /\
  (forall d,
     let r := fst (MemStorage.createProperty now d s) in
     let s' := snd (MemStorage.createProperty now d s) in
     MemStorage.getProperty (Property.id r) s' = Some r /\
     MemStorage.getProperty (Property.id r) s = None /\
     forall k, k <> Property.id r ->
               MemStorage.getProperty k s' = MemStorage.getProperty k s) /\
  (forall d,
     let r := fst (MemStorage.createUnit now d s) in
     let s' := snd (MemStorage.createUnit now d s) in
     MemStorage.getUnit (Unit.id r) s' = Some r /\
     MemStorage.getUnit (Unit.id r) s = None /\
     forall k, k <> Unit.id r ->
               MemStorage.getUnit k s' = MemStorage.getUnit k s) /\
  (forall d,
     let r := fst (MemStorage.createTenant now d s) in
     let s' := snd (MemStorage.createTenant now d s) in
     MemStorage.getTenant (Tenant.id r) s' = Some r /\
     MemStorage.getTenant (Tenant.id r) s = None /\
     forall k, k <> Tenant.id r ->
               MemStorage.getTenant k s' = MemStorage.getTenant k s) /\
  (forall d,
     let r := fst (MemStorage.createPayment now d s) in
     let s' := snd (MemStorage.createPayment now d s) in
     MemStorage.getPayment (Payment.id r) s' = Some r /\
     MemStorage.getPayment (Payment.id r) s = None /\
     forall k, k <> Payment.id r ->
               MemStorage.getPayment k s' = MemStorage.getPayment k s) /\
  (forall d,
     let r := fst (MemStorage.createNotification now d s) in
     let s' := snd (MemStorage.createNotification now d s) in
     MemStorage.getNotification (Notification.id r) s' = Some r /\
     MemStorage.getNotification (Notification.id r) s = None /\
     forall k, k <> Notification.id r ->
               MemStorage.getNotification k s' = MemStorage.getNotification k s).
Proof.
  intros H. pose proof H as H'. consistent_split H'.
  repeat apply conj; intros d;
    try (cbv zeta; unfold MemStorage.getUser, MemStorage.getProperty,
           MemStorage.getUnit, MemStorage.getPayment,
           MemStorage.getNotification; simpl;
         split; [apply get_set_same|];
         split; [eapply table_ok_fresh; eassumption|];
         intros k Hk; apply get_set_other; congruence).
  cbv zeta. unfold MemStorage.getTenant.
  destruct (createTenant_maps now d s H) as [Hm _]. cbv zeta in Hm.
  destruct (createTenant_issues now d s) as [Hid _].
  rewrite Hm, Hid.
  assert (Hr : fst (MemStorage.createTenant now d s)
               = Tenant.create d (CurrentId.tenant (MemStorage.currentId s))
                   now).
  { unfold MemStorage.createTenant. simpl.
    now destruct (MemStorage.getUnit _ _). }
  rewrite Hr.
  split; [apply get_set_same|].
  split; [eapply table_ok_fresh; eassumption|].
  intros k Hk. apply get_set_other. congruence.
Qed.

Lemma create_then_get_witness :
  MemStorage.getPayment 4
    (snd (MemStorage.createPayment Demo.boot
            (Demo.rent 1 "900" (Demo.date 2025 1 20) None "pending")
            Demo.store))
  = Some (Payment.create
            (Demo.rent 1 "900" (Demo.date 2025 1 20) None "pending") 4
            Demo.boot) /\
  MemStorage.getPayment 4 Demo.store = None /\
  MemStorage.getPayment 3
    (snd (MemStorage.createPayment Demo.boot
            (Demo.rent 1 "900" (Demo.date 2025 1 20) None "pending")
            Demo.store))
  = MemStorage.getPayment 3 Demo.store.
Proof.
  destruct (create_then_get Demo.store Demo.boot eq_refl)
    as (_ & _ & _ & _ & Hp & _).
  destruct (Hp (Demo.rent 1 "900" (Demo.date 2025 1 20) None "pending"))
    as (H1 & H2 & H3).
  split; [exact H1|]. split; [exact H2|]. apply H3. discriminate.
Defined.

Lemma has_remove {V : Type} (k : Z) (m : JsMap.t V) :
  JsMap.has k (JsMap.remove k m) = false.
Proof. unfold JsMap.has. now rewrite get_remove_same. Qed.

Lemma deleteTenant_tenantMap id s :
  MemStorage.tenantMap (snd (MemStorage.deleteTenant id s))
  = JsMap.remove id (MemStorage.tenantMap s) /\
  fst (MemStorage.deleteTenant id s) = JsMap.has id (MemStorage.tenantMap s).
Proof.
  unfold MemStorage.deleteTenant. simpl.
  destruct (JsMap.get id (MemStorage.tenantMap s)) as [T|]; [|now split].
  destruct (MemStorage.getUnit (Tenant.unitId T) s) as [U|]; [|now split].
  now rewrite (proj1 (proj2 (proj2 (vacateIfAlone_frame id U s)))).
Qed.

(** X2. A delete method answers [true] exactly when a row was stored under
    the id; afterwards no row is under the id, every other row of that map
    is where it was, and deleting the same id again answers [false]. This
    holds for properties, units, payments, notifications and tenants on any
    store. *)
Theorem delete_then_get (s : MemStorage.t) (id : Z) :
  (let s' := snd (MemStorage.deleteProperty id s) in
   (fst (MemStorage.deleteProperty id s) = true <->
    MemStorage.getProperty id s <> None) /\
   MemStorage.getProperty id s' = None /\
   (forall k, k <> id ->
              MemStorage.getProperty k s' = MemStorage.getProperty k s) /\
   fst (MemStorage.deleteProperty id s') = false) /\
  (let s' := snd (MemStorage.deleteUnit id s) in
   (fst (MemStorage.deleteUnit id s) = true <->
    MemStorage.getUnit id s <> None) /\
   MemStorage.getUnit id s' = None /\
   (forall k, k <> id -> MemStorage.getUnit k s' = MemStorage.getUnit k s) /\
   fst (MemStorage.deleteUnit id s') = false) /\
  (let s' := snd (MemStorage.deleteTenant id s) in
   (fst (MemStorage.deleteTenant id s) = true <->
    MemStorage.getTenant id s <> None) /\
   MemStorage.getTenant id s' = None /\
   (forall k, k <> id ->
              MemStorage.getTenant k s' = MemStorage.getTenant k s) /\
   fst (MemStorage.deleteTenant id s') = false) /\
  (let s' := snd (MemStorage.deletePayment id s) in
   (fst (MemStorage.deletePayment id s) = true <->
    MemStorage.getPayment id s <> None) /\
   MemStorage.getPayment id s' = None /\
   (forall k, k <> id ->
              MemStorage.getPayment k s' = MemStorage.getPayment k s) /\
   fst (MemStorage.deletePayment id s') = false) /\
  (let s' := snd (MemStorage.deleteNotification id s) in
   (fst (MemStorage.deleteNotification id s) = true <->
    MemStorage.getNotification id s <> None) /\
   MemStorage.getNotification id s' = None /\
   (forall k, k <> id ->
              MemStorage.getNotification k s' = MemStorage.getNotification k s)
   /\
   fst (MemStorage.deleteNotification id s') = false).
Proof.
  assert (Hhas : forall (V : Type) (m : JsMap.t V),
            JsMap.has id m = true <-> JsMap.get id m <> None).
  { intros V m. unfold JsMap.has.
    destruct (JsMap.get id m); split; congruence. }
  repeat apply conj; cbv zeta;
    unfold MemStorage.getProperty, MemStorage.getUnit, MemStorage.getTenant,
      MemStorage.getPayment, MemStorage.getNotification;
    rewrite ?(proj2 (deleteTenant_tenantMap _ _)),
      ?(proj1 (deleteTenant_tenantMap _ _));
    simpl;
    first
      [ apply Hhas
      | apply get_remove_same
      | apply has_remove
      | intros k Hk; apply get_remove_other; congruence ].
Qed.

(** X3. An update of a row that exists returns the shallow merge of the row
    and the partial, which is also what a lookup by the id gives
    afterwards; the other rows of the map are as before, and the keys of
    the map keep their order, so the row keeps its place in every scan. For
    tenants this holds whatever the update does to the occupancy flags. *)
Theorem update_then_get (s : MemStorage.t) (id : Z) :
  (forall r d,
     MemStorage.getProperty id s = Some r ->
     let s' := snd (MemStorage.updateProperty id d s) in
     fst (MemStorage.updateProperty id d s) = Some (Property.merge r d) /\
     MemStorage.getProperty id s' = Some (Property.merge r d) /\
     (forall k, k <> id ->
                MemStorage.getProperty k s' = MemStorage.getProperty k s) /\
     JsMap.keys (MemStorage.propertyMap s')
     = JsMap.keys (MemStorage.propertyMap s)) /\
  (forall r d,
     MemStorage.getUnit id s = Some r ->
     let s' := snd (MemStorage.updateUnit id d s) in
     fst (MemStorage.updateUnit id d s) = Some (Unit.merge r d) /\
     MemStorage.getUnit id s' = Some (Unit.merge r d) /\
     (forall k, k <> id -> MemStorage.getUnit k s' = MemStorage.getUnit k s) /\
     JsMap.keys (MemStorage.unitMap s') = JsMap.keys (MemStorage.unitMap s)) /\
  (forall r d,
     MemStorage.getTenant id s = Some r ->
     let s' := snd (MemStorage.updateTenant id d s) in
     fst (MemStorage.updateTenant id d s) = Some (Tenant.merge r d) /\
     MemStorage.getTenant id s' = Some (Tenant.merge r d) /\
     (forall k, k <> id ->
                MemStorage.getTenant k s' = MemStorage.getTenant k s) /\
     JsMap.keys (MemStorage.tenantMap s')
     = JsMap.keys (MemStorage.tenantMap s)) /\
  (forall r d,
     MemStorage.getPayment id s = Some r ->
     let s' := snd (MemStorage.updatePayment id d s) in
     fst (MemStorage.updatePayment id d s) = Some (Payment.merge r d) /\
     MemStorage.getPayment id s' = Some (Payment.merge r d) /\
     (forall k, k <> id ->
                MemStorage.getPayment k s' = MemStorage.getPayment k s) /\
     JsMap.keys (MemStorage.paymentMap s')
     = JsMap.keys (MemStorage.paymentMap s)) /\
  (forall r d,
     MemStorage.getNotification id s = Some r ->
     let s' := snd (MemStorage.updateNotification id d s) in
     fst (MemStorage.updateNotification id d s)
     = Some (Notification.merge r d) /\
     MemStorage.getNotification id s' = Some (Notification.merge r d) /\
     (forall k, k <> id ->
                MemStorage.getNotification k s' = MemStorage.getNotification k s)
     /\
     JsMap.keys (MemStorage.notificationMap s')
     = JsMap.keys (MemStorage.notificationMap s)).
Proof.
  repeat apply conj; intros r d Hr; cbv zeta;
    unfold MemStorage.getProperty, MemStorage.getUnit, MemStorage.getTenant,
      MemStorage.getPayment, MemStorage.getNotification in *;
    try (unfold MemStorage.updateProperty, MemStorage.updateUnit,
           MemStorage.updatePayment, MemStorage.updateNotification;
         rewrite Hr; simpl;
         split; [reflexivity|];
         split; [apply get_set_same|];
         split; [intros k Hk; apply get_set_other; congruence|];
         eapply keys_set_present; eassumption).
  destruct (updateTenant_maps id d s r Hr) as [Hm _]. cbv zeta in Hm.
  rewrite Hm.
  split; [unfold MemStorage.updateTenant; now rewrite Hr|].
  split; [apply get_set_same|].
  split; [intros k Hk; apply get_set_other; congruence|].
  eapply keys_set_present; eassumption.
Qed.

Lemma update_then_get_witness :
  fst (MemStorage.updateTenant 1 Demo.moveOut Demo.store)
  = Some (Tenant.merge (Tenant.create (Demo.lease 2 1 true) 1 Demo.boot)
                       Demo.moveOut) /\
  MemStorage.getTenant 1
    (snd (MemStorage.updateTenant 1 Demo.moveOut Demo.store))
  = Some (Tenant.merge (Tenant.create (Demo.lease 2 1 true) 1 Demo.boot)
                       Demo.moveOut).
Proof.
  destruct (update_then_get Demo.store 1) as (_ & _ & Ht & _).
  destruct (Ht (Tenant.create (Demo.lease 2 1 true) 1 Demo.boot) Demo.moveOut
              eq_refl) as (H1 & H2 & _).
  split; [exact H1|exact H2].
Defined.

(** X4. An update with the empty object changes nothing: for every id,
    present or not, the store after it is the store before it and the
    answer is what a lookup by the id gives. *)
Theorem empty_update_changes_nothing (s : MemStorage.t) (id : Z) :
  MemStorage.updateProperty id Empty.propertyData s
  = (MemStorage.getProperty id s, s) /\
  MemStorage.updateUnit id Empty.unitData s = (MemStorage.getUnit id s, s) /\
  MemStorage.updateTenant id Empty.tenantData s
  = (MemStorage.getTenant id s, s) /\
  MemStorage.updatePayment id Empty.paymentData s
  = (MemStorage.getPayment id s, s) /\
  MemStorage.updateNotification id Empty.notificationData s
  = (MemStorage.getNotification id s, s).
Proof.
  unfold MemStorage.updateProperty, MemStorage.updateUnit,
    MemStorage.updateTenant, MemStorage.updatePayment,
    MemStorage.updateNotification, MemStorage.getProperty, MemStorage.getUnit,
    MemStorage.getTenant, MemStorage.getPayment, MemStorage.getNotification.
  repeat apply conj;
    match goal with
    | |- context [match JsMap.get id ?m with _ => _ end] =>
        destruct (JsMap.get id m) as [r|] eqn:E; [|reflexivity]
    end;
    destruct r;
    unfold Empty.propertyData, Empty.unitData, Empty.tenantData,
      Empty.paymentData, Empty.notificationData, MemStorage.unitChanges,
      Property.merge, Unit.merge, Tenant.merge, Payment.merge,
      Notification.merge;
    cbn; rewrite (set_same _ _ _ E); now destruct s.
Qed.

(** ** Sorting newest first *)

Section SortDescending.

Context {A : Type} (key : A -> Z).

Lemma insert_by_descending x l :
  StronglySorted (fun a b => key b <= key a) l ->
  StronglySorted (fun a b => key b <= key a)
    (insert_by (fun a b => key b - key a) x l).
Proof.
  induction 1 as [|y l Hs IH Hall]; simpl.
  - constructor; constructor.
  - destruct (key y - key x <=? 0) eqn:E.
    + apply Z.leb_le in E. constructor; [now constructor|].
      constructor; [lia|].
      rewrite Forall_forall in *. intros b Hb. apply Hall in Hb. lia.
    + apply Z.leb_gt in E. constructor; [exact IH|].
      rewrite Forall_forall in *. intros b Hb.
      apply (Permutation_in _ (insert_by_perm _ x l)) in Hb.
      destruct Hb as [<-|Hb]; [lia|now apply Hall].
Qed.

Lemma sort_by_descending l :
  StronglySorted (fun a b => key b <= key a)
    (sort_by (fun a b => key b - key a) l).
Proof.
  unfold sort_by. induction l as [|x l IH]; simpl; [constructor|].
  now apply insert_by_descending.
Qed.

(** A list that is newest first already is returned as it is: rows of equal
    age keep the order they had. *)
Lemma sort_by_descending_fixed l :
  StronglySorted (fun a b => key b <= key a) l ->
  sort_by (fun a b => key b - key a) l = l.
Proof.
  unfold sort_by. induction 1 as [|x l Hs IH Hall]; simpl; [reflexivity|].
  rewrite IH. destruct l as [|y l]; [reflexivity|]. simpl.
  apply Forall_inv in Hall.
  destruct (key y - key x <=? 0) eqn:E; [reflexivity|].
  apply Z.leb_gt in E. lia.
Qed.

End SortDescending.

Lemma StronglySorted_app_inv {A : Type} (R : A -> A -> Prop) (l1 l2 : list A) :
  StronglySorted R (l1 ++ l2) ->
  StronglySorted R l1 /\ StronglySorted R l2 /\
  forall x y, In x l1 -> In y l2 -> R x y.
Proof.
  induction l1 as [|a l1 IH]; simpl; intros H.
  - split; [constructor|]. split; [exact H|]. intros x y [].
  - apply StronglySorted_inv in H as [Hs Hall].
    destruct (IH Hs) as (H1 & H2 & H12).
    rewrite Forall_forall in Hall.
    split; [|split; [exact H2|]].
    + constructor; [exact H1|]. apply Forall_forall. intros b Hb.
      apply Hall, in_or_app. now left.
    + intros x y [<-|Hx] Hy; [|now apply H12].
      apply Hall, in_or_app. now right.
Qed.

(** X5. [getNotificationsByUser] returns the notifications of the user, all
    of them and no other, newest first. When the scan of the store yields
    them newest first already, the result is the scan itself; so
    notifications that all carry the same [createdAt] come back in their
    order of creation. *)
Theorem getNotificationsByUser_newest_first (s : MemStorage.t) (userId : Z) :
  let own :=
    filter (fun n => Notification.userId n =? userId)
           (JsMap.values (MemStorage.notificationMap s)) in
  let l := MemStorage.getNotificationsByUser userId s in
  StronglySorted
    (fun a b => getTime (Notification.createdAt b)
                <= getTime (Notification.createdAt a)) l /\
  Permutation l own /\
  (forall n, In n l -> Notification.userId n = userId) /\
  (StronglySorted
     (fun a b => getTime (Notification.createdAt b)
                 <= getTime (Notification.createdAt a)) own ->
   l = own).
Proof.
  intros own l. unfold l, MemStorage.getNotificationsByUser. fold own.
  split; [|split; [|split]].
  - apply (sort_by_descending (fun n => getTime (Notification.createdAt n))).
  - apply sort_by_perm.
  - intros n Hn. apply (Permutation_in _ (sort_by_perm _ own)) in Hn.
    apply filter_In in Hn as [_ Hn]. now apply Z.eqb_eq.
  - apply (sort_by_descending_fixed
             (fun n => getTime (Notification.createdAt n))).
Qed.

(** X6. On a consistent store [tenantActivity] of the dashboard holds the
    landlord's payments of any status, newest first by [createdAt], cut
    after ten: it has as many entries as the landlord has payments, ten at
    most, and each payment left out was created no later than each payment
    kept. *)
Theorem tenantActivity_ten_newest (Num : Type) (zero : Num)
  (add : Num -> Num -> Num) (Number : string -> Num) (monthLong : Z -> string)
  (s : MemStorage.t) (landlordId : Z) (now today : Date) :
  consistent s = true ->
  exists payments d rest,
    MemStorage.getPaymentsByLandlord landlordId s = Some payments /\
    MemStorage.getDashboardData Num zero add Number monthLong now today
      landlordId s = Some d /\
    List.length (MemStorage.tenantActivity d)
    = Nat.min 10 (List.length payments) /\
    StronglySorted
      (fun a b => getTime (Payment.createdAt (pv_payment b))
                  <= getTime (Payment.createdAt (pv_payment a)))
      (MemStorage.tenantActivity d) /\
    Permutation (MemStorage.tenantActivity d ++ rest) payments /\
    (forall x y,
       In x (MemStorage.tenantActivity d) -> In y rest ->
       getTime (Payment.createdAt (pv_payment y))
       <= getTime (Payment.createdAt (pv_payment x))).
Proof.
  intros H.
  destruct (getTenantsByLandlord_total landlordId s H) as (views & Hv & _).
  unfold MemStorage.getDashboardData, MemStorage.getPaymentsByLandlord.
  rewrite Hv. cbv beta match zeta.
  set (payments := MemStorage.paymentViews views s).
  set (sorted := sort_by MemStorage.newestFirst payments).
  assert (Hperm : Permutation sorted payments) by apply sort_by_perm.
  assert (Hs : StronglySorted
                 (fun a b => getTime (Payment.createdAt (pv_payment b))
                             <= getTime (Payment.createdAt (pv_payment a)))
                 sorted)
    by apply (sort_by_descending
                (fun p => getTime (Payment.createdAt (pv_payment p)))).
  exists payments. eexists. exists (skipn 10 sorted).
  split; [reflexivity|]. split; [reflexivity|].
  cbn [MemStorage.tenantActivity].
  rewrite <- (firstn_skipn 10 sorted) in Hs.
  apply StronglySorted_app_inv in Hs as (H1 & _ & H12).
  split; [|split; [exact H1|split]].
  - rewrite length_firstn. now rewrite (Permutation_length Hperm).
  - now rewrite (firstn_skipn 10 sorted).
  - exact H12.
Qed.

Lemma tenantActivity_ten_newest_witness :
  option_map
    (fun d => map (fun p => Payment.id (pv_payment p))
                  (MemStorage.tenantActivity d))
    (MemStorage.getDashboardData Z 0 Z.add Demo.NumberZ Demo.monthLongEn
       (Demo.date 2025 3 20) (Demo.date 2025 3 20) 1 Demo.busy)
  = Some [15; 14; 13; 12; 11; 10; 9; 8; 7; 6] /\
  exists payments d rest,
    MemStorage.getPaymentsByLandlord 1 Demo.busy = Some payments /\
    MemStorage.getDashboardData Z 0 Z.add Demo.NumberZ Demo.monthLongEn
      (Demo.date 2025 3 20) (Demo.date 2025 3 20) 1 Demo.busy = Some d /\
    List.length (MemStorage.tenantActivity d)
    = Nat.min 10 (List.length payments) /\
    StronglySorted
      (fun a b => getTime (Payment.createdAt (pv_payment b))
                  <= getTime (Payment.createdAt (pv_payment a)))
      (MemStorage.tenantActivity d) /\
    Permutation (MemStorage.tenantActivity d ++ rest) payments /\
    (forall x y,
       In x (MemStorage.tenantActivity d) -> In y rest ->
       getTime (Payment.createdAt (pv_payment y))
       <= getTime (Payment.createdAt (pv_payment x))).
Proof.
  split; [vm_compute; reflexivity|].
  apply (tenantActivity_ten_newest Z 0 Z.add Demo.NumberZ Demo.monthLongEn
           Demo.busy 1 (Demo.date 2025 3 20) (Demo.date 2025 3 20)).
  vm_compute. reflexivity.
Defined.

(** ** The joins, in full *)

(** X7. On a consistent store every row of [getTenantsByLandlord] is a
    tenant row of the store joined with what its foreign keys resolve to:
    [user] is the lookup of [userId] ([undefined] when no such user
    exists, without an error), [unit] is the unit under [unitId], and
    [property] is the property under the unit's [propertyId], which belongs
    to the landlord. The rows come in the order of the tenant map. *)
Theorem getTenantsByLandlord_join (s : MemStorage.t) (landlordId : Z) :
  consistent s = true ->
  exists views,
    MemStorage.getTenantsByLandlord landlordId s = Some views /\
    map tv_tenant views
    = filter (Spec.ownedBy landlordId s)
             (JsMap.values (MemStorage.tenantMap s)) /\
    forall v, In v views ->
      MemStorage.getTenant (Tenant.id (tv_tenant v)) s = Some (tv_tenant v) /\
      tv_user v = MemStorage.getUser (Tenant.userId (tv_tenant v)) s /\
      MemStorage.getUnit (Tenant.unitId (tv_tenant v)) s = Some (tv_unit v) /\
      exists p,
        tv_property v = Some p /\
        MemStorage.getProperty (Unit.propertyId (tv_unit v)) s = Some p /\
        Property.landlordId p = landlordId.
Proof.
  intros H.
  destruct (getTenantsByLandlord_total landlordId s H)
    as (views & Hv & Hm & Hjoin).
  exists views. split; [exact Hv|]. split; [exact Hm|].
  intros v Hin. pose proof (Hjoin v Hin) as Hview.
  assert (Ht : In (tv_tenant v) (map tv_tenant views)) by now apply in_map.
  rewrite Hm in Ht. apply filter_In in Ht as [Ht Ho].
  consistent_split H.
  apply (table_ok_values _ _ _ _ Htenant) in Ht.
  split; [exact Ht|].
  apply ownedBy_chain in Ho as (u & p & Hu & Hp & Hl).
  unfold MemStorage.tenantView in Hview.
  unfold MemStorage.getUnit in Hu. rewrite Hu in Hview.
  injection Hview as Hview. rewrite <- Hview. simpl.
  split; [reflexivity|]. split; [exact Hu|].
  exists p. unfold MemStorage.getProperty in *. now rewrite Hp.
Qed.

Lemma getTenantsByLandlord_join_witness :
  option_map (map (fun v => (Tenant.id (tv_tenant v), Unit.id (tv_unit v),
                             option_map Property.id (tv_property v),
                             option_map User.username (tv_user v))))
    (MemStorage.getTenantsByLandlord 3 Demo.town)
  = Some [(2, 3, Some 2, Some "tenant"%string)] /\
  exists views,
    MemStorage.getTenantsByLandlord 3 Demo.town = Some views /\
    map tv_tenant views
    = filter (Spec.ownedBy 3 Demo.town)
             (JsMap.values (MemStorage.tenantMap Demo.town)) /\
    forall v, In v views ->
      MemStorage.getTenant (Tenant.id (tv_tenant v)) Demo.town
      = Some (tv_tenant v) /\
      tv_user v = MemStorage.getUser (Tenant.userId (tv_tenant v)) Demo.town /\
      MemStorage.getUnit (Tenant.unitId (tv_tenant v)) Demo.town
      = Some (tv_unit v) /\
      exists p,
        tv_property v = Some p /\
        MemStorage.getProperty (Unit.propertyId (tv_unit v)) Demo.town
        = Some p /\
        Property.landlordId p = 3.
Proof.
  split; [vm_compute; reflexivity|].
  apply (getTenantsByLandlord_join Demo.town 3). vm_compute. reflexivity.
Defined.

Lemma find_Some_of_In {A : Type} (f : A -> bool) (l : list A) (x : A) :
  In x l -> f x = true -> exists y, find f l = Some y.
Proof.
  intros Hin Hf. destruct (find f l) as [y|] eqn:E; [now exists y|].
  rewrite (find_none f l E x Hin) in Hf. discriminate.
Qed.

(** X8. On a consistent store [getPaymentsByLandlord] returns, in the order
    of the payment map, exactly the payments whose [tenantId] resolves to a
    tenant owned by the landlord: none of them is left out. The [tenant]
    joined to each is never [undefined]: it is the joined row of the tenant
    the payment's [tenantId] resolves to. *)
Theorem getPaymentsByLandlord_complete (s : MemStorage.t) (landlordId : Z) :
  consistent s = true ->
  exists payments,
    MemStorage.getPaymentsByLandlord landlordId s = Some payments /\
    map pv_payment payments
    = filter (fun p =>
                match MemStorage.getTenant (Payment.tenantId p) s with
                | Some t => Spec.ownedBy landlordId s t
                | None => false
                end)
             (JsMap.values (MemStorage.paymentMap s)) /\
    forall pv, In pv payments ->
      exists v,
        pv_tenant pv = Some v /\
        MemStorage.getTenant (Payment.tenantId (pv_payment pv)) s
        = Some (tv_tenant v) /\
        MemStorage.tenantView s (tv_tenant v) = Some v.
Proof.
  intros H.
  destruct (getTenantsByLandlord_total landlordId s H)
    as (views & Hv & Hm & Hjoin).
  unfold MemStorage.getPaymentsByLandlord. rewrite Hv.
  eexists. split; [reflexivity|].
  pose proof H as H'. consistent_split H'.
  assert (Hids : forall v, In v views ->
            MemStorage.getTenant (Tenant.id (tv_tenant v)) s
            = Some (tv_tenant v) /\
            Spec.ownedBy landlordId s (tv_tenant v) = true).
  { intros v Hin.
    assert (Ht : In (tv_tenant v) (map tv_tenant views)) by now apply in_map.
    rewrite Hm in Ht. apply filter_In in Ht as [Ht Ho].
    apply (table_ok_values _ _ _ _ Htenant) in Ht. now split. }
  unfold MemStorage.paymentViews. split.
  - rewrite map_map. simpl. rewrite map_id. apply filter_ext. intros p.
    apply eq_true_iff_eq. rewrite includes_In, in_map_iff. split.
    + intros (v & Hid & Hin). destruct (Hids v Hin) as [Hg Ho].
      rewrite <- Hid. unfold MemStorage.getTenant in *. now rewrite Hg.
    + destruct (MemStorage.getTenant (Payment.tenantId p) s) as [t|] eqn:Et;
        [|discriminate].
      intros Ho. unfold MemStorage.getTenant in Et.
      pose proof (table_ok_get _ _ _ _ _ Htenant Et) as Hid.
      assert (Hin : In t (map tv_tenant views)).
      { rewrite Hm. apply filter_In. split; [|exact Ho].
        apply (table_ok_values _ _ _ _ Htenant). now rewrite Hid. }
      apply in_map_iff in Hin as (v & Hv' & Hin).
      exists v. split; [now rewrite Hv'|exact Hin].
  - intros pv Hpv. apply in_map_iff in Hpv as (p & <- & Hp). simpl.
    apply filter_In in Hp as [_ Hinc].
    apply includes_In, in_map_iff in Hinc as (v0 & Hid0 & Hin0).
    destruct (find_Some_of_In
                (fun t => Tenant.id (tv_tenant t) =? Payment.tenantId p)
                views v0 Hin0) as [v Hfind].
    { now apply Z.eqb_eq. }
    exists v. split; [exact Hfind|].
    apply find_some in Hfind as [Hin Hid]. apply Z.eqb_eq in Hid.
    destruct (Hids v Hin) as [Hg _]. rewrite <- Hid.
    split; [exact Hg|now apply Hjoin].
Qed.

Lemma getPaymentsByLandlord_complete_witness :
  option_map (map (fun pv => (Payment.id (pv_payment pv),
                              option_map (fun v => Tenant.id (tv_tenant v))
                                         (pv_tenant pv))))
    (MemStorage.getPaymentsByLandlord 1 Demo.town)
  = Some [(1, Some 1); (2, Some 1); (3, Some 1)] /\
  exists payments,
    MemStorage.getPaymentsByLandlord 1 Demo.town = Some payments /\
    map pv_payment payments
    = filter (fun p =>
                match MemStorage.getTenant (Payment.tenantId p) Demo.town with
                | Some t => Spec.ownedBy 1 Demo.town t
                | None => false
                end)
             (JsMap.values (MemStorage.paymentMap Demo.town)) /\
    forall pv, In pv payments ->
      exists v,
        pv_tenant pv = Some v /\
        MemStorage.getTenant (Payment.tenantId (pv_payment pv)) Demo.town
        = Some (tv_tenant v) /\
        MemStorage.tenantView Demo.town (tv_tenant v) = Some v.
Proof.
  split; [vm_compute; reflexivity|].
  apply (getPaymentsByLandlord_complete Demo.town 1). vm_compute. reflexivity.
Defined.

(** ** The dashboard, beyond income *)

(** X9. On a consistent store the dashboard lists the landlord's properties
    in the order of the property map, [propertiesCount] is their number,
    and the units listed under a property are the units of the store whose
    [propertyId] is the property's id: all of them, whether occupied or
    not, and no unit of another property. *)
Theorem dashboard_properties_with_units (Num : Type) (zero : Num)
  (add : Num -> Num -> Num) (Number : string -> Num) (monthLong : Z -> string)
  (s : MemStorage.t) (landlordId : Z) (now today : Date) :
  consistent s = true ->
  exists d,
    MemStorage.getDashboardData Num zero add Number monthLong now today
      landlordId s = Some d /\
    map MemStorage.pu_property (MemStorage.properties d)
    = MemStorage.getPropertiesByLandlord landlordId s /\
    MemStorage.propertiesCount d = List.length (MemStorage.properties d) /\
    forall e, In e (MemStorage.properties d) ->
      Property.landlordId (MemStorage.pu_property e) = landlordId /\
      MemStorage.getProperty (Property.id (MemStorage.pu_property e)) s
      = Some (MemStorage.pu_property e) /\
      forall u,
        In u (MemStorage.units e) <->
        MemStorage.getUnit (Unit.id u) s = Some u /\
        Unit.propertyId u = Property.id (MemStorage.pu_property e).
Proof.
  intros H.
  destruct (getTenantsByLandlord_total landlordId s H) as (views & Hv & _).
  unfold MemStorage.getDashboardData, MemStorage.getPaymentsByLandlord.
  rewrite Hv. cbv beta match zeta.
  eexists. split; [reflexivity|].
  cbn [MemStorage.properties MemStorage.propertiesCount].
  split; [|split].
  - rewrite map_map. simpl. apply map_id.
  - now rewrite length_map.
  - intros e He. apply in_map_iff in He as (p & <- & Hp). simpl.
    unfold MemStorage.getPropertiesByLandlord in Hp.
    apply filter_In in Hp as [Hp Hl]. apply Z.eqb_eq in Hl.
    consistent_split H.
    apply (table_ok_values _ _ _ _ Hproperty) in Hp.
    split; [exact Hl|]. split; [exact Hp|].
    intros u. unfold MemStorage.getUnitsByProperty, MemStorage.getUnit.
    rewrite filter_In, Z.eqb_eq.
    now rewrite (table_ok_values _ _ _ _ Hunit).
Qed.

Lemma dashboard_properties_with_units_witness :
  option_map
    (fun d => map (fun e => (Property.name (MemStorage.pu_property e),
                             map Unit.unitNumber (MemStorage.units e)))
                  (MemStorage.properties d))
    (MemStorage.getDashboardData Z 0 Z.add Demo.NumberZ Demo.monthLongEn
       (Demo.date 2025 2 20) (Demo.date 2025 2 20) 1 Demo.town)
  = Some [("Maple Apartments", ["101"; "102"])]%string /\
  exists d,
    MemStorage.getDashboardData Z 0 Z.add Demo.NumberZ Demo.monthLongEn
      (Demo.date 2025 2 20) (Demo.date 2025 2 20) 1 Demo.town = Some d /\
    map MemStorage.pu_property (MemStorage.properties d)
    = MemStorage.getPropertiesByLandlord 1 Demo.town /\
    MemStorage.propertiesCount d = List.length (MemStorage.properties d).
Proof.
  split; [vm_compute; reflexivity|].
  destruct (dashboard_properties_with_units Z 0 Z.add Demo.NumberZ
              Demo.monthLongEn Demo.town 1 (Demo.date 2025 2 20)
              (Demo.date 2025 2 20)) as (d & Hd & Hm & Hc & _).
  - vm_compute. reflexivity.
  - exists d. split; [exact Hd|]. split; [exact Hm|exact Hc].
Defined.

(** X10. A landlord without any property (an id that owns nothing, or that
    is no landlord at all) gets empty answers and no error, on any store:
    no tenants, no payments, and a dashboard of zero counts, zero totals,
    empty lists and six months of zero income. *)
Theorem landlord_without_property (Num : Type) (zero : Num)
  (add : Num -> Num -> Num) (Number : string -> Num) (monthLong : Z -> string)
  (s : MemStorage.t) (landlordId : Z) (now today : Date) :
  MemStorage.getPropertiesByLandlord landlordId s = [] ->
  MemStorage.getTenantsByLandlord landlordId s = Some [] /\
  MemStorage.getPaymentsByLandlord landlordId s = Some [] /\
  exists d,
    MemStorage.getDashboardData Num zero add Number monthLong now today
      landlordId s = Some d /\
    MemStorage.propertiesCount d = 0%nat /\
    MemStorage.tenantsCount d = 0%nat /\
    MemStorage.upcomingPaymentsTotal d = zero /\
    MemStorage.overduePaymentsTotal d = zero /\
    MemStorage.properties d = [] /\
    MemStorage.tenantActivity d = [] /\
    map MemStorage.amount (MemStorage.monthlyIncome d)
    = [zero; zero; zero; zero; zero; zero].
Proof.
  intros Hp.
  assert (Ht : MemStorage.getTenantsByLandlord landlordId s = Some []).
  { unfold MemStorage.getTenantsByLandlord, MemStorage.tenantsOfLandlord.
    rewrite Hp. simpl.
    assert (E : filter (fun unit : Unit.t => false)
                  (JsMap.values (MemStorage.unitMap s)) = [])
      by now apply filter_nil_iff.
    rewrite E. simpl.
    assert (E' : filter (fun tenant : Tenant.t => false)
                   (JsMap.values (MemStorage.tenantMap s)) = [])
      by now apply filter_nil_iff.
    now rewrite E'. }
  assert (Hpay : MemStorage.getPaymentsByLandlord landlordId s = Some []).
  { unfold MemStorage.getPaymentsByLandlord, MemStorage.paymentViews.
    rewrite Ht. simpl.
    assert (E : filter (fun payment : Payment.t => false)
                  (JsMap.values (MemStorage.paymentMap s)) = [])
      by now apply filter_nil_iff.
    now rewrite E. }
  split; [exact Ht|]. split; [exact Hpay|].
  unfold MemStorage.getDashboardData. rewrite Ht, Hpay, Hp.
  eexists. split; [reflexivity|]. repeat split.
Qed.

Lemma landlord_without_property_witness :
  MemStorage.getPropertiesByLandlord 2 Demo.town = [] /\
  MemStorage.getTenantsByLandlord 2 Demo.town = Some [] /\
  MemStorage.getPaymentsByLandlord 2 Demo.town = Some [] /\
  option_map
    (fun d => map (fun e => (MemStorage.month e, MemStorage.amount e))
                  (MemStorage.monthlyIncome d))
    (MemStorage.getDashboardData Z 0 Z.add Demo.NumberZ Demo.monthLongEn
       (Demo.date 2025 0 20) (Demo.date 2025 0 20) 2 Demo.town)
  = Some [ ("August '24", 0); ("September '24", 0); ("October '24", 0);
           ("November '24", 0); ("December '24", 0);
           ("January '25", 0) ]%string.
Proof.
  split; [reflexivity|].
  destruct (landlord_without_property Z 0 Z.add Demo.NumberZ Demo.monthLongEn
              Demo.town 2 (Demo.date 2025 0 20) (Demo.date 2025 0 20)
              eq_refl) as (Ht & Hp & _).
  split; [exact Ht|]. split; [exact Hp|]. vm_compute. reflexivity.
Defined.

(** What [createPayment] does to the landlord's payments: the new payment
    comes last when its tenant is one of the landlord's, and is not there
    otherwise. *)
Lemma getPaymentsByLandlord_createPayment landlordId created d s views :
  consistent s = true ->
  MemStorage.getTenantsByLandlord landlordId s = Some views ->
  MemStorage.getPaymentsByLandlord landlordId
    (snd (MemStorage.createPayment created d s))
  = Some (MemStorage.paymentViews views s
          ++ (if includes (map (fun t => Tenant.id (tv_tenant t)) views)
                          (Payment.i_tenantId d)
              then [mkPaymentView (fst (MemStorage.createPayment created d s))
                      (find (fun t => Tenant.id (tv_tenant t)
                                      =? Payment.i_tenantId d) views)]
              else [])).
Proof.
  intros H Hv. consistent_split H.
  unfold MemStorage.getPaymentsByLandlord.
  change (MemStorage.getTenantsByLandlord landlordId
            (snd (MemStorage.createPayment created d s)))
    with (MemStorage.getTenantsByLandlord landlordId s).
  rewrite Hv. f_equal. unfold MemStorage.paymentViews. simpl.
  rewrite (values_set_fresh _ _ _ (table_ok_fresh _ _ _ Hpayment)).
  rewrite filter_app, map_app. f_equal. simpl.
  now destruct (includes _ _).
Qed.

Lemma total_snoc (Num : Type) (zero : Num) (add : Num -> Num -> Num)
  (Number : string -> Num) (l : list PaymentView) (p : PaymentView) :
  MemStorage.total Num zero add Number (l ++ [p])
  = add (MemStorage.total Num zero add Number l)
        (Number (Payment.amount (pv_payment p))).
Proof. unfold MemStorage.total. now rewrite fold_left_app. Qed.

(** X11. How [createPayment] shows on a dashboard, on a consistent store.
    A payment created for a tenant that is not the landlord's (or for a
    [tenantId] that resolves to nothing) leaves the landlord's dashboard as
    it was. A payment created for one of the landlord's tenants raises
    [upcomingPaymentsTotal] by its amount when it is pending and due after
    [now], raises [overduePaymentsTotal] by its amount when it is overdue,
    or pending and due before [now], and leaves a total it does not count
    for unchanged; the counts of properties and tenants stay. *)
Theorem createPayment_on_dashboard (Num : Type) (zero : Num)
  (add : Num -> Num -> Num) (Number : string -> Num) (monthLong : Z -> string)
  (s : MemStorage.t) (landlordId : Z) (now today created : Date)
  (d : Payment.Insert) :
  consistent s = true ->
  let p := fst (MemStorage.createPayment created d s) in
  let s' := snd (MemStorage.createPayment created d s) in
  let owned :=
    match MemStorage.getTenant (Payment.i_tenantId d) s with
    | Some t => Spec.ownedBy landlordId s t
    | None => false
    end in
  exists before after,
    MemStorage.getDashboardData Num zero add Number monthLong now today
      landlordId s = Some before /\
    MemStorage.getDashboardData Num zero add Number monthLong now today
      landlordId s' = Some after /\
    (owned = false -> after = before) /\
    (owned = true ->
     MemStorage.upcomingPaymentsTotal after
     = (if MemStorage.isUpcoming now (mkPaymentView p None)
        then add (MemStorage.upcomingPaymentsTotal before)
                 (Number (Payment.amount p))
        else MemStorage.upcomingPaymentsTotal before) /\
     MemStorage.overduePaymentsTotal after
     = (if MemStorage.isOverdue now (mkPaymentView p None)
        then add (MemStorage.overduePaymentsTotal before)
                 (Number (Payment.amount p))
        else MemStorage.overduePaymentsTotal before) /\
     MemStorage.propertiesCount after = MemStorage.propertiesCount before /\
     MemStorage.tenantsCount after = MemStorage.tenantsCount before).
Proof.
  intros H p s' owned.
  destruct (getTenantsByLandlord_total landlordId s H)
    as (views & Hv & Hm & _).
  pose proof (getPaymentsByLandlord_createPayment landlordId created d s
                views H Hv) as Hnew.
  fold s' p in Hnew.
  assert (Hinc : includes (map (fun t => Tenant.id (tv_tenant t)) views)
                          (Payment.i_tenantId d) = owned).
  { pose proof H as H'. consistent_split H'.
    apply eq_true_iff_eq. rewrite includes_In, in_map_iff. subst owned.
    unfold MemStorage.getTenant. split.
    - intros (v & Hid & Hin).
      assert (Ht : In (tv_tenant v) (map tv_tenant views))
        by now apply in_map.
      rewrite Hm in Ht. apply filter_In in Ht as [Ht Ho].
      apply (table_ok_values _ _ _ _ Htenant) in Ht.
      now rewrite <- Hid, Ht.
    - destruct (JsMap.get (Payment.i_tenantId d) (MemStorage.tenantMap s))
        as [t|] eqn:Et; [|discriminate].
      intros Ho. pose proof (table_ok_get _ _ _ _ _ Htenant Et) as Hid.
      assert (Hin : In t (map tv_tenant views)).
      { rewrite Hm. apply filter_In. split; [|exact Ho].
        apply (table_ok_values _ _ _ _ Htenant). now rewrite Hid. }
      apply in_map_iff in Hin as (v & Hv' & Hin).
      exists v. split; [now rewrite Hv'|exact Hin]. }
  rewrite Hinc in Hnew.
  unfold MemStorage.getDashboardData.
  change (MemStorage.getTenantsByLandlord landlordId s')
    with (MemStorage.getTenantsByLandlord landlordId s).
  change (MemStorage.getPropertiesByLandlord landlordId s')
    with (MemStorage.getPropertiesByLandlord landlordId s).
  rewrite Hnew. unfold MemStorage.getPaymentsByLandlord. rewrite Hv.
  cbv beta match zeta.
  do 2 eexists. split; [reflexivity|]. split; [reflexivity|].
  split; intros Ho; rewrite Ho.
  - now rewrite app_nil_r.
  - cbn [MemStorage.upcomingPaymentsTotal MemStorage.overduePaymentsTotal
           MemStorage.propertiesCount MemStorage.tenantsCount].
    rewrite !filter_app. cbn [filter].
    change (MemStorage.isUpcoming now (mkPaymentView p _))
      with (MemStorage.isUpcoming now (mkPaymentView p None)).
    change (MemStorage.isOverdue now (mkPaymentView p _))
      with (MemStorage.isOverdue now (mkPaymentView p None)).
    destruct (MemStorage.isUpcoming now (mkPaymentView p None));
      destruct (MemStorage.isOverdue now (mkPaymentView p None));
      rewrite ?total_snoc, ?app_nil_r; repeat split.
Qed.

Lemma createPayment_on_dashboard_witness :
  option_map
    (fun d => (MemStorage.upcomingPaymentsTotal d,
               MemStorage.overduePaymentsTotal d))
    (MemStorage.getDashboardData Z 0 Z.add Demo.NumberZ Demo.monthLongEn
       (Demo.date 2025 2 20) (Demo.date 2025 2 20) 1 Demo.store)
  = Some (0, 1200) /\
  option_map
    (fun d => (MemStorage.upcomingPaymentsTotal d,
               MemStorage.overduePaymentsTotal d))
    (MemStorage.getDashboardData Z 0 Z.add Demo.NumberZ Demo.monthLongEn
       (Demo.date 2025 2 20) (Demo.date 2025 2 20) 1
       (snd (MemStorage.createPayment Demo.boot
               (Demo.rent 1 "900" (Demo.date 2025 3 1) None "pending")
               Demo.store)))
  = Some (900, 1200) /\
  exists before after,
    MemStorage.getDashboardData Z 0 Z.add Demo.NumberZ Demo.monthLongEn
      (Demo.date 2025 2 20) (Demo.date 2025 2 20) 1 Demo.store
    = Some before /\
    MemStorage.getDashboardData Z 0 Z.add Demo.NumberZ Demo.monthLongEn
      (Demo.date 2025 2 20) (Demo.date 2025 2 20) 1
      (snd (MemStorage.createPayment Demo.boot
              (Demo.rent 1 "900" (Demo.date 2025 3 1) None "pending")
              Demo.store)) = Some after /\
    MemStorage.upcomingPaymentsTotal after
    = MemStorage.upcomingPaymentsTotal before + 900 /\
    MemStorage.overduePaymentsTotal after
    = MemStorage.overduePaymentsTotal before.
Proof.
  split; [vm_compute; reflexivity|]. split; [vm_compute; reflexivity|].
  destruct (createPayment_on_dashboard Z 0 Z.add Demo.NumberZ
              Demo.monthLongEn Demo.store 1 (Demo.date 2025 2 20)
              (Demo.date 2025 2 20) Demo.boot
              (Demo.rent 1 "900" (Demo.date 2025 3 1) None "pending"))
    as (before & after & Hb & Ha & _ & Hown).
  - vm_compute. reflexivity.
  - exists before, after. split; [exact Hb|]. split; [exact Ha|].
    destruct Hown as (Hu & Ho & _); [vm_compute; reflexivity|].
    split; [exact Hu|exact Ho].
Defined.

(** ** Deletes do not cascade *)

(** X12. [deleteProperty] removes the property row and nothing else, on any
    store: the units of the property, their tenants and the payments stay
    in their maps, and [getUnitsByProperty] still lists the units. But a
    tenant whose unit belonged to the deleted property is owned by no
    landlord afterwards, so it and its payments drop out of every
    landlord-scoped answer; the ownership of every other tenant is as
    before. *)
Theorem deleteProperty_does_not_cascade (s : MemStorage.t) (propertyId : Z) :
  let s' := snd (MemStorage.deleteProperty propertyId s) in
  MemStorage.userMap s' = MemStorage.userMap s /\
  MemStorage.unitMap s' = MemStorage.unitMap s /\
  MemStorage.tenantMap s' = MemStorage.tenantMap s /\
  MemStorage.paymentMap s' = MemStorage.paymentMap s /\
  MemStorage.notificationMap s' = MemStorage.notificationMap s /\
  MemStorage.getUnitsByProperty propertyId s'
  = MemStorage.getUnitsByProperty propertyId s /\
  forall landlordId t,
    Spec.ownedBy landlordId s' t
    = match MemStorage.getUnit (Tenant.unitId t) s with
      | Some u =>
          if Unit.propertyId u =? propertyId then false
          else Spec.ownedBy landlordId s t
      | None => false
      end.
Proof.
  cbv zeta. repeat (split; [reflexivity|]).
  intros landlordId t. unfold Spec.ownedBy, MemStorage.getUnit. simpl.
  destruct (JsMap.get (Tenant.unitId t) (MemStorage.unitMap s)) as [u|];
    [|reflexivity].
  destruct (Unit.propertyId u =? propertyId) eqn:E.
  - apply Z.eqb_eq in E. subst propertyId. now rewrite get_remove_same.
  - apply Z.eqb_neq in E. rewrite get_remove_other by congruence.
    reflexivity.
Qed.

(** X13. [deleteUnit] removes the unit row and nothing else, on any store:
    a tenant that referenced the unit stays in the tenant map with its
    [unitId] dangling and is owned by no landlord afterwards, while the
    ownership of every other tenant is as before. A later [deleteTenant]
    of such a tenant leaves the unit map alone. *)
Theorem deleteUnit_does_not_cascade (s : MemStorage.t) (unitId : Z) :
  let s' := snd (MemStorage.deleteUnit unitId s) in
  MemStorage.tenantMap s' = MemStorage.tenantMap s /\
  MemStorage.paymentMap s' = MemStorage.paymentMap s /\
  MemStorage.propertyMap s' = MemStorage.propertyMap s /\
  (forall landlordId t,
     Spec.ownedBy landlordId s' t
     = if Tenant.unitId t =? unitId then false
       else Spec.ownedBy landlordId s t) /\
  (forall id t,
     MemStorage.getTenant id s = Some t -> Tenant.unitId t = unitId ->
     MemStorage.getTenant id s' = Some t /\
     MemStorage.unitMap (snd (MemStorage.deleteTenant id s'))
     = MemStorage.unitMap s').
Proof.
  cbv zeta. repeat (split; [reflexivity|]). split.
  - intros landlordId t. unfold Spec.ownedBy. simpl.
    destruct (Tenant.unitId t =? unitId) eqn:E.
    + apply Z.eqb_eq in E. subst unitId. now rewrite get_remove_same.
    + apply Z.eqb_neq in E. now rewrite get_remove_other by congruence.
  - intros id t Ht Hu. split; [exact Ht|].
    unfold MemStorage.getTenant in Ht.
    unfold MemStorage.deleteTenant, MemStorage.getUnit. simpl.
    now rewrite Ht, Hu, get_remove_same.
Qed.

Lemma deleteUnit_does_not_cascade_witness :
  option_map Tenant.unitId
    (MemStorage.getTenant 1 (snd (MemStorage.deleteUnit 1 Demo.store)))
  = Some 1 /\
  MemStorage.getUnit 1 (snd (MemStorage.deleteUnit 1 Demo.store)) = None /\
  MemStorage.getTenantsByLandlord 1 (snd (MemStorage.deleteUnit 1 Demo.store))
  = Some [] /\
  MemStorage.unitMap
    (snd (MemStorage.deleteTenant 1 (snd (MemStorage.deleteUnit 1 Demo.store))))
  = MemStorage.unitMap (snd (MemStorage.deleteUnit 1 Demo.store)).
Proof.
  split; [reflexivity|]. split; [reflexivity|]. split; [reflexivity|].
  destruct (deleteUnit_does_not_cascade Demo.store 1) as (_ & _ & _ & _ & H).
  apply (H 1 (Tenant.create (Demo.lease 2 1 true) 1 Demo.boot));
    reflexivity.
Defined.

(** ** What every reachable store satisfies *)

Section KeysFacts.

Context {V : Type}.
Implicit Types (m : JsMap.t V) (k : Z) (v : V).

Lemma keys_ok_spec (next : Z) m :
  keys_ok next m = true <->
  1 <= next /\ distinct (JsMap.keys m) = true /\
  (forall k v, JsMap.get k m = Some v -> 1 <= k < next).
Proof.
  unfold keys_ok. rewrite !andb_true_iff, forallb_forall, Z.leb_le. split.
  - intros [[Hn Hd] Hall]. split; [exact Hn|]. split; [exact Hd|].
    intros k v Hk. apply get_In in Hk.
    assert (Hin : In k (JsMap.keys m))
      by (unfold JsMap.keys; apply in_map_iff; now exists (k, v)).
    apply Hall in Hin. apply andb_true_iff in Hin as [H1 H2].
    apply Z.leb_le in H1. apply Z.ltb_lt in H2. lia.
  - intros [Hn [Hd Hall]]. split; [now split|].
    intros k Hin. unfold JsMap.keys in Hin.
    apply in_map_iff in Hin as ([k' v] & <- & Hin). simpl.
    apply (In_get k' v m Hd), Hall in Hin.
    apply andb_true_iff. rewrite Z.leb_le, Z.ltb_lt. lia.
Qed.

Lemma keys_ok_insert (next : Z) m v :
  keys_ok next m = true -> keys_ok (next + 1) (JsMap.set next v m) = true.
Proof.
  intros Hok. apply keys_ok_spec in Hok as [Hn [Hd Hall]].
  apply keys_ok_spec. split; [lia|]. split; [now apply distinct_set|].
  intros k v'. destruct (Z.eq_dec next k) as [<-|Hne].
  - intros _. lia.
  - rewrite get_set_other by exact Hne. intros H. apply Hall in H. lia.
Qed.

Lemma keys_ok_replace (next : Z) m k v v0 :
  keys_ok next m = true -> JsMap.get k m = Some v0 ->
  keys_ok next (JsMap.set k v m) = true.
Proof.
  intros Hok Hk. unfold keys_ok in *.
  now rewrite (keys_set_present k v v0 m Hk).
Qed.

Lemma keys_ok_remove (next : Z) m k :
  keys_ok next m = true -> keys_ok next (JsMap.remove k m) = true.
Proof.
  intros Hok. apply keys_ok_spec in Hok as [Hn [Hd Hall]].
  apply keys_ok_spec. split; [exact Hn|]. split; [now apply distinct_remove|].
  intros k1 v1. destruct (Z.eq_dec k k1) as [<-|Hne].
  - now rewrite get_remove_same.
  - rewrite get_remove_other by exact Hne. apply Hall.
Qed.

End KeysFacts.

Lemma wellKeyed_spec (s : MemStorage.t) :
  wellKeyed s = true <->
  keys_ok (CurrentId.user (MemStorage.currentId s))
    (MemStorage.userMap s) = true /\
  keys_ok (CurrentId.property (MemStorage.currentId s))
    (MemStorage.propertyMap s) = true /\
  keys_ok (CurrentId.unit (MemStorage.currentId s))
    (MemStorage.unitMap s) = true /\
  keys_ok (CurrentId.tenant (MemStorage.currentId s))
    (MemStorage.tenantMap s) = true /\
  keys_ok (CurrentId.payment (MemStorage.currentId s))
    (MemStorage.paymentMap s) = true /\
  keys_ok (CurrentId.notification (MemStorage.currentId s))
    (MemStorage.notificationMap s) = true.
Proof. unfold wellKeyed. rewrite !andb_true_iff. tauto. Qed.

Ltac wellKeyed_split H :=
  apply wellKeyed_spec in H;
  destruct H as (?Huser & ?Hproperty & ?Hunit & ?Htenant & ?Hpayment & ?Hnotif).

Ltac wellKeyed_join :=
  apply wellKeyed_spec; simpl; repeat split;
  first [ assumption
        | apply keys_ok_insert; assumption
        | eapply keys_ok_replace; [assumption|eassumption]
        | apply keys_ok_remove; assumption ].

(** An update or [markNotificationAsRead] writes under a key that is in
    use, whatever the object it is given. *)
Lemma wellKeyed_update s :
  wellKeyed s = true ->
  (forall id d, wellKeyed (snd (MemStorage.updateProperty id d s)) = true) /\
  (forall id d, wellKeyed (snd (MemStorage.updateUnit id d s)) = true) /\
  (forall id d, wellKeyed (snd (MemStorage.updatePayment id d s)) = true) /\
  (forall id d, wellKeyed (snd (MemStorage.updateNotification id d s)) = true)
  /\
  (forall id, wellKeyed (snd (MemStorage.markNotificationAsRead id s)) = true).
Proof.
  intros H.
  unfold MemStorage.updateProperty, MemStorage.updateUnit,
    MemStorage.updatePayment, MemStorage.updateNotification,
    MemStorage.markNotificationAsRead.
  repeat apply conj; intros id;
    try intros d;
    match goal with
    | |- context [match JsMap.get id ?m with _ => _ end] =>
        destruct (JsMap.get id m) as [r|] eqn:E; [|exact H]
    end;
    wellKeyed_split H; wellKeyed_join.
Qed.

Lemma wellKeyed_updateUnit id d s :
  wellKeyed s = true -> wellKeyed (snd (MemStorage.updateUnit id d s)) = true.
Proof. intros H. now apply (wellKeyed_update s H). Qed.

Lemma wellKeyed_vacateIfAlone id unit s :
  wellKeyed s = true -> wellKeyed (MemStorage.vacateIfAlone id unit s) = true.
Proof.
  intros H. unfold MemStorage.vacateIfAlone.
  destruct (_ =? _)%nat; [now apply wellKeyed_updateUnit|exact H].
Qed.

Lemma wellKeyed_createTenant now d s :
  wellKeyed s = true ->
  wellKeyed (snd (MemStorage.createTenant now d s)) = true.
Proof.
  intros H. unfold MemStorage.createTenant.
  remember (MemStorage.next_id KTenant s) as p eqn:Ep. destruct p as [id s1].
  injection Ep as -> ->.
  match goal with
  | |- context [MemStorage.getUnit ?u ?s2] =>
      assert (H2 : wellKeyed s2 = true) by (wellKeyed_split H; wellKeyed_join);
      destruct (MemStorage.getUnit u s2)
  end; simpl.
  - now apply wellKeyed_updateUnit.
  - exact H2.
Qed.

Lemma wellKeyed_deleteTenant id s :
  wellKeyed s = true -> wellKeyed (snd (MemStorage.deleteTenant id s)) = true.
Proof.
  intros H. unfold MemStorage.deleteTenant.
  match goal with
  | |- context [JsMap.delete id (MemStorage.tenantMap ?x)] =>
      remember x as s1 eqn:Es1
  end.
  assert (H1 : wellKeyed s1 = true).
  { subst s1.
    destruct (JsMap.get id (MemStorage.tenantMap s)) as [t|]; [|exact H].
    destruct (MemStorage.getUnit _ s); [|exact H].
    now apply wellKeyed_vacateIfAlone. }
  clear Es1 H. wellKeyed_split H1. wellKeyed_join.
Qed.

Lemma wellKeyed_updateTenant id d s :
  wellKeyed s = true -> wellKeyed (snd (MemStorage.updateTenant id d s)) = true.
Proof.
  intros H. unfold MemStorage.updateTenant.
  destruct (JsMap.get id (MemStorage.tenantMap s)) as [t|] eqn:E; [|exact H].
  destruct (updateTenant_bookkeeping d t id s) as [_ Hm]. simpl in Hm.
  match goal with
  | |- context [JsMap.set id _ (MemStorage.tenantMap ?x)] =>
      assert (H3 : wellKeyed x = true);
      [|remember x as s3 eqn:Es3]
  end.
  { destruct (MemStorage.unitChanges d t) as [newId|]; [|exact H].
    destruct (MemStorage.getUnit newId s) as [nu|];
      destruct (MemStorage.getUnit (Tenant.unitId t) s) as [ou|];
      repeat first [ apply wellKeyed_updateUnit
                   | apply wellKeyed_vacateIfAlone ]; exact H. }
  clear Es3. simpl. rewrite Hm.
  wellKeyed_split H3. rewrite Hm in Htenant. wellKeyed_join.
Qed.

Lemma wellKeyed_exec o s :
  wellKeyed s = true -> wellKeyed (snd (exec o s)) = true.
Proof.
  intros H. pose proof (wellKeyed_update s H) as (Hp & Hu & Hpay & Hn & Hr).
  destruct o; simpl; rewrite ?snd_let;
    first [ apply Hp | apply Hu | apply Hpay | apply Hn | apply Hr
          | now apply wellKeyed_createTenant
          | now apply wellKeyed_updateTenant
          | now apply wellKeyed_deleteTenant
          | wellKeyed_split H; wellKeyed_join ].
Qed.

Lemma wellKeyed_run ops :
  forall s, wellKeyed s = true -> wellKeyed (snd (run ops s)) = true.
Proof.
  induction ops as [|o ops IH]; intros s H; [exact H|].
  rewrite run_cons. simpl. apply IH. now apply wellKeyed_exec.
Qed.

(** X14. Whatever calls were made since the store was constructed, and
    whatever objects the updates were given, every key in use in each of
    the six maps is at least 1 and below the counter of its entity type:
    the next create cannot overwrite a row. When no update of the history
    was given an object carrying an [id] other than the id of the row it
    updates, every row moreover sits under its own id. *)
Theorem history_keeps_rows_under_their_ids (ops : list Op) :
  let s := snd (run ops MemStorage.new) in
  let c := MemStorage.currentId s in
  ((forall k r, MemStorage.getUser k s = Some r -> 1 <= k < CurrentId.user c)
   /\
   (forall k r, MemStorage.getProperty k s = Some r ->
                1 <= k < CurrentId.property c) /\
   (forall k r, MemStorage.getUnit k s = Some r -> 1 <= k < CurrentId.unit c)
   /\
   (forall k r, MemStorage.getTenant k s = Some r ->
                1 <= k < CurrentId.tenant c) /\
   (forall k r, MemStorage.getPayment k s = Some r ->
                1 <= k < CurrentId.payment c) /\
   (forall k r, MemStorage.getNotification k s = Some r ->
                1 <= k < CurrentId.notification c)) /\
  (forallb keepsId ops = true ->
   (forall k r, MemStorage.getUser k s = Some r -> User.id r = k) /\
   (forall k r, MemStorage.getProperty k s = Some r -> Property.id r = k) /\
   (forall k r, MemStorage.getUnit k s = Some r -> Unit.id r = k) /\
   (forall k r, MemStorage.getTenant k s = Some r -> Tenant.id r = k) /\
   (forall k r, MemStorage.getPayment k s = Some r -> Payment.id r = k) /\
   (forall k r, MemStorage.getNotification k s = Some r ->
                Notification.id r = k)).
Proof.
  cbv zeta.
  unfold MemStorage.getUser, MemStorage.getProperty, MemStorage.getUnit,
    MemStorage.getTenant, MemStorage.getPayment, MemStorage.getNotification.
  split.
  - pose proof (wellKeyed_run ops MemStorage.new eq_refl) as H.
    wellKeyed_split H.
    repeat apply conj;
      match goal with
      | Hok : keys_ok ?n ?m = true |- forall k r, JsMap.get k ?m = _ -> _ =>
          apply keys_ok_spec in Hok; apply Hok
      end.
  - intros Hid.
    pose proof (consistent_history ops Hid) as H. consistent_split H.
    repeat apply conj;
      match goal with
      | Hok : table_ok ?f ?n ?m = true |- forall k r, JsMap.get k ?m = _ -> _ =>
          intros k r Hg; exact (table_ok_get _ _ _ _ _ Hok Hg)
      end.
Qed.

(** X25. An update stores the [id] its object carries. When the object
    of an update of the row under [id] carries another id, the row stays
    under the key [id] and says the other id from then on, what is stored
    under the other id is left as it was (the row is not moved there), and
    the store is no longer consistent. This holds for the five update
    methods on any store. *)
Theorem update_can_give_a_row_another_id (s : MemStorage.t) (id newId : Z) :
  newId <> id ->
  (forall r d,
     MemStorage.getProperty id s = Some r -> Property.p_id d = Some newId ->
     let s' := snd (MemStorage.updateProperty id d s) in
     option_map Property.id (MemStorage.getProperty id s') = Some newId /\
     MemStorage.getProperty newId s' = MemStorage.getProperty newId s /\
     consistent s' = false) /\
  (forall r d,
     MemStorage.getUnit id s = Some r -> Unit.p_id d = Some newId ->
     let s' := snd (MemStorage.updateUnit id d s) in
     option_map Unit.id (MemStorage.getUnit id s') = Some newId /\
     MemStorage.getUnit newId s' = MemStorage.getUnit newId s /\
     consistent s' = false) /\
  (forall r d,
     MemStorage.getTenant id s = Some r -> Tenant.p_id d = Some newId ->
     let s' := snd (MemStorage.updateTenant id d s) in
     option_map Tenant.id (MemStorage.getTenant id s') = Some newId /\
     MemStorage.getTenant newId s' = MemStorage.getTenant newId s /\
     consistent s' = false) /\
  (forall r d,
     MemStorage.getPayment id s = Some r -> Payment.p_id d = Some newId ->
     let s' := snd (MemStorage.updatePayment id d s) in
     option_map Payment.id (MemStorage.getPayment id s') = Some newId /\
     MemStorage.getPayment newId s' = MemStorage.getPayment newId s /\
     consistent s' = false) /\
  (forall r d,
     MemStorage.getNotification id s = Some r ->
     Notification.p_id d = Some newId ->
     let s' := snd (MemStorage.updateNotification id d s) in
     option_map Notification.id (MemStorage.getNotification id s')
     = Some newId /\
     MemStorage.getNotification newId s' = MemStorage.getNotification newId s /\
     consistent s' = false).
Proof.
  intros Hne.
  assert (Hbad : forall (V : Type) (id_of : V -> Z) next (m : JsMap.t V) v,
            JsMap.get id m = Some v -> id_of v = newId ->
            table_ok id_of next m = true -> False).
  { intros V id_of next m v Hg Hv Hok.
    pose proof (table_ok_get _ _ _ _ _ Hok Hg). congruence. }
  repeat apply conj; intros r d Hr Hd; cbv zeta;
    unfold MemStorage.getProperty, MemStorage.getUnit, MemStorage.getTenant,
      MemStorage.getPayment, MemStorage.getNotification in *;
    try (unfold MemStorage.updateProperty, MemStorage.updateUnit,
           MemStorage.updatePayment, MemStorage.updateNotification;
         rewrite Hr; simpl;
         rewrite get_set_same, get_set_other by congruence; simpl;
         rewrite Hd; simpl;
         split; [reflexivity|]; split; [reflexivity|];
         match goal with
         | |- consistent ?x = false =>
             destruct (consistent x) eqn:E; [exfalso|reflexivity]
         end;
         consistent_split E; simpl in *;
         match goal with
         | Hok : table_ok _ _ (JsMap.set id ?v _) = true |- _ =>
             apply (Hbad _ _ _ _ v (get_set_same _ _ _)) in Hok;
             [exact Hok|simpl; now rewrite Hd]
         end).
  destruct (updateTenant_maps id d s r Hr) as [Hm _]. cbv zeta in Hm.
  rewrite Hm, get_set_same, get_set_other by congruence. simpl.
  rewrite Hd. simpl.
  split; [reflexivity|]. split; [reflexivity|].
  match goal with
  | |- consistent ?x = false =>
      destruct (consistent x) eqn:E; [exfalso|reflexivity]
  end.
  consistent_split E. rewrite Hm in Htenant.
  apply (Hbad _ _ _ _ _ (get_set_same _ _ _)) in Htenant;
    [exact Htenant|simpl; now rewrite Hd].
Qed.

Lemma update_can_give_a_row_another_id_witness :
  option_map Unit.id (MemStorage.getUnit 1 Demo.store) = Some 1 /\
  option_map Unit.id
    (MemStorage.getUnit 1
       (snd (MemStorage.updateUnit 1 (Demo.renumber 7) Demo.store)))
  = Some 7 /\
  MemStorage.getUnit 7
    (snd (MemStorage.updateUnit 1 (Demo.renumber 7) Demo.store)) = None /\
  consistent (snd (MemStorage.updateUnit 1 (Demo.renumber 7) Demo.store))
  = false.
Proof.
  split; [reflexivity|].
  destruct (update_can_give_a_row_another_id Demo.store 1 7)
    as (_ & Hu & _); [discriminate|].
  destruct (Hu (Unit.create Demo.unit101 1 Demo.boot) (Demo.renumber 7)
              eq_refl eq_refl) as (H1 & H2 & H3).
  split; [exact H1|]. split; [|exact H3].
  rewrite H2. reflexivity.
Defined.

(** ** Notifications *)

(** X15. [markNotificationAsRead] of a notification that exists returns it
    with [isRead] set and every other field as it was, and stores that;
    marking it again changes nothing more. For an id without a row the
    answer is [undefined] and the store is untouched. The other
    notifications are never touched. *)
Theorem markNotificationAsRead_idempotent (s : MemStorage.t) (id : Z) :
  let s' := snd (MemStorage.markNotificationAsRead id s) in
  fst (MemStorage.markNotificationAsRead id s)
  = option_map Notification.read (MemStorage.getNotification id s) /\
  MemStorage.getNotification id s'
  = option_map Notification.read (MemStorage.getNotification id s) /\
  (forall k, k <> id ->
             MemStorage.getNotification k s' = MemStorage.getNotification k s) /\
  (forall n, Notification.isRead (Notification.read n) = true /\
             Notification.id (Notification.read n) = Notification.id n /\
             Notification.userId (Notification.read n) = Notification.userId n /\
             Notification.message (Notification.read n)
             = Notification.message n /\
             Notification.type (Notification.read n) = Notification.type n /\
             Notification.createdAt (Notification.read n)
             = Notification.createdAt n) /\
  MemStorage.markNotificationAsRead id s'
  = (fst (MemStorage.markNotificationAsRead id s), s') /\
  (MemStorage.getNotification id s = None -> s' = s).
Proof.
  cbv zeta. unfold MemStorage.markNotificationAsRead, MemStorage.getNotification.
  destruct (JsMap.get id (MemStorage.notificationMap s)) as [n|] eqn:E; simpl.
  - split; [reflexivity|]. split; [apply get_set_same|].
    split; [intros k Hk; apply get_set_other; congruence|].
    split; [intros n'; repeat split|]. split; [|discriminate].
    rewrite get_set_same. simpl.
    now rewrite (set_same _ _ _ (get_set_same _ _ _)).
  - rewrite E. repeat split.
Qed.

(** ** Lookups by scan *)

Lemma find_snoc {A : Type} (f : A -> bool) (l : list A) (x : A) :
  find f (l ++ [x])
  = match find f l with
    | Some y => Some y
    | None => if f x then Some x else None
    end.
Proof.
  induction l as [|a l IH]; simpl; [reflexivity|].
  now destruct (f a).
Qed.

(** X16. On a consistent store [getUserByUsername] answers with a user of
    the store that has the username, the one created first when several
    have it, and with [undefined] exactly when no user has it. [createUser]
    checks nothing: it stores a user under a taken username too, and the
    earlier holder stays the answer of the lookup. *)
Theorem getUserByUsername_first_match (s : MemStorage.t) (username : string) :
  consistent s = true ->
  (forall r,
     MemStorage.getUserByUsername username s = Some r ->
     User.username r = username /\
     MemStorage.getUser (User.id r) s = Some r) /\
  (MemStorage.getUserByUsername username s = None <->
   forall k r, MemStorage.getUser k s = Some r -> User.username r <> username) /\
  (forall now d,
     MemStorage.getUserByUsername username
       (snd (MemStorage.createUser now d s))
     = match MemStorage.getUserByUsername username s with
       | Some r => Some r
       | None =>
           if String.eqb (User.i_username d) username
           then Some (fst (MemStorage.createUser now d s))
           else None
       end).
Proof.
  intros H. consistent_split H.
  unfold MemStorage.getUserByUsername, MemStorage.getUser.
  split; [|split].
  - intros r Hf. apply find_some in Hf as [Hin Hn].
    apply String.eqb_eq in Hn.
    split; [exact Hn|now apply (table_ok_values _ _ _ _ Huser)].
  - split.
    + intros Hnone k r Hg.
      pose proof (table_ok_get _ _ _ _ _ Huser Hg) as Hid.
      assert (Hin : In r (JsMap.values (MemStorage.userMap s))).
      { apply (table_ok_values _ _ _ _ Huser). now rewrite Hid. }
      apply (find_none _ _ Hnone) in Hin.
      now apply String.eqb_neq in Hin.
    + intros Hall.
      destruct (find _ (JsMap.values (MemStorage.userMap s))) as [r|] eqn:E;
        [|reflexivity].
      apply find_some in E as [Hin Hn]. apply String.eqb_eq in Hn.
      apply (table_ok_values _ _ _ _ Huser) in Hin.
      now apply Hall in Hin.
  - intros now d. simpl.
    rewrite (values_set_fresh _ _ _ (table_ok_fresh _ _ _ Huser)).
    now rewrite find_snoc.
Qed.

Lemma getUserByUsername_first_match_witness :
  option_map User.id (MemStorage.getUserByUsername "tenant" Demo.store)
  = Some 2 /\
  option_map User.id
    (MemStorage.getUserByUsername "tenant"
       (snd (MemStorage.createUser Demo.boot Demo.tenantUser Demo.store)))
  = Some 2 /\
  option_map User.username
    (MemStorage.getUser 3
       (snd (MemStorage.createUser Demo.boot Demo.tenantUser Demo.store)))
  = Some "tenant"%string.
Proof.
  destruct (getUserByUsername_first_match Demo.store "tenant" eq_refl)
    as (_ & _ & H).
  split; [reflexivity|]. split; [|reflexivity].
  rewrite (H Demo.boot Demo.tenantUser). reflexivity.
Defined.

(** * Properties of the HTTP handlers *)

Ltac route_cases :=
  repeat match goal with
         | |- context [match ?x with _ => _ end] =>
             let E := fresh "E" in destruct x eqn:E; cbn [fst snd] in *
         | |- context [let (_, _) := ?x in _] =>
             let E := fresh "E" in destruct x eqn:E; cbn [fst snd] in *
         end.

(** X17. A request a handler refuses changes nothing. The three delete
    routes leave the store as it was unless they answer 204, the
    read-notification route unless it answers 200, the create-payment route
    unless it answers 201; the process-payment route leaves it as it was
    when it answers 403 or 404 (its 500 can come after a write). *)
Theorem refused_requests_change_nothing (user : option User.t)
  (id : option Z) (s : MemStorage.t) :
  (Routes.status (fst (Routes.deleteProperty user id s)) <> 204 ->
   snd (Routes.deleteProperty user id s) = s) /\
  (Routes.status (fst (Routes.deleteUnit user id s)) <> 204 ->
   snd (Routes.deleteUnit user id s) = s) /\
  (Routes.status (fst (Routes.deleteTenant user id s)) <> 204 ->
   snd (Routes.deleteTenant user id s) = s) /\
  (Routes.status (fst (Routes.readNotification user id s)) <> 200 ->
   snd (Routes.readNotification user id s) = s) /\
  (forall toLocaleDateString parsed now now2,
     Routes.status
       (fst (Routes.createPayment toLocaleDateString user parsed now now2 s))
     <> 201 ->
     snd (Routes.createPayment toLocaleDateString user parsed now now2 s) = s)
  /\
  (forall paymentMethod now now2 now3,
     Routes.status
       (fst (Routes.processPayment user id paymentMethod now now2 now3 s))
     = 403 \/
     Routes.status
       (fst (Routes.processPayment user id paymentMethod now now2 now3 s))
     = 404 ->
     snd (Routes.processPayment user id paymentMethod now now2 now3 s) = s).
Proof.
  repeat apply conj; intros;
    match goal with
    | H : _ |- _ => revert H
    end;
    unfold Routes.deleteProperty, Routes.deleteUnit, Routes.deleteTenant,
      Routes.readNotification, Routes.createPayment, Routes.processPayment;
    route_cases; cbn; intros; try reflexivity;
    try congruence; try (exfalso; lia).
Qed.

(** X18. The landlord routes that write act for the owner only. A delete
    of a property, a unit or a tenant answered 204 and a payment creation
    answered 201 were asked by an authenticated user of type [landlord],
    and the property, the property of the unit, or the property of the
    tenant's unit has that user's id as [landlordId]. *)
Theorem landlord_routes_act_for_the_owner (user : option User.t)
  (id : option Z) (s : MemStorage.t) :
  (Routes.status (fst (Routes.deleteProperty user id s)) = 204 ->
   exists u k p,
     user = Some u /\ User.userType u = "landlord"%string /\ id = Some k /\
     MemStorage.getProperty k s = Some p /\
     Property.landlordId p = User.id u /\
     snd (Routes.deleteProperty user id s)
     = snd (MemStorage.deleteProperty k s)) /\
  (Routes.status (fst (Routes.deleteUnit user id s)) = 204 ->
   exists u k unit p,
     user = Some u /\ User.userType u = "landlord"%string /\ id = Some k /\
     MemStorage.getUnit k s = Some unit /\
     MemStorage.getProperty (Unit.propertyId unit) s = Some p /\
     Property.landlordId p = User.id u /\
     snd (Routes.deleteUnit user id s) = snd (MemStorage.deleteUnit k s)) /\
  (Routes.status (fst (Routes.deleteTenant user id s)) = 204 ->
   exists u k t,
     user = Some u /\ User.userType u = "landlord"%string /\ id = Some k /\
     MemStorage.getTenant k s = Some t /\
     Spec.ownedBy (User.id u) s t = true /\
     snd (Routes.deleteTenant user id s)
     = snd (MemStorage.updateTenant k Routes.deactivate s)) /\
  (forall toLocaleDateString parsed now now2,
     Routes.status
       (fst (Routes.createPayment toLocaleDateString user parsed now now2 s))
     = 201 ->
     exists u d t,
       user = Some u /\ User.userType u = "landlord"%string /\
       parsed = Some d /\
       MemStorage.getTenant (Payment.i_tenantId d) s = Some t /\
       Spec.ownedBy (User.id u) s t = true).
Proof.
  repeat apply conj; intros;
    match goal with
    | H : Routes.status _ = _ |- _ => revert H
    end;
    unfold Routes.deleteProperty, Routes.deleteUnit, Routes.deleteTenant,
      Routes.createPayment, Routes.isLandlord, Routes.byParam;
    route_cases; cbn; intros; try discriminate;
    repeat match goal with
           | H : negb _ = false |- _ => apply negb_false_iff in H
           | H : String.eqb _ _ = true |- _ => apply String.eqb_eq in H
           | H : (_ =? _) = true |- _ => apply Z.eqb_eq in H
           end.
  - do 3 eexists. repeat (split; [eassumption || reflexivity|]). reflexivity.
  - do 4 eexists. repeat (split; [eassumption || reflexivity|]). reflexivity.
  - do 3 eexists. repeat (split; [eassumption || reflexivity|]).
    split; [|reflexivity].
    apply ownedBy_chain. do 2 eexists.
    repeat (split; [eassumption|]). assumption.
  - do 3 eexists. repeat (split; [eassumption || reflexivity|]).
    apply ownedBy_chain. do 2 eexists.
    repeat (split; [eassumption|]). assumption.
Qed.

Lemma refused_requests_change_nothing_witness :
  fst (Routes.deleteTenant (Some Demo.ann) (Some 1) Demo.town)
  = Routes.respond 403 (Routes.Message "You don't have access to this tenant")
  /\
  snd (Routes.deleteTenant (Some Demo.ann) (Some 1) Demo.town) = Demo.town /\
  fst (Routes.deleteTenant None (Some 1) Demo.town) = Routes.landlordRequired
  /\
  snd (Routes.deleteTenant None (Some 1) Demo.town) = Demo.town.
Proof.
  split; [reflexivity|].
  split;
    [apply (refused_requests_change_nothing (Some Demo.ann) (Some 1) Demo.town);
     vm_compute; discriminate|].
  split; [reflexivity|].
  apply (refused_requests_change_nothing None (Some 1) Demo.town).
  vm_compute. discriminate.
Defined.

Lemma landlord_routes_act_for_the_owner_witness :
  Routes.status (fst (Routes.deleteTenant (Some Demo.john) (Some 1) Demo.town))
  = 204 /\
  exists u k t,
    Some Demo.john = Some u /\ User.userType u = "landlord"%string /\
    Some 1 = Some k /\
    MemStorage.getTenant k Demo.town = Some t /\
    Spec.ownedBy (User.id u) Demo.town t = true /\
    snd (Routes.deleteTenant (Some Demo.john) (Some 1) Demo.town)
    = snd (MemStorage.updateTenant k Routes.deactivate Demo.town).
Proof.
  split; [reflexivity|].
  apply (landlord_routes_act_for_the_owner (Some Demo.john) (Some 1)
           Demo.town).
  reflexivity.
Defined.

(** X19. The delete-tenant route never removes the tenant row. When it
    answers 204 the tenant is still in the store under its id with
    [isActive = false] and its other fields as they were; no unit is
    written, so the unit of the tenant keeps the [isOccupied] it had even
    when this was its only active tenant; the payments stay, and the
    tenant is owned by the same landlords as before, so it is still among
    the landlord's tenants. *)
Theorem deleteTenant_route_is_soft (user : option User.t) (id : option Z)
  (s : MemStorage.t) :
  Routes.status (fst (Routes.deleteTenant user id s)) = 204 ->
  let s' := snd (Routes.deleteTenant user id s) in
  exists k t,
    id = Some k /\
    MemStorage.getTenant k s = Some t /\
    MemStorage.getTenant k s' = Some (Tenant.merge t Routes.deactivate) /\
    Tenant.isActive (Tenant.merge t Routes.deactivate) = false /\
    Tenant.unitId (Tenant.merge t Routes.deactivate) = Tenant.unitId t /\
    Tenant.userId (Tenant.merge t Routes.deactivate) = Tenant.userId t /\
    MemStorage.unitMap s' = MemStorage.unitMap s /\
    MemStorage.paymentMap s' = MemStorage.paymentMap s /\
    MemStorage.propertyMap s' = MemStorage.propertyMap s /\
    forall landlordId,
      Spec.ownedBy landlordId s' (Tenant.merge t Routes.deactivate)
      = Spec.ownedBy landlordId s t.
Proof.
  cbv zeta. unfold Routes.deleteTenant, Routes.byParam.
  route_cases; cbn; intros H; try discriminate.
  do 2 eexists. split; [reflexivity|]. split; [eassumption|].
  match goal with
  | Ht : MemStorage.getTenant _ s = Some _ |- _ =>
      unfold MemStorage.getTenant in *; unfold MemStorage.updateTenant;
      rewrite Ht
  end.
  cbn. split; [apply get_set_same|]. repeat (split; [reflexivity|]).
  reflexivity.
Qed.

Lemma deleteTenant_route_is_soft_witness :
  Routes.status (fst (Routes.deleteTenant (Some Demo.john) (Some 1) Demo.store))
  = 204 /\
  option_map Tenant.isActive
    (MemStorage.getTenant 1
       (snd (Routes.deleteTenant (Some Demo.john) (Some 1) Demo.store)))
  = Some false /\
  option_map Unit.isOccupied
    (MemStorage.getUnit 1
       (snd (Routes.deleteTenant (Some Demo.john) (Some 1) Demo.store)))
  = Some true /\
  exists k t,
    Some 1 = Some k /\
    MemStorage.getTenant k Demo.store = Some t /\
    MemStorage.getTenant k
      (snd (Routes.deleteTenant (Some Demo.john) (Some 1) Demo.store))
    = Some (Tenant.merge t Routes.deactivate) /\
    MemStorage.unitMap
      (snd (Routes.deleteTenant (Some Demo.john) (Some 1) Demo.store))
    = MemStorage.unitMap Demo.store.
Proof.
  split; [reflexivity|]. split; [reflexivity|]. split; [reflexivity|].
  destruct (deleteTenant_route_is_soft (Some Demo.john) (Some 1) Demo.store
              eq_refl) as (k & t & Hid & Ht & Ht' & _ & _ & _ & Hu & _).
  exists k, t. split; [exact Hid|]. split; [exact Ht|].
  split; [exact Ht'|exact Hu].
Defined.

(** X20. When the create-payment route answers 201, the body is the new
    payment, stored under the next payment id, and exactly one
    notification was added, under the next notification id: unread, of
    type [payment], addressed to the user of the payment's tenant, and
    naming the amount and the due date. Every other payment and
    notification, and the user, property, unit and tenant maps, are as
    before. *)
Theorem createPayment_route_notifies_tenant
  (toLocaleDateString : Date -> string) (user : option User.t)
  (parsed : option Payment.Insert) (now now2 : Date) (s : MemStorage.t) :
  Routes.status
    (fst (Routes.createPayment toLocaleDateString user parsed now now2 s))
  = 201 ->
  let r := Routes.createPayment toLocaleDateString user parsed now now2 s in
  let s' := snd r in
  let c := MemStorage.currentId s in
  exists d t n,
    parsed = Some d /\
    MemStorage.getTenant (Payment.i_tenantId d) s = Some t /\
    Routes.body (fst r)
    = Routes.OnePayment (Some (Payment.create d (CurrentId.payment c) now)) /\
    MemStorage.getPayment (CurrentId.payment c) s'
    = Some (Payment.create d (CurrentId.payment c) now) /\
    MemStorage.getNotification (CurrentId.notification c) s' = Some n /\
    Notification.userId n = Tenant.userId t /\
    Notification.isRead n = false /\
    Notification.type n = "payment"%string /\
    Notification.message n
    = String.append "New payment of $"
        (String.append (Payment.i_amount d)
           (String.append " due on "
              (toLocaleDateString (Payment.i_dueDate d)))) /\
    (forall k, k <> CurrentId.payment c ->
               MemStorage.getPayment k s' = MemStorage.getPayment k s) /\
    (forall k, k <> CurrentId.notification c ->
               MemStorage.getNotification k s' = MemStorage.getNotification k s)
    /\
    MemStorage.userMap s' = MemStorage.userMap s /\
    MemStorage.propertyMap s' = MemStorage.propertyMap s /\
    MemStorage.unitMap s' = MemStorage.unitMap s /\
    MemStorage.tenantMap s' = MemStorage.tenantMap s.
Proof.
  cbv zeta. unfold Routes.createPayment.
  destruct (negb (Routes.isLandlord user)); [discriminate|].
  destruct parsed as [d|]; [|discriminate].
  destruct (MemStorage.getTenant (Payment.i_tenantId d) s) as [t|] eqn:Et;
    [|discriminate].
  destruct (MemStorage.getUnit (Tenant.unitId t) s) as [unit|];
    [|discriminate].
  destruct (MemStorage.getProperty (Unit.propertyId unit) s) as [property|];
    [|discriminate].
  destruct user as [u|]; [|discriminate].
  destruct (negb (Property.landlordId property =? User.id u));
    [discriminate|].
  cbn. intros _. exists d, t. eexists.
  split; [reflexivity|]. split; [exact Et|]. split; [reflexivity|].
  unfold MemStorage.getPayment, MemStorage.getNotification. cbn.
  split; [apply get_set_same|]. split; [apply get_set_same|].
  repeat (split; [reflexivity|]).
  split; [intros k Hk; apply get_set_other; congruence|].
  split; [intros k Hk; apply get_set_other; congruence|].
  repeat split.
Qed.

Lemma createPayment_route_notifies_tenant_witness :
  Routes.status
    (fst (Routes.createPayment (fun _ => "4/1/2025"%string) (Some Demo.john)
            (Some (Demo.rent 1 "900" (Demo.date 2025 3 1) None "pending"))
            Demo.boot Demo.boot Demo.store)) = 201 /\
  option_map (fun n => (Notification.userId n, Notification.message n))
    (MemStorage.getNotification 2
       (snd (Routes.createPayment (fun _ => "4/1/2025"%string)
               (Some Demo.john)
               (Some (Demo.rent 1 "900" (Demo.date 2025 3 1) None "pending"))
               Demo.boot Demo.boot Demo.store)))
  = Some (2, "New payment of $900 due on 4/1/2025"%string) /\
  MemStorage.tenantMap
    (snd (Routes.createPayment (fun _ => "4/1/2025"%string) (Some Demo.john)
            (Some (Demo.rent 1 "900" (Demo.date 2025 3 1) None "pending"))
            Demo.boot Demo.boot Demo.store))
  = MemStorage.tenantMap Demo.store.
Proof.
  split; [reflexivity|]. split; [reflexivity|].
  destruct (createPayment_route_notifies_tenant (fun _ => "4/1/2025"%string)
              (Some Demo.john)
              (Some (Demo.rent 1 "900" (Demo.date 2025 3 1) None "pending"))
              Demo.boot Demo.boot Demo.store eq_refl)
    as (d & t & n & H).
  apply H.
Defined.

(** X21. When the process-payment route answers 200, the request came from
    an authenticated user of type [tenant], and the payment belongs to the
    Tenant row the scan finds first for that user. The payment is then
    stored with status [paid], the handler's clock reading as
    [paymentDate] and the given payment method ([Credit Card] by default),
    its amount, due date and tenant as before; and two unread
    notifications were added under the next two notification ids, the
    first for the tenant's user, the second for the landlord of the
    tenant's unit. The status the payment had is not looked at: a payment
    already paid is processed again. *)
Theorem processPayment_marks_paid (user : option User.t) (id : option Z)
  (paymentMethod : option string) (now now2 now3 : Date) (s : MemStorage.t) :
  Routes.status
    (fst (Routes.processPayment user id paymentMethod now now2 now3 s)) = 200 ->
  let r := Routes.processPayment user id paymentMethod now now2 now3 s in
  let s' := snd r in
  let c := CurrentId.notification (MemStorage.currentId s) in
  exists u k p t unit property n1 n2,
    user = Some u /\ User.userType u = "tenant"%string /\ id = Some k /\
    MemStorage.getPayment k s = Some p /\
    MemStorage.getTenantByUserId (User.id u) s = Some t /\
    Tenant.id t = Payment.tenantId p /\
    MemStorage.getUnit (Tenant.unitId t) s = Some unit /\
    MemStorage.getProperty (Unit.propertyId unit) s = Some property /\
    let p' :=
      Payment.merge p
        (Routes.paid now (Routes.orElse paymentMethod "Credit Card")) in
    Routes.body (fst r) = Routes.OnePayment (Some p') /\
    MemStorage.getPayment k s' = Some p' /\
    Payment.status p' = "paid"%string /\
    Payment.paymentDate p' = Some now /\
    Payment.amount p' = Payment.amount p /\
    Payment.dueDate p' = Payment.dueDate p /\
    Payment.tenantId p' = Payment.tenantId p /\
    MemStorage.getNotification c s' = Some n1 /\
    Notification.userId n1 = Tenant.userId t /\
    Notification.isRead n1 = false /\
    MemStorage.getNotification (c + 1) s' = Some n2 /\
    Notification.userId n2 = Property.landlordId property /\
    Notification.isRead n2 = false.
Proof.
  cbv zeta. unfold Routes.processPayment, Routes.byParam, Routes.isTenant.
  destruct user as [u|]; [|discriminate].
  destruct (String.eqb (User.userType u) "tenant") eqn:Eu; [|discriminate].
  apply String.eqb_eq in Eu. cbn [negb].
  destruct id as [k|]; [|discriminate].
  destruct (MemStorage.getPayment k s) as [p|] eqn:Ep; [|discriminate].
  destruct (MemStorage.getTenantByUserId (User.id u) s) as [t|] eqn:Et;
    [|discriminate].
  destruct (Tenant.id t =? Payment.tenantId p) eqn:Eid; [|discriminate].
  apply Z.eqb_eq in Eid. cbn [negb].
  unfold MemStorage.updatePayment. unfold MemStorage.getPayment in Ep.
  rewrite Ep.
  change (MemStorage.getUnit (Tenant.unitId t) (MemStorage.with_paymentMap _ s))
    with (MemStorage.getUnit (Tenant.unitId t) s).
  destruct (MemStorage.getUnit (Tenant.unitId t) s) as [unit|] eqn:Eunit;
    [|discriminate].
  change (MemStorage.getProperty (Unit.propertyId unit)
            (MemStorage.with_paymentMap _ s))
    with (MemStorage.getProperty (Unit.propertyId unit) s).
  destruct (MemStorage.getProperty (Unit.propertyId unit) s)
    as [property|] eqn:Eprop; [|discriminate].
  cbn. intros _. exists u, k, p, t, unit, property. do 2 eexists.
  unfold MemStorage.getPayment, MemStorage.getNotification. cbn.
  repeat (split; [first [reflexivity | assumption | apply get_set_same]|]).
  split; [rewrite get_set_other by lia; apply get_set_same|].
  repeat (split; [first [reflexivity | apply get_set_same]|]).
  reflexivity.
Qed.

Lemma processPayment_marks_paid_witness :
  Routes.status
    (fst (Routes.processPayment (Some Demo.jane) (Some 3) None
            (Demo.date 2025 2 2) (Demo.date 2025 2 2) (Demo.date 2025 2 2)
            Demo.store)) = 200 /\
  option_map
    (fun p => (Payment.status p, Payment.paymentDate p,
               Payment.paymentMethod p))
    (MemStorage.getPayment 3
       (snd (Routes.processPayment (Some Demo.jane) (Some 3) None
               (Demo.date 2025 2 2) (Demo.date 2025 2 2) (Demo.date 2025 2 2)
               Demo.store)))
  = Some ("paid"%string, Some (Demo.date 2025 2 2),
          Some "Credit Card"%string) /\
  map (fun n => (Notification.id n, Notification.userId n))
    (JsMap.values
       (MemStorage.notificationMap
          (snd (Routes.processPayment (Some Demo.jane) (Some 3) None
                  (Demo.date 2025 2 2) (Demo.date 2025 2 2)
                  (Demo.date 2025 2 2) Demo.store))))
  = [(1, 2); (2, 2); (3, 1)] /\
  exists u, Some Demo.jane = Some u /\ User.userType u = "tenant"%string.
Proof.
  split; [reflexivity|]. split; [vm_compute; reflexivity|].
  split; [vm_compute; reflexivity|].
  destruct (processPayment_marks_paid (Some Demo.jane) (Some 3) None
              (Demo.date 2025 2 2) (Demo.date 2025 2 2) (Demo.date 2025 2 2)
              Demo.store eq_refl)
    as (u & k & p & t & unit & property & n1 & n2 & Hu & Ht & _).
  exists u. split; [exact Hu|exact Ht].
Defined.

(** X22. The process-payment route can fail after it has written. For a
    tenant user whose Tenant row owns the payment: when the unit of the
    tenant no longer exists, the answer is 500 although the payment is
    already stored as [paid], and no notification is created; when the
    unit exists but its property does not, the answer is 500 although the
    payment is stored as [paid] and the tenant has been notified, and the
    landlord's notification is missing. *)
Theorem processPayment_fails_after_paying (u : User.t) (k : Z)
  (paymentMethod : option string) (now now2 now3 : Date) (s : MemStorage.t)
  (p : Payment.t) (t : Tenant.t) :
  User.userType u = "tenant"%string ->
  MemStorage.getPayment k s = Some p ->
  MemStorage.getTenantByUserId (User.id u) s = Some t ->
  Tenant.id t = Payment.tenantId p ->
  let r := Routes.processPayment (Some u) (Some k) paymentMethod now now2
             now3 s in
  let p' :=
    Payment.merge p
      (Routes.paid now (Routes.orElse paymentMethod "Credit Card")) in
  (MemStorage.getUnit (Tenant.unitId t) s = None ->
   fst r = Routes.respond 500 (Routes.Message "Failed to process payment") /\
   MemStorage.getPayment k (snd r) = Some p' /\
   Payment.status p' = "paid"%string /\
   MemStorage.notificationMap (snd r) = MemStorage.notificationMap s) /\
  (forall unit,
     MemStorage.getUnit (Tenant.unitId t) s = Some unit ->
     MemStorage.getProperty (Unit.propertyId unit) s = None ->
     fst r = Routes.respond 500 (Routes.Message "Failed to process payment") /\
     MemStorage.getPayment k (snd r) = Some p' /\
     Payment.status p' = "paid"%string /\
     exists n,
       MemStorage.notificationMap (snd r)
       = JsMap.set (CurrentId.notification (MemStorage.currentId s)) n
           (MemStorage.notificationMap s) /\
       Notification.userId n = Tenant.userId t).
Proof.
  intros Hu Hp Ht Hid. cbv zeta.
  unfold Routes.processPayment, Routes.byParam, Routes.isTenant.
  rewrite Hu, Hp, Ht, Hid, Z.eqb_refl. cbn [String.eqb negb].
  change (String.eqb "tenant" "tenant") with true. cbn [negb].
  unfold MemStorage.updatePayment. unfold MemStorage.getPayment in *.
  rewrite Hp.
  change (MemStorage.getUnit (Tenant.unitId t) (MemStorage.with_paymentMap _ s))
    with (MemStorage.getUnit (Tenant.unitId t) s).
  split.
  - intros Hunit. rewrite Hunit. cbn.
    split; [reflexivity|]. split; [apply get_set_same|]. split; reflexivity.
  - intros unit Hunit Hprop. rewrite Hunit.
    change (MemStorage.getProperty (Unit.propertyId unit)
              (MemStorage.with_paymentMap _ s))
      with (MemStorage.getProperty (Unit.propertyId unit) s).
    rewrite Hprop. cbn.
    split; [reflexivity|]. split; [apply get_set_same|].
    split; [reflexivity|]. eexists. split; reflexivity.
Qed.

Lemma processPayment_fails_after_paying_witness :
  MemStorage.getUnit 1 Demo.gutted = None /\
  fst (Routes.processPayment (Some Demo.jane) (Some 3) None
         (Demo.date 2025 2 2) (Demo.date 2025 2 2) (Demo.date 2025 2 2)
         Demo.gutted)
  = Routes.respond 500 (Routes.Message "Failed to process payment") /\
  option_map Payment.status
    (MemStorage.getPayment 3
       (snd (Routes.processPayment (Some Demo.jane) (Some 3) None
               (Demo.date 2025 2 2) (Demo.date 2025 2 2) (Demo.date 2025 2 2)
               Demo.gutted)))
  = Some "paid"%string /\
  MemStorage.notificationMap
    (snd (Routes.processPayment (Some Demo.jane) (Some 3) None
            (Demo.date 2025 2 2) (Demo.date 2025 2 2) (Demo.date 2025 2 2)
            Demo.gutted))
  = MemStorage.notificationMap Demo.gutted.
Proof.
  split; [reflexivity|].
  destruct (processPayment_fails_after_paying Demo.jane 3 None
              (Demo.date 2025 2 2) (Demo.date 2025 2 2) (Demo.date 2025 2 2)
              Demo.gutted Demo.rentOfMarch
              (Tenant.create (Demo.lease 2 1 true) 1 Demo.boot)
              eq_refl eq_refl eq_refl eq_refl) as [H _].
  destruct (H eq_refl) as (Hr & Hg & _ & Hn).
  split; [exact Hr|]. split; [|exact Hn].
  rewrite Hg. reflexivity.
Defined.

(** X23. What the payments route shows. Without authentication the answer
    is 401. On a consistent store a landlord gets the answer of
    [getPaymentsByLandlord] for its own id, never a 500. Any other user is
    treated as a tenant: with no Tenant row for the user the answer is
    404, otherwise it is the list of the payments of the store whose
    [tenantId] is the id of the Tenant row found first for the user, so
    every payment shown belongs to a Tenant row of that very user. *)
Theorem listPayments_scope (s : MemStorage.t) :
  consistent s = true ->
  Routes.listPayments None s = Routes.unauthorized /\
  forall u,
    (User.userType u = "landlord"%string ->
     exists l,
       MemStorage.getPaymentsByLandlord (User.id u) s = Some l /\
       Routes.listPayments (Some u) s
       = Routes.respond 200 (Routes.PaymentViews l)) /\
    (User.userType u <> "landlord"%string ->
     match MemStorage.getTenantByUserId (User.id u) s with
     | None =>
         Routes.listPayments (Some u) s
         = Routes.respond 404 (Routes.Message "Tenant profile not found")
     | Some t =>
         Tenant.userId t = User.id u /\
         MemStorage.getTenant (Tenant.id t) s = Some t /\
         exists l,
           Routes.listPayments (Some u) s
           = Routes.respond 200 (Routes.Payments l) /\
           forall p,
             In p l <->
             MemStorage.getPayment (Payment.id p) s = Some p /\
             Payment.tenantId p = Tenant.id t
     end).
Proof.
  intros H. split; [reflexivity|]. intros u. split.
  - intros Hu.
    destruct (getTenantsByLandlord_total (User.id u) s H) as (views & Hv & _).
    unfold Routes.listPayments, MemStorage.getPaymentsByLandlord.
    rewrite Hu, Hv. cbn. eexists. split; reflexivity.
  - intros Hu. apply String.eqb_neq in Hu.
    unfold Routes.listPayments. cbn. rewrite Hu.
    destruct (MemStorage.getTenantByUserId (User.id u) s) as [t|] eqn:Et;
      [|reflexivity].
    unfold MemStorage.getTenantByUserId in Et.
    apply find_some in Et as [Hin Hid]. apply Z.eqb_eq in Hid.
    consistent_split H.
    apply (table_ok_values _ _ _ _ Htenant) in Hin.
    split; [exact Hid|]. split; [exact Hin|].
    eexists. split; [reflexivity|].
    intros p. unfold MemStorage.getPaymentsByTenant, MemStorage.getPayment.
    rewrite filter_In, Z.eqb_eq.
    now rewrite (table_ok_values _ _ _ _ Hpayment).
Qed.

Lemma listPayments_scope_witness :
  Routes.listPayments (Some Demo.jane) Demo.town
  = Routes.respond 200
      (Routes.Payments
         (MemStorage.getPaymentsByTenant 1 Demo.town)) /\
  map Payment.id (MemStorage.getPaymentsByTenant 1 Demo.town) = [1; 2; 3] /\
  exists l,
    MemStorage.getPaymentsByLandlord (User.id Demo.ann) Demo.town = Some l /\
    Routes.listPayments (Some Demo.ann) Demo.town
    = Routes.respond 200 (Routes.PaymentViews l).
Proof.
  split; [reflexivity|]. split; [reflexivity|].
  destruct (listPayments_scope Demo.town eq_refl) as [_ H].
  apply (H Demo.ann). reflexivity.
Defined.

(** X24. The read-notification route marks a notification only for the
    user it is addressed to: when it answers 200 the notification under
    the id has the requesting user's id as [userId], the body is that
    notification with [isRead] set, and the notifications of the store
    under other ids, those of other users among them, are as before. *)
Theorem readNotification_own_only (user : option User.t) (id : option Z)
  (s : MemStorage.t) :
  Routes.status (fst (Routes.readNotification user id s)) = 200 ->
  let r := Routes.readNotification user id s in
  exists u k n,
    user = Some u /\ id = Some k /\
    MemStorage.getNotification k s = Some n /\
    Notification.userId n = User.id u /\
    Routes.body (fst r)
    = Routes.OneNotification (Some (Notification.read n)) /\
    MemStorage.getNotification k (snd r) = Some (Notification.read n) /\
    forall k', k' <> k ->
               MemStorage.getNotification k' (snd r)
               = MemStorage.getNotification k' s.
Proof.
  cbv zeta. unfold Routes.readNotification, Routes.byParam.
  destruct user as [u|]; [|discriminate]. cbn [Routes.isAuthenticated negb].
  destruct id as [k|]; [|discriminate].
  destruct (MemStorage.getNotification k s) as [n|] eqn:En; [|discriminate].
  destruct (Notification.userId n =? User.id u) eqn:Eu; [|discriminate].
  apply Z.eqb_eq in Eu. cbn [negb].
  unfold MemStorage.markNotificationAsRead.
  unfold MemStorage.getNotification in En. rewrite En. cbn. intros _.
  exists u, k, n. unfold MemStorage.getNotification. cbn.
  repeat (split; [first [reflexivity | assumption | apply get_set_same]|]).
  intros k' Hk. apply get_set_other. congruence.
Qed.

Lemma readNotification_own_only_witness :
  fst (Routes.readNotification (Some Demo.john) (Some 1) Demo.store)
  = Routes.respond 403
      (Routes.Message "You don't have access to this notification") /\
  Routes.status
    (fst (Routes.readNotification (Some Demo.jane) (Some 1) Demo.store))
  = 200 /\
  exists u k n,
    Some Demo.jane = Some u /\ Some 1 = Some k /\
    MemStorage.getNotification k Demo.store = Some n /\
    Notification.userId n = User.id u /\
    Routes.body
      (fst (Routes.readNotification (Some Demo.jane) (Some 1) Demo.store))
    = Routes.OneNotification (Some (Notification.read n)).
Proof.
  split; [reflexivity|]. split; [reflexivity|].
  destruct (readNotification_own_only (Some Demo.jane) (Some 1) Demo.store
              eq_refl) as (u & k & n & Hu & Hk & Hn & Hid & Hb & _).
  exists u, k, n. repeat (split; [assumption|]). exact Hb.
Defined.

(** X26. The update-unit route checks the row, not the body. When it
    answers anything but 200 the store is as it was. When it answers 200,
    the request came from an authenticated user of type [landlord] who owns
    the property the unit belonged to before the update, the body went to
    [updateUnit] as it came, and the answer is the row merged with it:
    whatever [id] or [propertyId] the body carries is stored. *)
Theorem updateUnit_route_passes_the_body (user : option User.t)
  (id : option Z) (body : Unit.Partial) (s : MemStorage.t) :
  (Routes.status (fst (Routes.updateUnit user id body s)) <> 200 ->
   snd (Routes.updateUnit user id body s) = s) /\
  (Routes.status (fst (Routes.updateUnit user id body s)) = 200 ->
   exists u k unit p,
     user = Some u /\ User.userType u = "landlord"%string /\ id = Some k /\
     MemStorage.getUnit k s = Some unit /\
     MemStorage.getProperty (Unit.propertyId unit) s = Some p /\
     Property.landlordId p = User.id u /\
     Routes.body (fst (Routes.updateUnit user id body s))
     = Routes.OneUnit (Some (Unit.merge unit body)) /\
     MemStorage.getUnit k (snd (Routes.updateUnit user id body s))
     = Some (Unit.merge unit body) /\
     snd (Routes.updateUnit user id body s)
     = snd (MemStorage.updateUnit k body s)).
Proof.
  unfold Routes.updateUnit, Routes.isLandlord, Routes.byParam.
  destruct user as [u|]; [|split; [reflexivity|discriminate]].
  destruct (String.eqb (User.userType u) "landlord") eqn:Eu;
    [|split; [reflexivity|discriminate]].
  apply String.eqb_eq in Eu. cbn [negb].
  destruct id as [k|]; [|split; [reflexivity|discriminate]].
  destruct (MemStorage.getUnit k s) as [unit|] eqn:Eunit;
    [|split; [reflexivity|discriminate]].
  destruct (MemStorage.getProperty (Unit.propertyId unit) s) as [p|] eqn:Ep;
    [|split; [reflexivity|discriminate]].
  destruct (Property.landlordId p =? User.id u) eqn:El;
    [|split; [reflexivity|discriminate]].
  apply Z.eqb_eq in El. cbn [negb].
  unfold MemStorage.updateUnit. unfold MemStorage.getUnit in Eunit.
  rewrite Eunit. cbn. split; [intros H; now contradiction H|].
  intros _. exists u, k, unit, p. unfold MemStorage.getUnit. cbn.
  repeat (split; [first [reflexivity | assumption | apply get_set_same]|]).
  now rewrite Eunit.
Qed.

Lemma updateUnit_route_passes_the_body_witness :
  fst (Routes.updateUnit (Some Demo.ann) (Some 2) (Demo.renumber 3) Demo.town)
  = Routes.respond 403 (Routes.Message "You don't have access to this unit")
  /\
  snd (Routes.updateUnit (Some Demo.ann) (Some 2) (Demo.renumber 3) Demo.town)
  = Demo.town /\
  Routes.status
    (fst (Routes.updateUnit (Some Demo.john) (Some 2) (Demo.renumber 3)
            Demo.town)) = 200 /\
  snd (Routes.updateUnit (Some Demo.john) (Some 2) (Demo.renumber 3)
         Demo.town) = Demo.crossed /\
  exists u k unit p,
    Some Demo.john = Some u /\ User.userType u = "landlord"%string /\
    Some 2 = Some k /\
    MemStorage.getUnit k Demo.town = Some unit /\
    MemStorage.getProperty (Unit.propertyId unit) Demo.town = Some p /\
    Property.landlordId p = User.id u /\
    Routes.body
      (fst (Routes.updateUnit (Some Demo.john) (Some 2) (Demo.renumber 3)
              Demo.town))
    = Routes.OneUnit (Some (Unit.merge unit (Demo.renumber 3))).
Proof.
  destruct (updateUnit_route_passes_the_body (Some Demo.ann) (Some 2)
              (Demo.renumber 3) Demo.town) as [Hrefused _].
  destruct (updateUnit_route_passes_the_body (Some Demo.john) (Some 2)
              (Demo.renumber 3) Demo.town) as [_ Hdone].
  split; [reflexivity|].
  split; [apply Hrefused; vm_compute; discriminate|].
  split; [reflexivity|]. split; [vm_compute; reflexivity|].
  destruct (Hdone eq_refl)
    as (u & k & unit & p & Hu & Ht & Hk & Hunit & Hp & Hl & Hb & _).
  exists u, k, unit, p. repeat (split; [assumption|]). exact Hb.
Defined.

Lemma delete_then_get_witness :
  fst (MemStorage.deletePayment 3 Demo.store) = true /\
  MemStorage.getPayment 3 (snd (MemStorage.deletePayment 3 Demo.store)) = None
  /\
  MemStorage.getPayment 2 (snd (MemStorage.deletePayment 3 Demo.store))
  = MemStorage.getPayment 2 Demo.store /\
  fst (MemStorage.deletePayment 3 (snd (MemStorage.deletePayment 3 Demo.store)))
  = false.
Proof.
  destruct (delete_then_get Demo.store 3)
    as (_ & _ & _ & (H1 & H2 & H3 & H4) & _).
  split; [apply H1; discriminate|]. split; [exact H2|].
  split; [apply H3; discriminate|exact H4].
Defined.

Lemma getNotificationsByUser_newest_first_witness :
  map Notification.id
    (MemStorage.getNotificationsByUser 2
       (snd (Routes.processPayment (Some Demo.jane) (Some 3) None
               (Demo.date 2025 2 2) (Demo.date 2025 3 2) (Demo.date 2025 3 2)
               Demo.store)))
  = [2; 1] /\
  MemStorage.getNotificationsByUser 2 Demo.store
  = filter (fun n => Notification.userId n =? 2)
           (JsMap.values (MemStorage.notificationMap Demo.store)).
Proof.
  split; [reflexivity|].
  apply (getNotificationsByUser_newest_first Demo.store 2).
  simpl. constructor; constructor.
Defined.

Lemma history_keeps_rows_under_their_ids_witness :
  Unit.id (Unit.merge (Unit.create Demo.unit101 1 Demo.boot) Demo.resend) = 1
  /\
  1 <= 1 <
  CurrentId.unit
    (MemStorage.currentId
       (snd (run (Demo.seed ++ [UpdateUnit 1 Demo.resend]) MemStorage.new))).
Proof.
  destruct (history_keeps_rows_under_their_ids
              (Demo.seed ++ [UpdateUnit 1 Demo.resend])) as [Hk Hid].
  destruct Hk as (_ & _ & Hk & _).
  destruct (Hid eq_refl) as (_ & _ & Hu & _).
  split.
  - apply (Hu 1). vm_compute. reflexivity.
  - apply (Hk 1 (Unit.merge (Unit.create Demo.unit101 1 Demo.boot)
                            Demo.resend)).
    vm_compute. reflexivity.
Defined.

Lemma markNotificationAsRead_idempotent_witness :
  option_map Notification.isRead (MemStorage.getNotification 1 Demo.store)
  = Some false /\
  option_map Notification.isRead
    (MemStorage.getNotification 1
       (snd (MemStorage.markNotificationAsRead 1 Demo.store)))
  = Some true /\
  snd (MemStorage.markNotificationAsRead 99 Demo.store) = Demo.store.
Proof.
  destruct (markNotificationAsRead_idempotent Demo.store 1)
    as (_ & H & _).
  destruct (markNotificationAsRead_idempotent Demo.store 99)
    as (_ & _ & _ & _ & _ & H').
  split; [reflexivity|]. split; [rewrite H; reflexivity|].
  apply H'. reflexivity.
Defined.
